(** * NBA players dashboard: a model of [nba_dashboard.py]

    The script is a Streamlit page: on every interaction it is executed from
    top to bottom, reads the current value of each widget, derives a few
    tables from the loaded CSV with pandas, and hands charts to the page.

    The embedding follows that shape.
    - A [PlayerRecord] is one line of the CSV, a [DataFrame] a header with
      labelled rows.
    - pandas operations are pure functions returning new tables; the two
      places where the script updates an object in place ([df['season'] = ..]
      and [.columns = ..]) update the object store.
    - The script itself runs in a state-and-exception monad.  The state holds
      the object store, the module namespace, the elements emitted to the
      page so far and the [st.cache_data] cache.  An exception keeps the
      state at the point of the raise, so the elements that were emitted
      before it are still on the page.

    What is represented of the file.  A [PlayerRecord] is a line as pandas
    has typed it when the file is the one the script is written for: name,
    team and position are [str] objects, the seven statistics are numbers,
    and no cell is missing.  A file that pandas types otherwise (a column of
    names that are all numerals, a blank cell) is not a value of [CsvFile].

    Numbers.  pandas holds the statistics as IEEE doubles; here a cell is
    the rational it stands for.  Comparisons and maxima are exact on
    doubles, so they are the same here.  A mean is not: [mean] is the mean
    in exact arithmetic, of which pandas returns a rounding.  The text of a
    number on the page is not computed either: a page element holds the
    number together with the f-string it is put in (see [Fixed1]). *)

From Stdlib Require Import List String Ascii Bool Arith ZArith QArith Qminmax Lia.
From Stdlib Require Import Sorted Permutation.
Import ListNotations.

Local Open Scope string_scope.
Local Open Scope list_scope.
Local Open Scope nat_scope.

(** ** Data model *)

(** The float type of a derived statistic: [None] stands for [nan]. *)
Definition Number := option Q.

(** One line of the CSV, with the season the load adds. *)
Record PlayerRecord := mkPlayer {
  name : string;
  team : string;
  position : string;
  ppg : Q;
  rpg : Q;
  apg : Q;
  spg : Q;
  bpg : Q;
  fg_pct : Q;
  efficiency : Q;
  season : string
}.

(** Text and numeric columns of the table, by label. *)
Inductive StrCol := c_name | c_team | c_position | c_season.
Inductive NumCol := c_ppg | c_rpg | c_apg | c_spg | c_bpg | c_fg_pct | c_efficiency.

(** The label of a column, and the field of a record it names. *)
Definition str_label (c : StrCol) : string :=
  match c with
  | c_name => "name" | c_team => "team"
  | c_position => "position" | c_season => "season"
  end.

Definition num_label (c : NumCol) : string :=
  match c with
  | c_ppg => "ppg" | c_rpg => "rpg" | c_apg => "apg" | c_spg => "spg"
  | c_bpg => "bpg" | c_fg_pct => "fg_pct" | c_efficiency => "efficiency"
  end.

Definition str_field (c : StrCol) (r : PlayerRecord) : string :=
  match c with
  | c_name => name r | c_team => team r
  | c_position => position r | c_season => season r
  end.

Definition num_field (c : NumCol) (r : PlayerRecord) : Q :=
  match c with
  | c_ppg => ppg r | c_rpg => rpg r | c_apg => apg r | c_spg => spg r
  | c_bpg => bpg r | c_fg_pct => fg_pct r | c_efficiency => efficiency r
  end.

(** A table of players: the column labels it has, and its rows, each under
    its index label.  A row is read only through [getitem_str],
    [getitem_num] and [row_get], which look the label up in [columns] first,
    so the field of a column the table does not have is never observed. *)
Record DataFrame := mkFrame {
  columns : list string;
  rows : list (nat * PlayerRecord)
}.

(** [value_counts().reset_index()]: one line per value with its count. *)
Record CountsFrame := mkCounts {
  counts_columns : list string;
  counts_rows : list (string * nat)
}.

(** [groupby(key).agg({...: 'mean'}).reset_index()]: one line per key with
    the means of ppg, rpg, apg and efficiency. *)
Record StatsRow := mkStats {
  stats_key : string;
  mean_ppg : Number;
  mean_rpg : Number;
  mean_apg : Number;
  mean_efficiency : Number
}.

Record StatsFrame := mkStatsFrame {
  stats_columns : list string;
  stats_rows : list StatsRow
}.

(** What [top_25_nba_players.csv] is when the page runs: not there, there
    without a single line, there with text that is no CSV table, or a table
    with a header line and lines of cells. *)
Inductive CsvFile :=
| Absent
| Empty
| Unparsable
| Parsed (header : list string) (records : list PlayerRecord).

(** The exceptions the script can raise. *)
Inductive Exn :=
| FileNotFoundError
| EmptyDataError
| ParserError
| KeyError (label : string)
| IndexError
| ValueError
| TypeError.

(** The outcome of an operation: a value, or an exception. *)
Inductive Result (A : Type) :=
| Ok (a : A)
| Raised (e : Exn).
Arguments Ok {A} a.
Arguments Raised {A} e.

(** ** pandas operations on values *)

Definition has_column (d : DataFrame) (c : string) : bool :=
  existsb (String.eqb c) (columns d).

(** The rows of a table without their labels, and the labels. *)
Definition records (d : DataFrame) : list PlayerRecord := map snd (rows d).

Definition index (d : DataFrame) : list nat := map fst (rows d).

(** [df[c]] for a text column. *)
Definition getitem_str (d : DataFrame) (c : StrCol) : Result (list string) :=
  if has_column d (str_label c)
  then Ok (map (str_field c) (records d))
  else Raised (KeyError (str_label c)).

(** [df[c]] for a numeric column. *)
Definition getitem_num (d : DataFrame) (c : NumCol) : Result (list Q) :=
  if has_column d (num_label c)
  then Ok (map (num_field c) (records d))
  else Raised (KeyError (num_label c)).

(** [series == value]; the value of a select box over no options is [None],
    which no cell equals. *)
Definition series_eq (s : list string) (v : option string) : list bool :=
  map (fun x => match v with Some y => String.eqb x y | None => false end) s.

(** [series.isin(values)] *)
Definition isin (s : list string) (values : list string) : list bool :=
  map (fun x => existsb (String.eqb x) values) s.

(** The elements of [l] at the positions where the mask is [true]. *)
Fixpoint select_mask {A : Type} (mask : list bool) (l : list A) : list A :=
  match mask, l with
  | b :: mask', x :: l' =>
      if b then x :: select_mask mask' l' else select_mask mask' l'
  | _, _ => []
  end.

(** [df[mask]]: a new table with the rows the mask keeps, under their labels. *)
Definition getitem_mask (d : DataFrame) (mask : list bool) : DataFrame :=
  mkFrame (columns d) (select_mask mask (rows d)).

(** [series.unique()]: the distinct values in order of first appearance. *)
Fixpoint unique (s : list string) : list string :=
  match s with
  | [] => []
  | x :: s' => x :: filter (fun y => negb (String.eqb x y)) (unique s')
  end.

(** [x] is put behind the elements at the front of [l] that are ahead of
    it. *)
Fixpoint insert_by {A : Type} (before : A -> A -> bool) (x : A) (l : list A) : list A :=
  match l with
  | [] => [x]
  | y :: l' => if before y x then y :: insert_by before x l' else x :: y :: l'
  end.

(** A stable sort: [before y x] says that [y] is strictly ahead of [x] in
    the order, so an element moves past exactly the later elements that are
    strictly ahead of it, and stays in front of those that tie with it. *)
Fixpoint stable_sort {A : Type} (before : A -> A -> bool) (l : list A) : list A :=
  match l with
  | [] => []
  | x :: l' => insert_by before x (stable_sort before l')
  end.

(** [sorted(values, reverse=True)] on strings. *)
Definition sorted_reverse (l : list string) : list string :=
  stable_sort (fun y x => String.ltb x y) l.

(** [sorted(values)] on strings, the order of [groupby] keys. *)
Definition sorted_strings (l : list string) : list string :=
  stable_sort (fun y x => String.ltb y x) l.

(** The sum of a series. *)
Definition Qsum (l : list Q) : Q := fold_right Qplus 0%Q l.

(** [series.mean()]: [nan] on an empty series. *)
Definition mean (l : list Q) : Number :=
  match l with
  | [] => None
  | _ => Some (Qred (Qsum l / inject_Z (Z.of_nat (List.length l)))%Q)
  end.

(** [series.max()]: [nan] on an empty series. *)
Definition series_max (l : list Q) : Number :=
  match l with
  | [] => None
  | x :: l' => Some (fold_left Qmax l' x)
  end.

(** Python's [max(iterable)]: [ValueError] on an empty one. *)
Definition py_max (l : list Q) : Result Q :=
  match l with
  | [] => Raised ValueError
  | x :: l' => Ok (fold_left (fun m y => if Qlt_le_dec m y then y else m) l' x)
  end.

(** [df.iloc[0]] *)
Definition iloc0 (d : DataFrame) : Result PlayerRecord :=
  match rows d with
  | [] => Raised IndexError
  | r :: _ => Ok (snd r)
  end.

(** [player_data[c]] on a row taken out of table [d]. *)
Definition row_get (d : DataFrame) (r : PlayerRecord) (c : NumCol) : Result Q :=
  if has_column d (num_label c) then Ok (num_field c r) else Raised (KeyError (num_label c)).

(** The same for a text column. *)
Definition row_get_str (d : DataFrame) (r : PlayerRecord) (c : StrCol) : Result string :=
  if has_column d (str_label c) then Ok (str_field c r) else Raised (KeyError (str_label c)).

(** The order [nlargest] sorts by: the value of [y] in column [c] is
    larger than that of [x]. *)
Definition larger (c : NumCol) (y x : nat * PlayerRecord) : bool :=
  negb (Qle_bool (num_field c (snd y)) (num_field c (snd x))).

(** [df.nlargest(n, c)]: the first [n] rows in descending order of [c]; rows
    with equal values keep their order in [df] (pandas' [keep='first']). *)
Definition nlargest (n : nat) (c : NumCol) (d : DataFrame) : Result DataFrame :=
  if has_column d (num_label c)
  then Ok (mkFrame (columns d) (firstn n (stable_sort (larger c) (rows d))))
  else Raised (KeyError (num_label c)).

(** The number of occurrences of [x] in a series. *)
Fixpoint count_of (x : string) (s : list string) : nat :=
  match s with
  | [] => 0
  | y :: s' => if String.eqb x y then S (count_of x s') else count_of x s'
  end.

(** [series.value_counts().reset_index()]: the distinct values with their
    number of occurrences, the most frequent first; the frame's columns are
    the series' name and [count].  (Among values of equal count pandas keeps
    an order that depends on its sort routine; first appearance is used.) *)
Definition value_counts (label : string) (s : list string) : CountsFrame :=
  mkCounts [label; "count"]
    (stable_sort (fun y x => Nat.ltb (snd x) (snd y))
       (map (fun v => (v, count_of v s)) (unique s))).

(** The first of the labels that is not a column of [d]. *)
Definition first_missing (d : DataFrame) (labels : list string) : option string :=
  find (fun c => negb (has_column d c)) labels.

(** The rows of [d] whose value in column [key] is [k]. *)
Definition group_of (key : StrCol) (k : string) (d : DataFrame) : list PlayerRecord :=
  filter (fun r => String.eqb (str_field key r) k) (records d).

(** [df.groupby(key).agg({'ppg': 'mean', 'rpg': 'mean', 'apg': 'mean',
    'efficiency': 'mean'}).reset_index()]: one line per value of [key], in
    sorted order of the keys.  A column the table lacks is a [KeyError]
    (pandas names all the missing ones in its message; the first is kept). *)
Definition groupby_mean (d : DataFrame) (key : StrCol) : Result StatsFrame :=
  match first_missing d [str_label key; "ppg"; "rpg"; "apg"; "efficiency"] with
  | Some c => Raised (KeyError c)
  | None =>
      Ok (mkStatsFrame [str_label key; "ppg"; "rpg"; "apg"; "efficiency"]
            (map (fun k =>
                    let g := group_of key k d in
                    mkStats k (mean (map ppg g)) (mean (map rpg g))
                      (mean (map apg g)) (mean (map efficiency g)))
               (sorted_strings (unique (map (str_field key) (records d))))))
  end.

(** A line of a melted table: the id, the name of the statistic, its value. *)
Definition MeltRow := (string * string * Number)%type.

(** [df[['name', 'ppg', 'rpg', 'apg']].melt(id_vars=['name'], value_vars=
    ['ppg', 'rpg', 'apg'], ...)]: the lines of ppg for every row, then those
    of rpg, then those of apg. *)
Definition melt_players (d : DataFrame) : Result (list MeltRow) :=
  match first_missing d ["name"; "ppg"; "rpg"; "apg"] with
  | Some c => Raised (KeyError c)
  | None =>
      Ok (flat_map (fun c =>
                      map (fun r => (name r, num_label c, Some (num_field c r)))
                        (records d))
            [c_ppg; c_rpg; c_apg])
  end.

(** [position_stats.melt(id_vars=['position'], value_vars=['ppg', 'rpg',
    'apg', 'efficiency'], ...)] *)
Definition melt_stats (s : StatsFrame) : list MeltRow :=
  map (fun r => (stats_key r, "ppg", mean_ppg r)) (stats_rows s)
  ++ map (fun r => (stats_key r, "rpg", mean_rpg r)) (stats_rows s)
  ++ map (fun r => (stats_key r, "apg", mean_apg r)) (stats_rows s)
  ++ map (fun r => (stats_key r, "efficiency", mean_efficiency r)) (stats_rows s).

(** ** The page *)

(** A plotly figure, with the data it is drawn from. *)
Inductive Figure :=
| BarGrouped (title : string) (data : list MeltRow)
| RadarChart (title : string) (traces : list (string * list Q)) (range_max : Q)
| BarValues (title : string) (data : list (string * Q))
| PieChart (title : string) (data : CountsFrame)
| ScatterChart (title : string) (data : DataFrame)
| Heatmap (title : string) (data : StatsFrame)
| BarPlayers (title : string) (data : DataFrame)
| BarCounts (title : string) (data : CountsFrame).

(** A number in an f-string, [f"{prefix}{x:.1f}{suffix}"]: the text around
    it and the number handed to the format. *)
Inductive Fixed1 :=
| fixed1 (prefix : string) (x : Number) (suffix : string).

(** An element of the page. *)
Inductive Element :=
| Title (text : string)
| Markdown (text : string)
| Header (text : string)
| Subheader (text : string)
| Write (text : string)
| Info (text : string)
| Tabs (labels : list string)
| Columns (n : nat)
| Selectbox (label : string) (options : list string)
| Multiselect (label : string) (options default : list string)
| Metric (label : string) (value : Fixed1) (delta : option Fixed1)
| PlotlyChart (fig : Figure).

(** Where an element goes: [st.sidebar], the main area, or the tab entered
    by [with tabN:] (the column blocks inside a tab are not told apart). *)
Inductive Place := Sidebar | Main | Tab (n : nat).

(** The values the widgets hold during one execution of the script. *)
Record Widgets := mkWidgets {
  selected_season : option string;
  selected_players : list string;
  selected_position : string;
  selected_player : option string
}.

(** ** Execution state *)

(** The objects names are bound to: player tables, count tables and tables
    of means. *)
Inductive Obj :=
| OFrame (d : DataFrame)
| OCounts (c : CountsFrame)
| OStats (s : StatsFrame).

(** The state of an execution: the [st.cache_data] cache, the object store
    (an address is a position in it), the module namespace (the latest
    binding of a name first) and the page. *)
Record State := mkState {
  cache : option DataFrame;
  heap : list Obj;
  globals : list (string * nat);
  page : list (Place * Element)
}.

(** A statement: it returns a value or raises, and leaves a state either
    way. *)
Definition M (A : Type) : Type := State -> Result A * State.

Definition ret {A : Type} (a : A) : M A := fun st => (Ok a, st).

Definition bind {A B : Type} (m : M A) (k : A -> M B) : M B :=
  fun st =>
    match m st with
    | (Ok a, st') => k a st'
    | (Raised e, st') => (Raised e, st')
    end.

Declare Scope script_scope.
Delimit Scope script_scope with script.
Notation "x <- m ;; k" := (bind m (fun x => k))
  (at level 100, m at next level, right associativity) : script_scope.
Notation "m ;; k" := (bind m (fun _ => k))
  (at level 100, right associativity) : script_scope.
Local Open Scope script_scope.

(** An operation on values, run as a statement. *)
Definition lift {A : Type} (r : Result A) : M A := fun st => (r, st).

(** A new object; its address is returned. *)
Definition alloc (o : Obj) : M nat :=
  fun st =>
    (Ok (List.length (heap st)),
     mkState (cache st) (heap st ++ [o]) (globals st) (page st)).

(** The object at an address, read as a player table, a count table or a
    table of means. *)
Definition read_frame (a : nat) : M DataFrame :=
  fun st =>
    match nth_error (heap st) a with
    | Some (OFrame d) => (Ok d, st)
    | _ => (Raised TypeError, st)
    end.

Definition read_counts (a : nat) : M CountsFrame :=
  fun st =>
    match nth_error (heap st) a with
    | Some (OCounts c) => (Ok c, st)
    | _ => (Raised TypeError, st)
    end.

Definition read_stats (a : nat) : M StatsFrame :=
  fun st =>
    match nth_error (heap st) a with
    | Some (OStats s) => (Ok s, st)
    | _ => (Raised TypeError, st)
    end.

(** [l] with [x] at position [n]. *)
Fixpoint replace_nth {A : Type} (n : nat) (x : A) (l : list A) : list A :=
  match n, l with
  | _, [] => []
  | O, _ :: l' => x :: l'
  | S n', y :: l' => y :: replace_nth n' x l'
  end.

(** The object at an address is replaced: an update in place. *)
Definition store (a : nat) (o : Obj) : M unit :=
  fun st =>
    (Ok tt, mkState (cache st) (replace_nth a o (heap st)) (globals st) (page st)).

(** [x = <object>] at module level. *)
Definition assign (x : string) (a : nat) : M unit :=
  fun st =>
    (Ok tt, mkState (cache st) (heap st) ((x, a) :: globals st) (page st)).

(** An [st.*] call: the element is added at the end of the page. *)
Definition emit (p : Place) (e : Element) : M unit :=
  fun st =>
    (Ok tt, mkState (cache st) (heap st) (globals st) (page st ++ [(p, e)])).

(** The cache takes a copy of the table. *)
Definition write_cache (d : DataFrame) : M unit :=
  fun st => (Ok tt, mkState (Some d) (heap st) (globals st) (page st)).

(** The object a module-level name is bound to. *)
Definition lookup (x : string) (st : State) : option Obj :=
  match find (fun b => String.eqb x (fst b)) (globals st) with
  | Some (_, a) => nth_error (heap st) a
  | None => None
  end.

(** The address a module-level name is bound to. *)
Definition address_of (x : string) (st : State) : option nat :=
  option_map snd (find (fun b => String.eqb x (fst b)) (globals st)).

(** ** The script *)

(** [pd.read_csv("top_25_nba_players.csv")]: a new table whose rows are
    labelled 0, 1, 2, ... *)
Definition read_csv (file : CsvFile) : M nat :=
  match file with
  | Absent => lift (Raised FileNotFoundError)
  | Empty => lift (Raised EmptyDataError)
  | Unparsable => lift (Raised ParserError)
  | Parsed header recs =>
      alloc (OFrame (mkFrame header (combine (seq 0 (List.length recs)) recs)))
  end.

(** The record with its season set. *)
Definition set_season (v : string) (r : PlayerRecord) : PlayerRecord :=
  mkPlayer (name r) (team r) (position r) (ppg r) (rpg r) (apg r) (spg r)
    (bpg r) (fg_pct r) (efficiency r) v.

(** [df['season'] = v]: the table at [a] gets the value in every row, in a
    new last column when it had no such column. *)
Definition setitem_season (a : nat) (v : string) : M unit :=
  d <- read_frame a ;;
  store a (OFrame (mkFrame
                     (if has_column d "season" then columns d
                      else columns d ++ ["season"])
                     (map (fun r => (fst r, set_season v (snd r))) (rows d)))).

(** [load_data()], lines 17 to 21. *)
Definition load_data (file : CsvFile) : M nat :=
  df <- read_csv file ;;
  setitem_season df "2024-25" ;;
  ret df.

(** [@st.cache_data]: the first call that returns stores the table; every
    later call hands out a fresh copy of the stored table and does not run
    the function. *)
Definition cache_data (f : M nat) : M nat :=
  fun st =>
    match cache st with
    | Some d => alloc (OFrame d) st
    | None => (a <- f ;; d <- read_frame a ;; write_cache d ;; ret a) st
    end.

(** [x[c]] on the table a name is bound to. *)
Definition column (a : nat) (c : StrCol) : M (list string) :=
  d <- read_frame a ;; lift (getitem_str d c).

Definition column_num (a : nat) (c : NumCol) : M (list Q) :=
  d <- read_frame a ;; lift (getitem_num d c).

(** [x[x[c] == v]] *)
Definition where_eq (a : nat) (c : StrCol) (v : option string) : M nat :=
  d <- read_frame a ;;
  s <- lift (getitem_str d c) ;;
  alloc (OFrame (getitem_mask d (series_eq s v))).

(** A list comprehension whose body may raise. *)
Fixpoint for_each {A B : Type} (f : A -> M B) (l : list A) : M (list B) :=
  match l with
  | [] => ret []
  | x :: l' => y <- f x ;; ys <- for_each f l' ;; ret (y :: ys)
  end.

(** The sidebar (lines 27 to 56): the season, the players to compare and the
    position; the address of [filtered_df] is returned. *)
Definition sidebar (w : Widgets) (df : nat) : M nat :=
  emit Sidebar (Title "🏀 NBA Players Dashboard") ;;
  emit Sidebar (Markdown "---") ;;
  season_col <- column df c_season ;;
  let seasons := sorted_reverse (unique season_col) in
  emit Sidebar (Selectbox "Select Season" seasons) ;;
  filtered_df <- where_eq df c_season (selected_season w) ;;
  assign "filtered_df" filtered_df ;;
  emit Sidebar (Markdown "---") ;;
  emit Sidebar (Title "Compare Players") ;;
  names <- column df c_name ;;
  first_names <- column df c_name ;;
  emit Sidebar (Multiselect "Select Players to Compare"
                  (unique names) (firstn 2 first_names)) ;;
  position_col <- column df c_position ;;
  let positions := "All" :: unique position_col in
  emit Sidebar (Selectbox "Filter by Position" positions) ;;
  filtered_df <-
    (if String.eqb (selected_position w) "All" then ret filtered_df
     else (a <- where_eq filtered_df c_position (Some (selected_position w)) ;;
           assign "filtered_df" a ;;
           ret a)) ;;
  ret filtered_df.

(** The axes of the radar chart. *)
Definition categories : list NumCol := [c_ppg; c_rpg; c_apg; c_spg; c_bpg].

(** [st.metric(label, f"{x[c].mean():.1f}", f"Max: {x[c].max():.1f}")] *)
Definition metric_mean_max (label : string) (a : nat) (c : NumCol) : M unit :=
  s <- column_num a c ;;
  s' <- column_num a c ;;
  emit (Tab 1) (Metric label (fixed1 "" (mean s) "")
                  (Some (fixed1 "Max: " (series_max s') ""))).

(** The loop over the selected players that adds one trace each. *)
Fixpoint radar_traces (comparison_df : nat) (players : list string)
    (traces : list (string * list Q)) : M (list (string * list Q)) :=
  match players with
  | [] => ret traces
  | player :: rest =>
      d <- read_frame comparison_df ;;
      names <- lift (getitem_str d c_name) ;;
      player_data <- lift (iloc0 (getitem_mask d (series_eq names (Some player)))) ;;
      values <- for_each (fun cat => lift (row_get d player_data cat)) categories ;;
      radar_traces comparison_df rest (traces ++ [(player, values)])
  end.

(** Tab 1, Player Comparison (lines 66 to 138). *)
Definition tab1 (w : Widgets) (filtered_df : nat) : M unit :=
  emit (Tab 1) (Header "Player Comparison") ;;
  match selected_players w with
  | [] => emit (Tab 1) (Info "Please select players to compare from the sidebar.")
  | _ :: _ =>
      emit (Tab 1) (Write (String.append "Comparing: "
                             (String.concat ", " (selected_players w)))) ;;
      d <- read_frame filtered_df ;;
      names <- lift (getitem_str d c_name) ;;
      comparison_df <- alloc (OFrame (getitem_mask d (isin names (selected_players w)))) ;;
      assign "comparison_df" comparison_df ;;
      emit (Tab 1) (Columns 3) ;;
      metric_mean_max "Points Per Game" comparison_df c_ppg ;;
      metric_mean_max "Rebounds Per Game" comparison_df c_rpg ;;
      metric_mean_max "Assists Per Game" comparison_df c_apg ;;
      d <- read_frame comparison_df ;;
      comparison_stats <- lift (melt_players d) ;;
      emit (Tab 1) (PlotlyChart (BarGrouped "Player Statistics Comparison"
                                   comparison_stats)) ;;
      traces <- radar_traces comparison_df (selected_players w) [] ;;
      maxima <- for_each (fun cat => s <- column_num comparison_df cat ;;
                                     lift (py_max s)) categories ;;
      top <- lift (py_max maxima) ;;
      emit (Tab 1) (PlotlyChart (RadarChart "Player Stats Comparison (Radar Chart)"
                                   traces top))
  end.

(** [st.metric(label, f"{player_stats[c]:.1f}{suffix}")] *)
Definition metric_of (label : string) (d : DataFrame) (r : PlayerRecord)
    (c : NumCol) (suffix : string) : M unit :=
  v <- lift (row_get d r c) ;;
  emit (Tab 2) (Metric label (fixed1 "" (Some v) suffix) None).

(** Tab 2, Individual Stats (lines 141 to 199). *)
Definition tab2 (w : Widgets) (df : nat) : M unit :=
  emit (Tab 2) (Header "Individual Player Stats") ;;
  names <- column df c_name ;;
  emit (Tab 2) (Selectbox "Select a Player for Detailed Stats" (unique names)) ;;
  d <- read_frame df ;;
  names <- lift (getitem_str d c_name) ;;
  player_stats <- lift (iloc0 (getitem_mask d (series_eq names (selected_player w)))) ;;
  emit (Tab 2) (Columns 3) ;;
  metric_of "Points Per Game" d player_stats c_ppg "" ;;
  metric_of "Rebounds Per Game" d player_stats c_rpg "" ;;
  metric_of "Assists Per Game" d player_stats c_apg "" ;;
  emit (Tab 2) (Columns 4) ;;
  metric_of "Steals Per Game" d player_stats c_spg "" ;;
  metric_of "Blocks Per Game" d player_stats c_bpg "" ;;
  metric_of "Field Goal %" d player_stats c_fg_pct "%" ;;
  metric_of "Efficiency" d player_stats c_efficiency "" ;;
  emit (Tab 2) (Subheader "Player Information") ;;
  emit (Tab 2) (Columns 2) ;;
  t <- lift (row_get_str d player_stats c_team) ;;
  emit (Tab 2) (Write (String.append "**Team:** " t)) ;;
  p <- lift (row_get_str d player_stats c_position) ;;
  emit (Tab 2) (Write (String.append "**Position:** " p)) ;;
  values <- for_each (fun cat => lift (row_get d player_stats cat)) categories ;;
  emit (Tab 2) (PlotlyChart
                  (BarValues (String.append
                                (match selected_player w with
                                 | Some p => p
                                 | None => "None"
                                 end) "'s Key Statistics")
                     (combine ["PPG"; "RPG"; "APG"; "SPG"; "BPG"] values))).

(** [x.columns = labels] *)
Definition set_columns (a : nat) (labels : list string) : M unit :=
  c <- read_counts a ;;
  store a (OCounts (mkCounts labels (counts_rows c))).

(** [px.scatter(data, x='ppg', y='rpg', color='position', hover_data=
    ['name', 'team'], ...)]: plotly refuses a column the table lacks. *)
Definition px_scatter (title : string) (d : DataFrame) : Result Figure :=
  match first_missing d ["ppg"; "rpg"; "position"; "name"; "team"] with
  | Some _ => Raised ValueError
  | None => Ok (ScatterChart title d)
  end.

(** Tab 3, Position Analysis (lines 202 to 254). *)
Definition tab3 (df filtered_df : nat) : M unit :=
  emit (Tab 3) (Header "Position Analysis") ;;
  position_col <- column df c_position ;;
  position_counts <- alloc (OCounts (value_counts "position" position_col)) ;;
  assign "position_counts" position_counts ;;
  set_columns position_counts ["Position"; "Count"] ;;
  c <- read_counts position_counts ;;
  emit (Tab 3) (PlotlyChart (PieChart "Distribution of Players by Position" c)) ;;
  d <- read_frame df ;;
  s <- lift (groupby_mean d c_position) ;;
  position_stats <- alloc (OStats s) ;;
  assign "position_stats" position_stats ;;
  s <- read_stats position_stats ;;
  emit (Tab 3) (PlotlyChart (BarGrouped "Average Statistics by Position"
                               (melt_stats s))) ;;
  f <- read_frame filtered_df ;;
  fig_scatter <- lift (px_scatter "Points vs Rebounds by Position" f) ;;
  emit (Tab 3) (PlotlyChart fig_scatter).

(** Tab 4, Team Analysis (lines 257 to 299). *)
Definition tab4 (df : nat) : M unit :=
  emit (Tab 4) (Header "Team Analysis") ;;
  d <- read_frame df ;;
  s <- lift (groupby_mean d c_team) ;;
  team_stats <- alloc (OStats s) ;;
  assign "team_stats" team_stats ;;
  s <- read_stats team_stats ;;
  emit (Tab 4) (PlotlyChart (Heatmap "Team Performance Heatmap" s)) ;;
  d <- read_frame df ;;
  top <- lift (nlargest 10 c_efficiency d) ;;
  top_10_efficiency <- alloc (OFrame top) ;;
  assign "top_10_efficiency" top_10_efficiency ;;
  t <- read_frame top_10_efficiency ;;
  emit (Tab 4) (PlotlyChart (BarPlayers "Top 10 Players by Efficiency" t)) ;;
  team_col <- column df c_team ;;
  team_counts <- alloc (OCounts (value_counts "team" team_col)) ;;
  assign "team_counts" team_counts ;;
  set_columns team_counts ["Team"; "Count"] ;;
  c <- read_counts team_counts ;;
  emit (Tab 4) (PlotlyChart (BarCounts "Number of Top 25 Players by Team" c)).

(** The main content (lines 59 to 303): title, the four tabs, the footer. *)
Definition main_content (w : Widgets) (df filtered_df : nat) : M unit :=
  emit Main (Title "🏀 NBA Players Performance Analysis") ;;
  emit Main (Markdown "---") ;;
  emit Main (Tabs ["Player Comparison"; "Individual Stats";
                   "Position Analysis"; "Team Analysis"]) ;;
  tab1 w filtered_df ;;
  tab2 w df ;;
  tab3 df filtered_df ;;
  tab4 df ;;
  emit Main (Markdown "---") ;;
  emit Main (Markdown "Data source: NBA Players Statistics 2024-25 Season").

(** Everything below [df = load_data()]. *)
Definition page_body (w : Widgets) (df : nat) : M unit :=
  filtered_df <- sidebar w df ;;
  main_content w df filtered_df.

(** The whole script, top to bottom ([st.set_page_config] puts nothing on
    the page). *)
Definition script (file : CsvFile) (w : Widgets) : M unit :=
  df <- cache_data (load_data file) ;;
  assign "df" df ;;
  page_body w df.

(** One execution of the script: a fresh namespace, object store and page;
    only the cache is carried over from the executions before. *)
Definition rerun (c : option DataFrame) (file : CsvFile) (w : Widgets)
    : Result unit * State :=
  script file w (mkState c [] [] []).

(** A session: the page is executed once per interaction, each time with
    the file as it then is and the widgets as they then stand.  The result
    is the cache after the last execution and every execution's outcome. *)
Fixpoint session (c : option DataFrame) (steps : list (CsvFile * Widgets))
    : option DataFrame * list (Result unit * State) :=
  match steps with
  | [] => (c, [])
  | (file, w) :: steps' =>
      let out := rerun c file w in
      let rest := session (cache (snd out)) steps' in
      (fst rest, out :: snd rest)
  end.

(** ** Tables and widget values the theorems speak about *)

Definition required_columns : list string :=
  ["name"; "team"; "position"; "ppg"; "rpg"; "apg"; "spg"; "bpg"; "fg_pct";
   "efficiency"].

(** The table [load_data] returns for a file with this header and these
    lines. *)
Definition table (header : list string) (recs : list PlayerRecord) : DataFrame :=
  mkFrame
    (if existsb (String.eqb "season") header then header else header ++ ["season"])
    (map (fun r => (fst r, set_season "2024-25" (snd r)))
       (combine (seq 0 (List.length recs)) recs)).

(** An execution is served the table of [header] and [recs]: either the
    cache is empty and the file holds them, or the cache holds the table
    from an earlier execution. *)
Definition serves (c : option DataFrame) (file : CsvFile)
    (header : list string) (recs : list PlayerRecord) : Prop :=
  c = Some (table header recs) \/ (c = None /\ file = Parsed header recs).

(** What [st.selectbox] returns: one of its options, [None] when it has
    none. *)
Definition selectbox_returns (options : list string) (v : option string) : Prop :=
  match options with
  | [] => v = None
  | _ :: _ => exists o, v = Some o /\ In o options
  end.

(** The rows of [d] a position choice keeps. *)
Definition passes (choice : string) (r : PlayerRecord) : bool :=
  String.eqb choice "All" || String.eqb (position r) choice.

(** The state in which [page_body] starts when the execution was served
    table [d]. *)
Definition loaded_state (d : DataFrame) : State :=
  mkState (Some d) [OFrame d] [("df", 0)] [].

(** Every row of the table is of season 2024-25, in a column of its own. *)
Definition season_constant (d : DataFrame) : Prop :=
  has_column d "season" = true /\
  Forall (fun r => season r = "2024-25") (records d).

(** The table has the ten columns the script reads. *)
Definition well_formed (d : DataFrame) : Prop :=
  forall c, In c required_columns -> has_column d c = true.

(** ** Reasoning about executions *)

(** [wp m Q E st]: run from [st], [m] returns a value and a state that
    satisfy [Q], or raises an exception in a state that satisfy [E]. *)
Definition wp {A : Type} (m : M A) (Q : A -> State -> Prop)
    (E : Exn -> State -> Prop) (st : State) : Prop :=
  match m st with
  | (Ok a, st') => Q a st'
  | (Raised e, st') => E e st'
  end.


(** [d'] holds rows of [d] under the columns of [d]: what filtering and
    [nlargest] produce. *)
Definition derived (d d' : DataFrame) : Prop :=
  columns d' = columns d /\ incl (rows d') (rows d).

(** [d'] is derived from a table that is in the store of [st0]. *)
Definition from_old (st0 : State) (d' : DataFrame) : Prop :=
  exists a d, nth_error (heap st0) a = Some (OFrame d) /\ derived d d'.

(** What the code after a point [st0] of an execution may have done by the
    time it is in [st], when it only creates objects, binds the names [N]
    to objects it created, updates objects it created, and emits elements:
    the store of [st0] is intact below the new objects, every new table is
    derived from a table of [st0], the bindings of [st0] are shadowed only
    for names in [N], and the page of [st0] is still there. *)
Record grows (N : list string) (st0 st : State) : Prop := mkGrows {
  g_cache : cache st = cache st0;
  g_heap : exists h, heap st = heap st0 ++ h /\
                     Forall (fun o => forall d', o = OFrame d' -> from_old st0 d') h;
  g_globals : exists g, globals st = g ++ globals st0 /\
                        Forall (fun b => In (fst b) N /\
                                         List.length (heap st0) <= snd b) g;
  g_page : exists p, page st = page st0 ++ p
}.

(** The names the script binds after [df]. *)
Definition view_names : list string :=
  ["filtered_df"; "comparison_df"; "position_counts"; "position_stats";
   "team_stats"; "top_10_efficiency"; "team_counts"].

(** [m] keeps the invariant [G], whether it returns or raises, and a value
    it returns satisfies [R]. *)
Definition keeps {A : Type} (G : State -> Prop) (m : M A) (R : A -> Prop) : Prop :=
  forall st, G st -> wp m (fun a st' => G st' /\ R a) (fun _ st' => G st') st.

(** A cache is empty or holds the table of some file. *)
Definition cache_ok (c : option DataFrame) : Prop :=
  c = None \/ exists header recs, c = Some (table header recs).

(** The tables of an object store. *)
Definition frames (h : list Obj) : list DataFrame :=
  flat_map (fun o => match o with OFrame d => [d] | _ => [] end) h.

(** What one execution that was served a table leaves behind. *)
Definition df_intact (d : DataFrame) (st : State) : Prop :=
  lookup "df" st = Some (OFrame d) /\
  cache st = Some d /\
  forall x a, x <> "df" -> address_of x st = Some a ->
              address_of "df" st <> Some a.


(** [df[df['season'] == selected_season]] *)
Definition season_filtered (d : DataFrame) (w : Widgets) : DataFrame :=
  getitem_mask d (series_eq (map (str_field c_season) (records d)) (selected_season w)).

(** The table [filtered_df] is bound to when the sidebar is done. *)
Definition filtered (d : DataFrame) (w : Widgets) : DataFrame :=
  if String.eqb (selected_position w) "All" then season_filtered d w
  else getitem_mask (season_filtered d w)
         (series_eq (map (str_field c_position) (records (season_filtered d w)))
            (Some (selected_position w))).

(** What the sidebar puts on the page for table [d]. *)
Definition sidebar_elements (d : DataFrame) : list (Place * Element) :=
  [ (Sidebar, Title "🏀 NBA Players Dashboard");
    (Sidebar, Markdown "---");
    (Sidebar, Selectbox "Select Season"
                (sorted_reverse (unique (map season (records d)))));
    (Sidebar, Markdown "---");
    (Sidebar, Title "Compare Players");
    (Sidebar, Multiselect "Select Players to Compare"
                (unique (map name (records d))) (firstn 2 (map name (records d))));
    (Sidebar, Selectbox "Filter by Position"
                ("All" :: unique (map position (records d)))) ].

(** The address of [filtered_df] and the state when the sidebar is done,
    for a table that has the columns the sidebar reads. *)
Definition after_sidebar (d : DataFrame) (w : Widgets) : nat * State :=
  if String.eqb (selected_position w) "All"
  then (1, mkState (Some d) [OFrame d; OFrame (filtered d w)]
             [("filtered_df", 1); ("df", 0)] (sidebar_elements d))
  else (2, mkState (Some d)
             [OFrame d; OFrame (season_filtered d w); OFrame (filtered d w)]
             [("filtered_df", 2); ("filtered_df", 1); ("df", 0)]
             (sidebar_elements d)).

(** The rows a position choice keeps, with their labels. *)
Definition position_rows (choice : string) (d : DataFrame) : list (nat * PlayerRecord) :=
  filter (fun r => String.eqb (position (snd r)) choice) (rows d).

(** The season select box has returned one of the options it offers for
    table [d]. *)
Definition season_chosen (d : DataFrame) (w : Widgets) : Prop :=
  selectbox_returns (sorted_reverse (unique (map season (records d))))
    (selected_season w).

(** The names the tabs bind. *)
Definition tab_names : list string :=
  ["comparison_df"; "position_counts"; "position_stats"; "team_stats";
   "top_10_efficiency"; "team_counts"].

(** The rows the comparison is made on: those whose name is among the
    selected players and that the position choice keeps. *)
Definition compared (d : DataFrame) (w : Widgets) : list PlayerRecord :=
  filter (fun r => existsb (String.eqb (name r)) (selected_players w)
                   && passes (selected_position w) r)
    (records d).

(** [filtered_df[filtered_df['name'].isin(selected_players)]] *)
Definition comparison (d : DataFrame) (w : Widgets) : DataFrame :=
  getitem_mask (filtered d w)
    (isin (map (str_field c_name) (records (filtered d w))) (selected_players w)).


(** The elements of a page that are in the first tab. *)
Definition in_tab1 (e : Place * Element) : bool :=
  match fst e with
  | Tab 1 => true
  | _ => false
  end.

(** The select box of the second tab has returned one of the names it
    offers for table [d]. *)
Definition player_chosen (d : DataFrame) (w : Widgets) : Prop :=
  selectbox_returns (unique (map name (records d))) (selected_player w).

(** The tables of the third and fourth tab that are computed from the
    loaded table [d] alone, by the name they are bound to. *)
Inductive computed_from (d : DataFrame) : string -> Obj -> Prop :=
| cf_position_counts :
    computed_from d "position_counts"
      (OCounts (mkCounts ["Position"; "Count"]
                  (counts_rows (value_counts "position"
                                  (map (str_field c_position) (records d))))))
| cf_position_stats s :
    groupby_mean d c_position = Ok s ->
    computed_from d "position_stats" (OStats s)
| cf_team_stats s :
    groupby_mean d c_team = Ok s ->
    computed_from d "team_stats" (OStats s)
| cf_top_10_efficiency t :
    nlargest 10 c_efficiency d = Ok t ->
    computed_from d "top_10_efficiency" (OFrame t)
| cf_team_counts :
    computed_from d "team_counts"
      (OCounts (mkCounts ["Team"; "Count"]
                  (counts_rows (value_counts "team"
                                  (map (str_field c_team) (records d)))))).

(** Name [x] is not bound, or it is bound to the table computed from [d]. *)
Definition settled (d : DataFrame) (x : string) (st : State) : Prop :=
  address_of x st = None \/
  exists o, lookup x st = Some o /\ computed_from d x o.

(** The names those tables are bound to. *)
Definition analysis_names : list string :=
  ["position_counts"; "position_stats"; "team_stats"; "top_10_efficiency";
   "team_counts"].

(** The table the scatter chart of the third tab is drawn from, when the
    chart is on the page. *)
Definition scatter_data (p : list (Place * Element)) : option DataFrame :=
  match find (fun e => match snd e with
                       | PlotlyChart (ScatterChart _ _) => true
                       | _ => false
                       end) p with
  | Some (_, PlotlyChart (ScatterChart _ d)) => Some d
  | _ => None
  end.

(** What the third tab has done by the time it returns or raises. *)
Definition tab3_post (d : DataFrame) (st st' : State) : Prop :=
  grows ["position_counts"; "position_stats"] st st' /\
  (address_of "position_counts" st = None -> settled d "position_counts" st') /\
  (address_of "position_stats" st = None -> settled d "position_stats" st').

(** What the fourth tab has done by the time it returns or raises. *)
Definition tab4_post (d : DataFrame) (st st' : State) : Prop :=
  grows ["team_stats"; "top_10_efficiency"; "team_counts"] st st' /\
  (address_of "team_stats" st = None -> settled d "team_stats" st') /\
  (address_of "top_10_efficiency" st = None -> settled d "top_10_efficiency" st') /\
  (address_of "team_counts" st = None -> settled d "team_counts" st').

(** Every table of the analysis tabs is settled. *)
Definition all_settled (d : DataFrame) (st : State) : Prop :=
  forall x, In x analysis_names -> settled d x st.

(** ** Notions of the further properties *)

(** The first row of [d] under the name [p]: what [d[d['name'] == p].iloc[0]]
    reads when there is one. *)
Definition first_named (d : DataFrame) (p : string) : option PlayerRecord :=
  find (fun r => String.eqb (name r) p) (records d).

(** The statistics of a row on the axes of the radar chart. *)
Definition row_values (r : PlayerRecord) : list Q :=
  map (fun c => num_field c r) categories.

(** The sum of a column of counts. *)
Definition total (l : list (string * nat)) : nat :=
  fold_right (fun x n => snd x + n) 0 l.

(** Every selected player has a row in [filtered_df], and the player of the
    second tab has a row in [df]: the rows the two [.iloc[0]] read. *)
Definition players_found (d : DataFrame) (w : Widgets) : Prop :=
  (forall p, In p (selected_players w) ->
             In p (map name (records (filtered d w)))) /\
  (exists p, selected_player w = Some p /\ In p (map name (records d))).

(** The exceptions an execution that was served table [d] ends with: an
    [IndexError] when a player is not found, a [KeyError] on a required
    column the table lacks. *)
Definition raise_ok (d : DataFrame) (w : Widgets) (e : Exn) : Prop :=
  (e = IndexError /\ ~ players_found d w) \/
  (exists c, e = KeyError c /\ In c required_columns /\ has_column d c = false).

(** The traces of the radar chart: for each selected player, in the order
    of the selection, the statistics of the first row of [f] under the
    player's name. *)
Definition radar_of (f : DataFrame) (players : list string)
    : list (string * list Q) :=
  map (fun p => (p, match first_named f p with
                    | Some r => row_values r
                    | None => []
                    end)) players.

(** [top] is [max([max(cmp[cat]) for cat in categories])]. *)
Definition radar_range (cmp : DataFrame) (top : Q) : Prop :=
  exists maxima,
    Forall2 (fun c m => py_max (map (num_field c) (records cmp)) = Ok m)
      categories maxima /\
    py_max maxima = Ok top.

(** The elements of a complete page, part by part. *)
Definition main_header : list (Place * Element) :=
  [ (Main, Title "🏀 NBA Players Performance Analysis");
    (Main, Markdown "---");
    (Main, Tabs ["Player Comparison"; "Individual Stats";
                 "Position Analysis"; "Team Analysis"]) ].

Definition comparison_elements (players : list string) (cmp : DataFrame)
    (bars : list MeltRow) (traces : list (string * list Q)) (top : Q)
    : list (Place * Element) :=
  match players with
  | [] =>
      [ (Tab 1, Header "Player Comparison");
        (Tab 1, Info "Please select players to compare from the sidebar.") ]
  | _ :: _ =>
      [ (Tab 1, Header "Player Comparison");
        (Tab 1, Write (String.append "Comparing: " (String.concat ", " players)));
        (Tab 1, Columns 3);
        (Tab 1, Metric "Points Per Game"
                  (fixed1 "" (mean (map ppg (records cmp))) "")
                  (Some (fixed1 "Max: " (series_max (map ppg (records cmp))) "")));
        (Tab 1, Metric "Rebounds Per Game"
                  (fixed1 "" (mean (map rpg (records cmp))) "")
                  (Some (fixed1 "Max: " (series_max (map rpg (records cmp))) "")));
        (Tab 1, Metric "Assists Per Game"
                  (fixed1 "" (mean (map apg (records cmp))) "")
                  (Some (fixed1 "Max: " (series_max (map apg (records cmp))) "")));
        (Tab 1, PlotlyChart (BarGrouped "Player Statistics Comparison" bars));
        (Tab 1, PlotlyChart (RadarChart "Player Stats Comparison (Radar Chart)"
                               traces top)) ]
  end.

Definition individual_elements (options : list string) (p : string)
    (r : PlayerRecord) : list (Place * Element) :=
  [ (Tab 2, Header "Individual Player Stats");
    (Tab 2, Selectbox "Select a Player for Detailed Stats" options);
    (Tab 2, Columns 3);
    (Tab 2, Metric "Points Per Game" (fixed1 "" (Some (ppg r)) "") None);
    (Tab 2, Metric "Rebounds Per Game" (fixed1 "" (Some (rpg r)) "") None);
    (Tab 2, Metric "Assists Per Game" (fixed1 "" (Some (apg r)) "") None);
    (Tab 2, Columns 4);
    (Tab 2, Metric "Steals Per Game" (fixed1 "" (Some (spg r)) "") None);
    (Tab 2, Metric "Blocks Per Game" (fixed1 "" (Some (bpg r)) "") None);
    (Tab 2, Metric "Field Goal %" (fixed1 "" (Some (fg_pct r)) "%") None);
    (Tab 2, Metric "Efficiency" (fixed1 "" (Some (efficiency r)) "") None);
    (Tab 2, Subheader "Player Information");
    (Tab 2, Columns 2);
    (Tab 2, Write (String.append "**Team:** " (team r)));
    (Tab 2, Write (String.append "**Position:** " (position r)));
    (Tab 2, PlotlyChart (BarValues (String.append p "'s Key Statistics")
                           (combine ["PPG"; "RPG"; "APG"; "SPG"; "BPG"]
                              (row_values r)))) ].

Definition position_elements (counts : CountsFrame) (stats : StatsFrame)
    (f : DataFrame) : list (Place * Element) :=
  [ (Tab 3, Header "Position Analysis");
    (Tab 3, PlotlyChart (PieChart "Distribution of Players by Position" counts));
    (Tab 3, PlotlyChart (BarGrouped "Average Statistics by Position"
                           (melt_stats stats)));
    (Tab 3, PlotlyChart (ScatterChart "Points vs Rebounds by Position" f)) ].

Definition team_elements (stats : StatsFrame) (top10 : DataFrame)
    (counts : CountsFrame) : list (Place * Element) :=
  [ (Tab 4, Header "Team Analysis");
    (Tab 4, PlotlyChart (Heatmap "Team Performance Heatmap" stats));
    (Tab 4, PlotlyChart (BarPlayers "Top 10 Players by Efficiency" top10));
    (Tab 4, PlotlyChart (BarCounts "Number of Top 25 Players by Team" counts)) ].

Definition footer : list (Place * Element) :=
  [ (Main, Markdown "---");
    (Main, Markdown "Data source: NBA Players Statistics 2024-25 Season") ].

(** [p] is the page of an execution on table [d] that ran to its end. *)
Definition complete_page (d : DataFrame) (w : Widgets)
    (p : list (Place * Element)) : Prop :=
  exists bars top n r sp stm t,
    (selected_players w <> [] ->
     melt_players (comparison d w) = Ok bars /\
     radar_range (comparison d w) top) /\
    selected_player w = Some n /\
    first_named d n = Some r /\
    groupby_mean d c_position = Ok sp /\
    groupby_mean d c_team = Ok stm /\
    nlargest 10 c_efficiency d = Ok t /\
    p = sidebar_elements d
        ++ main_header
        ++ comparison_elements (selected_players w) (comparison d w) bars
             (radar_of (filtered d w) (selected_players w)) top
        ++ individual_elements (unique (map name (records d))) n r
        ++ position_elements
             (mkCounts ["Position"; "Count"]
                (counts_rows (value_counts "position" (map position (records d)))))
             sp (filtered d w)
        ++ team_elements stm t
             (mkCounts ["Team"; "Count"]
                (counts_rows (value_counts "team" (map team (records d)))))
        ++ footer.

(** [rows] counts the values of the series [s]: one line per distinct
    value, with the number of its occurrences, the larger counts first. *)
Definition counts_of (s : list string) (rows : list (string * nat)) : Prop :=
  NoDup (map fst rows) /\
  (forall v n, In (v, n) rows <->
               In v s /\ n = List.length (filter (String.eqb v) s)) /\
  total rows = List.length s /\
  StronglySorted (fun a b => snd b <= snd a) rows.

(** [s] is a table of the groups of [d] by [key]: one line per value of the
    key, in ascending order of the values; every value has a row, so none
    of the means of a line is not-a-number. *)
Definition grouped_by (d : DataFrame) (key : StrCol) (s : StatsFrame) : Prop :=
  stats_columns s = [str_label key; "ppg"; "rpg"; "apg"; "efficiency"] /\
  StronglySorted (fun a b => String.ltb a b = true)
    (map stats_key (stats_rows s)) /\
  (forall k, In k (map stats_key (stats_rows s)) <->
             In k (map (str_field key) (records d))) /\
  Forall (fun row =>
            group_of key (stats_key row) d <> [] /\
            mean_ppg row <> None /\ mean_rpg row <> None /\
            mean_apg row <> None /\ mean_efficiency row <> None)
    (stats_rows s).

(** ** A sample file

    Twenty-five lines in the layout of [top_25_nba_players.csv], used to
    run the model on concrete inputs. *)

Definition player (n t p : string) (ppg rpg apg spg bpg fg_pct efficiency : Q)
    : PlayerRecord :=
  mkPlayer n t p ppg rpg apg spg bpg fg_pct efficiency "".

Definition roster : list PlayerRecord :=
  [ player "Player 01" "BOS" "PG" 34 (54 # 10) 7 (6 # 10) (4 # 10) (567 # 10) (316 # 10);
    player "Player 02" "LAL" "SG" (333 # 10) (109 # 10) (27 # 10) (21 # 10) (8 # 10) (439 # 10) (309 # 10);
    player "Player 03" "NYK" "SF" (327 # 10) (88 # 10) (28 # 10) (12 # 10) (4 # 10) (571 # 10) (325 # 10);
    player "Player 04" "PHX" "PF" (314 # 10) (107 # 10) (35 # 10) (12 # 10) (22 # 10) 59 (329 # 10);
    player "Player 05" "OKC" "C" (307 # 10) (108 # 10) (94 # 10) (17 # 10) (3 # 10) (486 # 10) (288 # 10);
    player "Player 06" "DEN" "PG" (308 # 10) (52 # 10) (57 # 10) (18 # 10) (6 # 10) (568 # 10) (325 # 10);
    player "Player 07" "GSW" "SG" (302 # 10) (74 # 10) (91 # 10) 1 (5 # 10) (578 # 10) 31;
    player "Player 08" "CLE" "SF" (296 # 10) (59 # 10) (67 # 10) (8 # 10) (19 # 10) (612 # 10) (271 # 10);
    player "Player 09" "DAL" "PF" (288 # 10) (42 # 10) (99 # 10) (11 # 10) (17 # 10) (604 # 10) (296 # 10);
    player "Player 10" "MIN" "C" (278 # 10) (75 # 10) (79 # 10) (19 # 10) (13 # 10) (506 # 10) (271 # 10);
    player "Player 11" "MIL" "PG" (267 # 10) (124 # 10) (51 # 10) (7 # 10) 2 (506 # 10) (283 # 10);
    player "Player 12" "PHI" "SG" (265 # 10) (78 # 10) (77 # 10) (14 # 10) (21 # 10) (448 # 10) (271 # 10);
    player "Player 13" "BOS" "SF" (259 # 10) (88 # 10) (41 # 10) (15 # 10) (6 # 10) (555 # 10) (264 # 10);
    player "Player 14" "LAL" "PF" (244 # 10) 12 (29 # 10) (15 # 10) (12 # 10) (607 # 10) (254 # 10);
    player "Player 15" "NYK" "C" (246 # 10) (98 # 10) (94 # 10) (19 # 10) (4 # 10) (453 # 10) (243 # 10);
    player "Player 16" "PHX" "PG" (237 # 10) (124 # 10) (105 # 10) (7 # 10) (3 # 10) (617 # 10) (239 # 10);
    player "Player 17" "OKC" "SG" (233 # 10) (108 # 10) (77 # 10) (14 # 10) (24 # 10) (528 # 10) (236 # 10);
    player "Player 18" "DEN" "SF" (216 # 10) (94 # 10) (65 # 10) 1 (21 # 10) (459 # 10) (239 # 10);
    player "Player 19" "GSW" "PF" (209 # 10) (62 # 10) (56 # 10) (9 # 10) (25 # 10) (493 # 10) (227 # 10);
    player "Player 20" "CLE" "C" (208 # 10) (98 # 10) 3 1 (16 # 10) (532 # 10) (231 # 10);
    player "Player 21" "DAL" "PG" (199 # 10) (52 # 10) (75 # 10) (13 # 10) (24 # 10) (536 # 10) (212 # 10);
    player "Player 22" "MIN" "SG" (198 # 10) (83 # 10) (49 # 10) (9 # 10) (4 # 10) (475 # 10) (193 # 10);
    player "Player 23" "MIL" "SF" (184 # 10) (119 # 10) (49 # 10) (5 # 10) (17 # 10) 58 (189 # 10);
    player "Player 24" "PHI" "PF" (178 # 10) (71 # 10) 2 (9 # 10) (15 # 10) (566 # 10) (195 # 10);
    player "Player 25" "BOS" "C" (176 # 10) (107 # 10) 6 (9 # 10) (24 # 10) (561 # 10) (205 # 10) ]%Q.

Definition sample_file : CsvFile := Parsed required_columns roster.

(** The widgets as the page first shows them: the only season, the first
    two players, no position filter, the first player in the second tab. *)
Definition default_widgets : Widgets :=
  mkWidgets (Some "2024-25") ["Player 01"; "Player 02"] "All" (Some "Player 01").

(** A file in which one player's position reads "All". *)
Definition all_rounders : list PlayerRecord :=
  [ player "Player 01" "BOS" "All" 34 (54 # 10) 7 (6 # 10) (4 # 10) (567 # 10) (316 # 10);
    player "Player 02" "LAL" "SG" (333 # 10) (109 # 10) (27 # 10) (21 # 10) (8 # 10)
      (439 # 10) (309 # 10) ]%Q.

Definition all_rounders_file : CsvFile := Parsed required_columns all_rounders.

(** The position select box is on its option "All", nobody is compared. *)
Definition position_all_widgets : Widgets :=
  mkWidgets (Some "2024-25") [] "All" (Some "Player 01").

(** The first two players are compared, the position filter is on "PG". *)
Definition point_guard_widgets : Widgets :=
  mkWidgets (Some "2024-25") ["Player 01"; "Player 02"] "PG" (Some "Player 01").

(** A file with the header line only, and the widgets as the page shows
    them for it: select boxes without options hold no value. *)
Definition header_only_file : CsvFile := Parsed required_columns [].

Definition no_choice_widgets : Widgets := mkWidgets None [] "All" None.

(** The first two players are compared, the position filter is on "C":
    neither of them is a center. *)
Definition center_widgets : Widgets :=
  mkWidgets (Some "2024-25") ["Player 01"; "Player 02"] "C" (Some "Player 01").

(** The sample file without its last column. *)
Definition nine_columns : list string :=
  ["name"; "team"; "position"; "ppg"; "rpg"; "apg"; "spg"; "bpg"; "fg_pct"].

Definition no_efficiency_file : CsvFile := Parsed nine_columns roster.

(** Two point guards are compared, the position filter is on "PG". *)
Definition guards_widgets : Widgets :=
  mkWidgets (Some "2024-25") ["Player 01"; "Player 06"] "PG" (Some "Player 06").

(** ** Proofs *)

#[local] Arguments String.eqb : simpl never.

(** *** Weakest preconditions *)

(** Sequencing: what must hold before [m] for [k] to end well after it. *)
Lemma wp_bind {A B : Type} (m : M A) (k : A -> M B) Q E st :
  wp m (fun a st' => wp (k a) Q E st') E st -> wp (bind m k) Q E st.
Proof.
  unfold wp, bind. destruct (m st) as [[a | e] st']; auto.
Qed.

(** Weaker postconditions. *)
Lemma wp_mono {A : Type} (m : M A) (Q Q' : A -> State -> Prop)
    (E E' : Exn -> State -> Prop) st :
  wp m Q E st ->
  (forall a st', Q a st' -> Q' a st') ->
  (forall e st', E e st' -> E' e st') ->
  wp m Q' E' st.
Proof.
  unfold wp. destruct (m st) as [[a | e] st']; auto.
Qed.

(** What [wp] says of the outcome and the final state. *)
Lemma wp_run {A : Type} (m : M A) Q E st :
  wp m Q E st ->
  match fst (m st) with
  | Ok a => Q a (snd (m st))
  | Raised e => E e (snd (m st))
  end.
Proof.
  unfold wp. destruct (m st) as [[a | e] st']; auto.
Qed.


(** *** Facts about [grows] *)

Lemma derived_refl d : derived d d.
Proof. split; [reflexivity | apply incl_refl]. Qed.

Lemma derived_trans d1 d2 d3 : derived d1 d2 -> derived d2 d3 -> derived d1 d3.
Proof.
  intros [H1 H2] [H3 H4]. split; [congruence | eapply incl_tran; eauto].
Qed.

Lemma grows_refl N st : grows N st st.
Proof.
  split; [reflexivity | exists [] | exists [] | exists []].
  - split; [symmetry; apply app_nil_r | constructor].
  - split; [reflexivity | constructor].
  - symmetry; apply app_nil_r.
Qed.

(** The objects of [st0] are where they were. *)
Lemma grows_old N st0 st a o :
  grows N st0 st -> nth_error (heap st0) a = Some o -> nth_error (heap st) a = Some o.
Proof.
  intros [_ [h [Hh _]] _ _] Ha. rewrite Hh.
  rewrite nth_error_app1; [exact Ha |].
  apply nth_error_Some. congruence.
Qed.

Lemma grows_length N st0 st :
  grows N st0 st -> List.length (heap st0) <= List.length (heap st).
Proof.
  intros [_ [h [Hh _]] _ _]. rewrite Hh, length_app. lia.
Qed.

(** Every table of the store is derived from a table of [st0]. *)
Lemma grows_frame N st0 st a d' :
  grows N st0 st -> nth_error (heap st) a = Some (OFrame d') -> from_old st0 d'.
Proof.
  intros [_ [h [Hh Hnew]] _ _] Ha. rewrite Hh in Ha.
  destruct (Nat.lt_ge_cases a (List.length (heap st0))) as [Hlt | Hge].
  - rewrite nth_error_app1 in Ha by exact Hlt.
    exists a, d'. split; [exact Ha | apply derived_refl].
  - rewrite nth_error_app2 in Ha by exact Hge.
    apply nth_error_In in Ha. rewrite Forall_forall in Hnew.
    apply (Hnew _ Ha). reflexivity.
Qed.


Lemma grows_trans N st0 st1 st2 :
  grows N st0 st1 -> grows N st1 st2 -> grows N st0 st2.
Proof.
  intros H1 H2.
  pose proof (grows_length _ _ _ H1) as Hlen.
  destruct H1 as [Hc1 [h1 [Hh1 Hn1]] [g1 [Hg1 Hb1]] [p1 Hp1]].
  assert (Hfo : forall d', from_old st1 d' -> from_old st0 d').
  { intros d' (a & d & Ha & Hd). rewrite Hh1 in Ha.
    destruct (Nat.lt_ge_cases a (List.length (heap st0))) as [Hlt | Hge].
    - rewrite nth_error_app1 in Ha by exact Hlt. exists a, d. auto.
    - rewrite nth_error_app2 in Ha by exact Hge.
      apply nth_error_In in Ha. rewrite Forall_forall in Hn1.
      destruct (Hn1 _ Ha d eq_refl) as (a0 & d0 & Ha0 & Hd0).
      exists a0, d0. split; [exact Ha0 | eapply derived_trans; eauto]. }
  destruct H2 as [Hc2 [h2 [Hh2 Hn2]] [g2 [Hg2 Hb2]] [p2 Hp2]].
  split.
  - congruence.
  - exists (h1 ++ h2). split.
    + rewrite Hh2, Hh1, app_assoc. reflexivity.
    + apply Forall_app. split; [exact Hn1 |].
      eapply Forall_impl; [| exact Hn2]. intros o Ho d' Hd'. auto.
  - exists (g2 ++ g1). split.
    + rewrite Hg2, Hg1, app_assoc. reflexivity.
    + apply Forall_app. split; [| exact Hb1].
      eapply Forall_impl; [| exact Hb2]. intros b [Hin Hle]. split; [exact Hin | lia].
  - exists (p1 ++ p2). rewrite Hp2, Hp1, app_assoc. reflexivity.
Qed.

Lemma grows_weaken N N' st0 st : incl N N' -> grows N st0 st -> grows N' st0 st.
Proof.
  intros Hincl [Hc Hh [g [Hg Hb]] Hp]. split; auto.
  exists g. split; [exact Hg |].
  eapply Forall_impl; [| exact Hb]. intros b [Hin Hle]. split; auto.
Qed.

Lemma find_app_none {A : Type} (f : A -> bool) (l1 l2 : list A) :
  Forall (fun x => f x = false) l1 -> find f (l1 ++ l2) = find f l2.
Proof.
  induction 1 as [| x l Hx _ IH]; simpl; [reflexivity |].
  rewrite Hx. exact IH.
Qed.

(** A name outside [N] is bound as it was. *)
Lemma grows_address N st0 st x :
  grows N st0 st -> ~ In x N -> address_of x st = address_of x st0.
Proof.
  intros [_ _ [g [Hg Hb]] _] Hx. unfold address_of. rewrite Hg.
  rewrite find_app_none; [reflexivity |].
  eapply Forall_impl; [| exact Hb]. intros b [Hin _]. simpl.
  destruct (String.eqb_spec x (fst b)); [subst; contradiction | reflexivity].
Qed.

Lemma lookup_address x st :
  lookup x st = match address_of x st with
                | Some a => nth_error (heap st) a
                | None => None
                end.
Proof.
  unfold lookup, address_of.
  destruct (find _ (globals st)) as [[y a] |]; reflexivity.
Qed.

Lemma grows_lookup N st0 st x o :
  grows N st0 st -> ~ In x N -> lookup x st0 = Some o -> lookup x st = Some o.
Proof.
  intros Hg Hx. rewrite !lookup_address, (grows_address _ _ _ _ Hg Hx).
  destruct (address_of x st0) as [a |]; [| discriminate].
  apply (grows_old _ _ _ _ _ Hg).
Qed.


(** A name is bound as it was, or to a new object. *)
Lemma grows_fresh N st0 st x a :
  grows N st0 st -> address_of x st = Some a ->
  address_of x st0 = Some a \/ List.length (heap st0) <= a.
Proof.
  intros [_ _ [g [Hg Hb]] _]. unfold address_of. rewrite Hg. clear Hg.
  induction Hb as [| b g [_ Hle] _ IH]; simpl; [auto |].
  destruct (String.eqb x (fst b)); [| exact IH].
  simpl. intros H. injection H as <-. right. exact Hle.
Qed.

(** What was on the page is on the page. *)
Lemma grows_page N st0 st e :
  grows N st0 st -> In e (page st0) -> In e (page st).
Proof.
  intros [_ _ _ [p Hp]] He. rewrite Hp. apply in_or_app. left. exact He.
Qed.

(** *** Statements that keep an invariant *)

Lemma keeps_weaken {A : Type} G (m : M A) (R R' : A -> Prop) :
  keeps G m R -> (forall a, R a -> R' a) -> keeps G m R'.
Proof.
  intros Hm HR st Hst. eapply wp_mono; [apply (Hm st Hst) | | auto].
  intros a st' [H1 H2]. auto.
Qed.

Lemma keeps_ret {A : Type} G (a : A) : keeps G (ret a) (eq a).
Proof. intros st Hst. unfold wp, ret. auto. Qed.

Lemma keeps_lift {A : Type} G (r : Result A) : keeps G (lift r) (fun a => r = Ok a).
Proof. intros st Hst. unfold wp, lift. destruct r; auto. Qed.

Lemma keeps_bind {A B : Type} G (m : M A) (k : A -> M B) R R' :
  keeps G m R -> (forall a, R a -> keeps G (k a) R') -> keeps G (bind m k) R'.
Proof.
  intros Hm Hk st Hst. apply wp_bind.
  eapply wp_mono; [apply (Hm st Hst) | | auto].
  intros a st' [H1 H2]. apply (Hk a H2 st' H1).
Qed.

Lemma keeps_for_each {A B : Type} G (f : A -> M B) (l : list A) :
  (forall x, keeps G (f x) (fun _ => True)) ->
  keeps G (for_each f l) (fun _ => True).
Proof.
  intros Hf. induction l as [| x l IH]; simpl.
  - eapply keeps_weaken; [apply keeps_ret | trivial].
  - eapply keeps_bind; [apply Hf | intros y _].
    eapply keeps_bind; [apply IH | intros ys _].
    eapply keeps_weaken; [apply keeps_ret | trivial].
Qed.

Lemma keeps_read_counts G a : keeps G (read_counts a) (fun _ => True).
Proof.
  intros st Hst. unfold wp, read_counts.
  destruct (nth_error (heap st) a) as [[d | c | s] |]; auto.
Qed.

Lemma keeps_read_stats G a : keeps G (read_stats a) (fun _ => True).
Proof.
  intros st Hst. unfold wp, read_stats.
  destruct (nth_error (heap st) a) as [[d | c | s] |]; auto.
Qed.

(** The primitive statements keep [grows N st0]: they add to the state that
    [st0] was, given that the names they bind are in [N] and the objects
    they bind or update are new. *)
Section Grows.

Variable N : list string.
Variable st0 : State.

Lemma keeps_emit p e : keeps (grows N st0) (emit p e) (fun _ => True).
Proof.
  intros st [Hc Hh Hg [q Hq]]. unfold wp, emit. split; [| trivial].
  split; simpl; auto.
  exists (q ++ [(p, e)]). rewrite Hq, app_assoc. reflexivity.
Qed.

Lemma keeps_read_frame a : keeps (grows N st0) (read_frame a) (from_old st0).
Proof.
  intros st Hst. unfold wp, read_frame.
  destruct (nth_error (heap st) a) as [[d | c | s] |] eqn:Ha; auto.
  split; [exact Hst | eapply grows_frame; eauto].
Qed.

Lemma keeps_alloc o :
  (forall d', o = OFrame d' -> from_old st0 d') ->
  keeps (grows N st0) (alloc o) (fun a => List.length (heap st0) <= a).
Proof.
  intros Ho st Hst. pose proof (grows_length _ _ _ Hst) as Hlen.
  destruct Hst as [Hc [h [Hh Hn]] Hg Hp]. unfold wp, alloc.
  split; [| exact Hlen]. split; simpl; auto.
  exists (h ++ [o]). split.
  - rewrite Hh, app_assoc. reflexivity.
  - apply Forall_app. split; [exact Hn | constructor; [exact Ho | constructor]].
Qed.

Lemma keeps_assign x a :
  In x N -> List.length (heap st0) <= a ->
  keeps (grows N st0) (assign x a) (fun _ => True).
Proof.
  intros Hx Ha st [Hc Hh [g [Hg Hb]] Hp]. unfold wp, assign.
  split; [| trivial]. split; simpl; auto.
  exists ((x, a) :: g). split.
  - rewrite Hg. reflexivity.
  - constructor; [split; assumption | exact Hb].
Qed.

Lemma replace_nth_app {A : Type} (l1 l2 : list A) n x :
  List.length l1 <= n ->
  replace_nth n x (l1 ++ l2) = l1 ++ replace_nth (n - List.length l1) x l2.
Proof.
  revert n. induction l1 as [| y l1 IH]; intros n Hn; simpl.
  - rewrite Nat.sub_0_r. reflexivity.
  - destruct n as [| n]; simpl in Hn; [lia |].
    simpl. rewrite IH by lia. reflexivity.
Qed.

Lemma replace_nth_Forall {A : Type} (P : A -> Prop) (l : list A) n x :
  P x -> Forall P l -> Forall P (replace_nth n x l).
Proof.
  intros Hx Hl. revert n.
  induction Hl as [| y l Hy Hl IH]; intros [| n]; simpl; auto.
Qed.

Lemma keeps_store a o :
  List.length (heap st0) <= a ->
  (forall d', o = OFrame d' -> from_old st0 d') ->
  keeps (grows N st0) (store a o) (fun _ => True).
Proof.
  intros Ha Ho st [Hc [h [Hh Hn]] Hg Hp]. unfold wp, store.
  split; [| trivial]. split; simpl; auto.
  exists (replace_nth (a - List.length (heap st0)) o h). split.
  - rewrite Hh. apply replace_nth_app. exact Ha.
  - apply replace_nth_Forall; assumption.
Qed.

Lemma keeps_set_columns a labels :
  List.length (heap st0) <= a ->
  keeps (grows N st0) (set_columns a labels) (fun _ => True).
Proof.
  intros Ha. unfold set_columns.
  eapply keeps_bind; [apply keeps_read_counts | intros c _].
  apply keeps_store; [exact Ha | discriminate].
Qed.

Lemma keeps_column a c : keeps (grows N st0) (column a c) (fun _ => True).
Proof.
  unfold column.
  eapply keeps_bind; [apply keeps_read_frame | intros d _].
  eapply keeps_weaken; [apply keeps_lift | trivial].
Qed.

Lemma keeps_column_num a c : keeps (grows N st0) (column_num a c) (fun _ => True).
Proof.
  unfold column_num.
  eapply keeps_bind; [apply keeps_read_frame | intros d _].
  eapply keeps_weaken; [apply keeps_lift | trivial].
Qed.

End Grows.

(** *** Derived tables *)

Lemma select_mask_incl {A : Type} (mask : list bool) (l : list A) :
  incl (select_mask mask l) l.
Proof.
  revert mask. induction l as [| x l IH]; intros [| b mask]; simpl;
    try apply incl_nil_l.
  destruct b.
  - apply incl_cons; [left; reflexivity | apply incl_tl, IH].
  - apply incl_tl, IH.
Qed.

Lemma derived_mask d mask : derived d (getitem_mask d mask).
Proof. split; [reflexivity | apply select_mask_incl]. Qed.

Lemma insert_by_perm {A : Type} (before : A -> A -> bool) x l :
  Permutation (x :: l) (insert_by before x l).
Proof.
  induction l as [| y l IH]; simpl; [apply Permutation_refl |].
  destruct (before y x); [| apply Permutation_refl].
  eapply Permutation_trans; [apply perm_swap | apply perm_skip, IH].
Qed.

Lemma stable_sort_perm {A : Type} (before : A -> A -> bool) l :
  Permutation l (stable_sort before l).
Proof.
  induction l as [| x l IH]; simpl; [apply perm_nil |].
  eapply Permutation_trans; [apply perm_skip, IH | apply insert_by_perm].
Qed.

Lemma firstn_incl {A : Type} n (l : list A) : incl (firstn n l) l.
Proof.
  intros x Hx. rewrite <- (firstn_skipn n l). apply in_or_app. left. exact Hx.
Qed.

Lemma derived_nlargest n c d t : nlargest n c d = Ok t -> derived d t.
Proof.
  unfold nlargest. destruct (has_column d (num_label c)); [| discriminate].
  intros H. injection H as <-. split; [reflexivity |]. simpl.
  intros x Hx. apply firstn_incl in Hx.
  eapply Permutation_in; [apply Permutation_sym, stable_sort_perm | exact Hx].
Qed.

Lemma from_old_derived st0 d d' : from_old st0 d -> derived d d' -> from_old st0 d'.
Proof.
  intros (a & d0 & Ha & Hd) Hd'. exists a, d0.
  split; [exact Ha | eapply derived_trans; eauto].
Qed.

(** *** The phases of the script only add to the state *)

Lemma keeps_alloc_frame N st0 d :
  from_old st0 d ->
  keeps (grows N st0) (alloc (OFrame d)) (fun a => List.length (heap st0) <= a).
Proof.
  intros Hd. apply keeps_alloc. intros d' H. injection H as <-. exact Hd.
Qed.

Lemma keeps_alloc_counts N st0 c :
  keeps (grows N st0) (alloc (OCounts c)) (fun a => List.length (heap st0) <= a).
Proof. apply keeps_alloc. discriminate. Qed.

Lemma keeps_alloc_stats N st0 s :
  keeps (grows N st0) (alloc (OStats s)) (fun a => List.length (heap st0) <= a).
Proof. apply keeps_alloc. discriminate. Qed.

(** One primitive statement that keeps [grows]. *)
Ltac keeps_atom :=
  first
    [ apply keeps_emit
    | apply keeps_column
    | apply keeps_column_num
    | apply keeps_read_frame
    | apply keeps_read_counts
    | apply keeps_read_stats
    | apply keeps_lift
    | apply keeps_ret
    | apply keeps_alloc_counts
    | apply keeps_alloc_stats
    | apply keeps_alloc_frame;
      first [ assumption
            | eapply from_old_derived; [eassumption | apply derived_mask]
            | solve [eauto using from_old_derived, derived_nlargest] ]
    | apply keeps_assign; [assumption | assumption]
    | apply keeps_set_columns; assumption
    | apply keeps_for_each; intros ?; keeps_atom ].

(** A sequence of primitive statements. *)
Ltac keeps_go :=
  repeat lazymatch goal with
    | |- keeps _ (bind _ _) _ =>
        eapply keeps_bind;
        [solve [keeps_atom] | let a := fresh in let H := fresh in intros a H; cbv beta in H]
    | |- keeps _ _ _ => eapply keeps_weaken; [solve [keeps_atom] | trivial]
    end.

Lemma keeps_where_eq N st0 a c v :
  keeps (grows N st0) (where_eq a c v) (fun a' => List.length (heap st0) <= a').
Proof.
  unfold where_eq.
  eapply keeps_bind; [apply keeps_read_frame | intros d Hd].
  eapply keeps_bind; [apply keeps_lift | intros s _].
  apply keeps_alloc_frame.
  eapply from_old_derived; [exact Hd | apply derived_mask].
Qed.

Lemma keeps_metric_mean_max N st0 label a c :
  keeps (grows N st0) (metric_mean_max label a c) (fun _ => True).
Proof. unfold metric_mean_max. keeps_go. Qed.

Lemma keeps_metric_of N st0 label d r c suffix :
  keeps (grows N st0) (metric_of label d r c suffix) (fun _ => True).
Proof. unfold metric_of. keeps_go. Qed.

Lemma keeps_radar_traces N st0 a players traces :
  keeps (grows N st0) (radar_traces a players traces) (fun _ => True).
Proof.
  revert traces. induction players as [| p players IH]; intros traces;
    cbn [radar_traces].
  - keeps_go.
  - eapply keeps_bind; [apply keeps_read_frame | intros d _].
    eapply keeps_bind; [apply keeps_lift | intros names _].
    eapply keeps_bind; [apply keeps_lift | intros r _].
    eapply keeps_bind; [apply keeps_for_each; intros cat; keeps_go | intros vs _].
    apply IH.
Qed.

(** One statement of the script. *)
Ltac keeps_stmt :=
  first
    [ keeps_atom
    | apply keeps_where_eq
    | apply keeps_metric_mean_max
    | apply keeps_metric_of
    | apply keeps_radar_traces
    | apply keeps_for_each; intros ?; keeps_go ].

(** A sequence of statements of the script. *)
Ltac keeps_run :=
  repeat (eapply keeps_bind;
          [solve [keeps_stmt]
          | let a := fresh in let H := fresh in intros a H; cbv beta in H]);
  try (eapply keeps_weaken; [solve [keeps_stmt] | trivial]).

Lemma keeps_sidebar N st0 w df :
  In "filtered_df" N ->
  keeps (grows N st0) (sidebar w df) (fun _ => True).
Proof.
  intros HN. unfold sidebar. keeps_run.
  eapply keeps_bind with (R := fun _ => True).
  - destruct (String.eqb (selected_position w) "All"); keeps_run.
  - intros f' _. keeps_run.
Qed.

Lemma keeps_tab1 N st0 w f :
  In "comparison_df" N -> keeps (grows N st0) (tab1 w f) (fun _ => True).
Proof.
  intros HN. unfold tab1. keeps_run.
  destruct (selected_players w) as [| p ps]; keeps_run.
Qed.

Lemma keeps_tab2 N st0 w df : keeps (grows N st0) (tab2 w df) (fun _ => True).
Proof. unfold tab2. keeps_run. Qed.

Lemma keeps_tab3 N st0 df f :
  In "position_counts" N -> In "position_stats" N ->
  keeps (grows N st0) (tab3 df f) (fun _ => True).
Proof. intros H1 H2. unfold tab3. keeps_run. Qed.

Lemma keeps_tab4 N st0 df :
  In "team_stats" N -> In "top_10_efficiency" N -> In "team_counts" N ->
  keeps (grows N st0) (tab4 df) (fun _ => True).
Proof. intros H1 H2 H3. unfold tab4. keeps_run. Qed.


Lemma keeps_main_content N st0 w df f :
  incl tab_names N ->
  keeps (grows N st0) (main_content w df f) (fun _ => True).
Proof.
  intros HN. unfold main_content.
  assert (Hin : forall x, In x tab_names -> In x N) by exact HN.
  do 3 (eapply keeps_bind; [apply keeps_emit | intros _ _]).
  eapply keeps_bind; [apply keeps_tab1; apply Hin; simpl; tauto | intros _ _].
  eapply keeps_bind; [apply keeps_tab2 | intros _ _].
  eapply keeps_bind; [apply keeps_tab3; apply Hin; simpl; tauto | intros _ _].
  eapply keeps_bind; [apply keeps_tab4; apply Hin; simpl; tauto | intros _ _].
  eapply keeps_bind; [apply keeps_emit | intros _ _].
  apply keeps_emit.
Qed.

(** *** One execution *)

(** The load of an execution that is served a table: the table is at
    address 0 and in the cache. *)
Lemma load_served c file header recs :
  serves c file header recs ->
  cache_data (load_data file) (mkState c [] [] [])
  = (Ok 0, mkState (Some (table header recs)) [OFrame (table header recs)] [] []).
Proof.
  intros [-> | [-> ->]]; reflexivity.
Qed.

Lemma rerun_served c file header recs w :
  serves c file header recs ->
  rerun c file w = page_body w 0 (loaded_state (table header recs)).
Proof.
  intros Hs. unfold rerun, script, bind.
  rewrite (load_served _ _ _ _ Hs). reflexivity.
Qed.

Lemma keeps_page_body N st0 w df :
  incl view_names N -> keeps (grows N st0) (page_body w df) (fun _ => True).
Proof.
  intros HN. unfold page_body.
  eapply keeps_bind; [apply keeps_sidebar; apply HN; simpl; tauto | intros f _].
  apply keeps_main_content. intros x Hx. apply HN. simpl in *. tauto.
Qed.

Lemma keeps_final {A : Type} G (m : M A) R st : keeps G m R -> G st -> G (snd (m st)).
Proof.
  intros Hm Hst. specialize (Hm st Hst). unfold wp in Hm.
  destruct (m st) as [[a | e] st']; simpl; tauto.
Qed.

(** After the load the script only adds to the state. *)
Lemma page_body_grows w d :
  grows view_names (loaded_state d) (snd (page_body w 0 (loaded_state d))).
Proof.
  eapply keeps_final; [apply keeps_page_body, incl_refl | apply grows_refl].
Qed.


Lemma table_season_constant header recs : season_constant (table header recs).
Proof.
  split.
  - unfold has_column, table. cbn [columns].
    destruct (existsb (String.eqb "season") header) eqn:E; [exact E |].
    rewrite existsb_app. cbn [existsb]. rewrite String.eqb_refl.
    apply orb_true_r.
  - unfold records, table. simpl. rewrite map_map. simpl.
    apply Forall_forall. intros x Hx. apply in_map_iff in Hx.
    destruct Hx as (y & <- & _). reflexivity.
Qed.

Lemma derived_season_constant d d' :
  season_constant d -> derived d d' -> season_constant d'.
Proof.
  intros [Hc Hr] [Hc' Hr']. split.
  - unfold has_column in *. rewrite Hc'. exact Hc.
  - unfold records in *. rewrite Forall_forall in *.
    intros x Hx. apply in_map_iff in Hx. destruct Hx as (y & <- & Hy).
    apply Hr. apply in_map. apply Hr'. exact Hy.
Qed.

(** The tables in the store at the end of an execution that was served [d]
    are all derived from [d]. *)
Lemma final_frames_derived w d a d' :
  nth_error (heap (snd (page_body w 0 (loaded_state d)))) a = Some (OFrame d') ->
  derived d d'.
Proof.
  intros Ha.
  destruct (grows_frame _ _ _ _ _ (page_body_grows w d) Ha) as (a0 & d0 & Ha0 & Hd).
  destruct a0 as [| a0]; simpl in Ha0.
  - injection Ha0 as <-. exact Hd.
  - destruct a0; discriminate.
Qed.

(** *** Sessions *)

Lemma rerun_cases c file w :
  cache_ok c ->
  (exists header recs, serves c file header recs) \/
  (exists e, rerun c file w = (Raised e, mkState None [] [] [])).
Proof.
  intros [-> | (header & recs & ->)].
  - destruct file as [| | | header recs].
    + right. exists FileNotFoundError. reflexivity.
    + right. exists EmptyDataError. reflexivity.
    + right. exists ParserError. reflexivity.
    + left. exists header, recs. right. split; reflexivity.
  - left. exists header, recs. left. reflexivity.
Qed.

Lemma rerun_cache_served c file header recs w :
  serves c file header recs ->
  cache (snd (rerun c file w)) = Some (table header recs).
Proof.
  intros Hs. rewrite (rerun_served _ _ _ _ w Hs).
  apply (g_cache _ _ _ (page_body_grows w (table header recs))).
Qed.

Lemma rerun_cache_ok c file w : cache_ok c -> cache_ok (cache (snd (rerun c file w))).
Proof.
  intros Hc. destruct (rerun_cases c file w Hc) as [(header & recs & Hs) | (e & He)].
  - right. exists header, recs. apply rerun_cache_served. exact Hs.
  - left. rewrite He. reflexivity.
Qed.

Lemma in_frames h d : In d (frames h) <-> exists a, nth_error h a = Some (OFrame d).
Proof.
  unfold frames. rewrite in_flat_map. split.
  - intros (o & Ho & Hd). destruct o as [d0 | c | s]; simpl in Hd; try contradiction.
    destruct Hd as [<- | []]. apply In_nth_error in Ho. exact Ho.
  - intros (a & Ha). exists (OFrame d). split.
    + eapply nth_error_In; eauto.
    + left. reflexivity.
Qed.

Lemma rerun_frames_season c file w :
  cache_ok c -> Forall season_constant (frames (heap (snd (rerun c file w)))).
Proof.
  intros Hc. apply Forall_forall. intros d' Hd'.
  destruct (rerun_cases c file w Hc) as [(header & recs & Hs) | (e & He)].
  - rewrite (rerun_served _ _ _ _ w Hs) in Hd'.
    apply in_frames in Hd'. destruct Hd' as (a & Ha).
    eapply derived_season_constant; [apply table_season_constant |].
    eapply final_frames_derived; eauto.
  - rewrite He in Hd'. destruct Hd'.
Qed.

Lemma session_frames_season steps :
  forall c, cache_ok c ->
  Forall (fun out => Forall season_constant (frames (heap (snd out))))
    (snd (session c steps)).
Proof.
  induction steps as [| [file w] steps IH]; intros c Hc; simpl.
  - constructor.
  - constructor.
    + apply rerun_frames_season. exact Hc.
    + apply IH. apply rerun_cache_ok. exact Hc.
Qed.

Lemma page_body_df_intact w d : df_intact d (snd (page_body w 0 (loaded_state d))).
Proof.
  pose proof (page_body_grows w d) as Hg.
  assert (Hdf : ~ In "df" view_names).
  { unfold view_names. simpl. intros H.
    repeat (destruct H as [H | H]; [discriminate |]). exact H. }
  repeat split.
  - eapply grows_lookup; [exact Hg | exact Hdf | reflexivity].
  - apply (g_cache _ _ _ Hg).
  - intros x a Hx Ha. rewrite (grows_address _ _ _ _ Hg Hdf).
    destruct (grows_fresh _ _ _ _ _ Hg Ha) as [H0 | Hle].
    + unfold address_of, loaded_state in H0. cbn [globals find fst] in H0.
      destruct (String.eqb_spec x "df"); [contradiction | discriminate].
    + cbn in Hle. intros H. injection H as <-. lia.
Qed.

Lemma session_df_intact header recs steps :
  Forall (fun out => df_intact (table header recs) (snd out))
    (snd (session (Some (table header recs)) steps)).
Proof.
  induction steps as [| [file w] steps IH]; simpl.
  - constructor.
  - assert (Hs : serves (Some (table header recs)) file header recs)
      by (left; reflexivity).
    constructor.
    + rewrite (rerun_served _ _ _ _ w Hs). apply page_body_df_intact.
    + rewrite (rerun_cache_served _ _ _ _ w Hs). exact IH.
Qed.

(** *** Executing one statement *)

Lemma exec_ret {A : Type} (a : A) Q E st : Q a st -> wp (ret a) Q E st.
Proof. auto. Qed.

Lemma exec_lift {A : Type} (r : Result A) a Q E st :
  r = Ok a -> Q a st -> wp (lift r) Q E st.
Proof. intros ->. auto. Qed.

Lemma exec_emit p e Q E st :
  Q tt (mkState (cache st) (heap st) (globals st) (page st ++ [(p, e)])) ->
  wp (emit p e) Q E st.
Proof. auto. Qed.

Lemma exec_assign x a Q E st :
  Q tt (mkState (cache st) (heap st) ((x, a) :: globals st) (page st)) ->
  wp (assign x a) Q E st.
Proof. auto. Qed.

Lemma exec_alloc o Q E st :
  Q (List.length (heap st))
    (mkState (cache st) (heap st ++ [o]) (globals st) (page st)) ->
  wp (alloc o) Q E st.
Proof. auto. Qed.

Lemma exec_read_frame a d Q E st :
  nth_error (heap st) a = Some (OFrame d) -> Q d st -> wp (read_frame a) Q E st.
Proof. intros Ha HQ. unfold wp, read_frame. rewrite Ha. exact HQ. Qed.

Lemma exec_read_counts a c Q E st :
  nth_error (heap st) a = Some (OCounts c) -> Q c st -> wp (read_counts a) Q E st.
Proof. intros Ha HQ. unfold wp, read_counts. rewrite Ha. exact HQ. Qed.

Lemma exec_read_stats a s Q E st :
  nth_error (heap st) a = Some (OStats s) -> Q s st -> wp (read_stats a) Q E st.
Proof. intros Ha HQ. unfold wp, read_stats. rewrite Ha. exact HQ. Qed.

Lemma exec_getitem_str d c Q E st :
  has_column d (str_label c) = true ->
  Q (map (str_field c) (records d)) st ->
  wp (lift (getitem_str d c)) Q E st.
Proof.
  intros Hc HQ. unfold wp, lift, getitem_str. rewrite Hc. exact HQ.
Qed.

Lemma exec_getitem_num d c Q E st :
  has_column d (num_label c) = true ->
  Q (map (num_field c) (records d)) st ->
  wp (lift (getitem_num d c)) Q E st.
Proof.
  intros Hc HQ. unfold wp, lift, getitem_num. rewrite Hc. exact HQ.
Qed.

Lemma exec_row_get d r c Q E st :
  has_column d (num_label c) = true ->
  Q (num_field c r) st ->
  wp (lift (row_get d r c)) Q E st.
Proof.
  intros Hc HQ. unfold wp, lift, row_get. rewrite Hc. exact HQ.
Qed.

Lemma exec_row_get_str d r c Q E st :
  has_column d (str_label c) = true ->
  Q (str_field c r) st ->
  wp (lift (row_get_str d r c)) Q E st.
Proof.
  intros Hc HQ. unfold wp, lift, row_get_str. rewrite Hc. exact HQ.
Qed.

Lemma exec_column a c d Q E st :
  nth_error (heap st) a = Some (OFrame d) ->
  has_column d (str_label c) = true ->
  Q (map (str_field c) (records d)) st ->
  wp (column a c) Q E st.
Proof.
  intros Ha Hc HQ. unfold column. apply wp_bind.
  eapply exec_read_frame; [exact Ha |].
  unfold wp, lift, getitem_str. rewrite Hc. exact HQ.
Qed.

Lemma exec_column_num a c d Q E st :
  nth_error (heap st) a = Some (OFrame d) ->
  has_column d (num_label c) = true ->
  Q (map (num_field c) (records d)) st ->
  wp (column_num a c) Q E st.
Proof.
  intros Ha Hc HQ. unfold column_num. apply wp_bind.
  eapply exec_read_frame; [exact Ha |].
  unfold wp, lift, getitem_num. rewrite Hc. exact HQ.
Qed.

Lemma exec_where_eq a c v d Q E st :
  nth_error (heap st) a = Some (OFrame d) ->
  has_column d (str_label c) = true ->
  Q (List.length (heap st))
    (mkState (cache st)
       (heap st ++ [OFrame (getitem_mask d (series_eq (map (str_field c) (records d)) v))])
       (globals st) (page st)) ->
  wp (where_eq a c v) Q E st.
Proof.
  intros Ha Hc HQ. unfold where_eq. apply wp_bind.
  eapply exec_read_frame; [exact Ha |].
  apply wp_bind. unfold wp at 1, lift, getitem_str. rewrite Hc.
  apply exec_alloc. exact HQ.
Qed.

Lemma exec_set_columns a labels c Q E st :
  nth_error (heap st) a = Some (OCounts c) ->
  Q tt (mkState (cache st)
          (replace_nth a (OCounts (mkCounts labels (counts_rows c))) (heap st))
          (globals st) (page st)) ->
  wp (set_columns a labels) Q E st.
Proof.
  intros Ha HQ. unfold set_columns. apply wp_bind.
  eapply exec_read_counts; [exact Ha |]. exact HQ.
Qed.

Lemma exec_metric_mean_max label a c d Q E st :
  nth_error (heap st) a = Some (OFrame d) ->
  has_column d (num_label c) = true ->
  Q tt (mkState (cache st) (heap st) (globals st)
          (page st ++ [(Tab 1, Metric label
                                 (fixed1 "" (mean (map (num_field c) (records d))) "")
                                 (Some (fixed1 "Max: "
                                          (series_max (map (num_field c) (records d)))
                                          "")))])) ->
  wp (metric_mean_max label a c) Q E st.
Proof.
  intros Ha Hc HQ. unfold metric_mean_max. apply wp_bind.
  eapply exec_column_num; [exact Ha | exact Hc |].
  apply wp_bind. eapply exec_column_num; [exact Ha | exact Hc |].
  apply exec_emit. exact HQ.
Qed.

Lemma exec_metric_of label d r c suffix Q E st :
  has_column d (num_label c) = true ->
  Q tt (mkState (cache st) (heap st) (globals st)
          (page st ++ [(Tab 2, Metric label (fixed1 "" (Some (num_field c r)) suffix)
                                 None)])) ->
  wp (metric_of label d r c suffix) Q E st.
Proof.
  intros Hc HQ. unfold metric_of. apply wp_bind.
  eapply exec_lift; [unfold row_get; rewrite Hc; reflexivity |].
  apply exec_emit. exact HQ.
Qed.

Lemma exec_row_values d r (cats : list NumCol) Q E st :
  Forall (fun c => has_column d (num_label c) = true) cats ->
  Q (map (fun c => num_field c r) cats) st ->
  wp (for_each (fun cat => lift (row_get d r cat)) cats) Q E st.
Proof.
  intros Hc. revert Q. induction Hc as [| c cats Hc _ IH]; intros Q HQ; simpl.
  - exact HQ.
  - apply wp_bind. eapply exec_lift; [unfold row_get; rewrite Hc; reflexivity |].
    apply wp_bind. apply IH. exact HQ.
Qed.

(** *** Statements that may raise *)

Lemma try_result {A : Type} (r : Result A) (Q : A -> State -> Prop) E st :
  (forall a, r = Ok a -> Q a st) -> (forall e, E e st) -> wp (lift r) Q E st.
Proof. intros HQ HE. unfold wp, lift. destruct r; auto. Qed.

Lemma try_column a c d (Q : list string -> State -> Prop) E st :
  nth_error (heap st) a = Some (OFrame d) ->
  (has_column d (str_label c) = true -> Q (map (str_field c) (records d)) st) ->
  (forall e, E e st) ->
  wp (column a c) Q E st.
Proof.
  intros Ha HQ HE. unfold column. apply wp_bind.
  eapply exec_read_frame; [exact Ha |].
  unfold wp, lift, getitem_str.
  destruct (has_column d (str_label c)); auto.
Qed.

Lemma try_metric_of label d r c suffix (Q : unit -> State -> Prop) E st :
  (has_column d (num_label c) = true ->
   Q tt (mkState (cache st) (heap st) (globals st)
           (page st ++ [(Tab 2, Metric label (fixed1 "" (Some (num_field c r)) suffix)
                                  None)]))) ->
  (forall e, E e st) ->
  wp (metric_of label d r c suffix) Q E st.
Proof.
  intros HQ HE. unfold metric_of. apply wp_bind.
  unfold wp at 1, lift, row_get.
  destruct (has_column d (num_label c)); [| apply HE].
  apply exec_emit. auto.
Qed.

Lemma try_row_get_str d r c (Q : string -> State -> Prop) E st :
  (has_column d (str_label c) = true -> Q (str_field c r) st) ->
  (forall e, E e st) ->
  wp (lift (row_get_str d r c)) Q E st.
Proof.
  intros HQ HE. unfold wp, lift, row_get_str.
  destruct (has_column d (str_label c)); auto.
Qed.

(** A fact that does not depend on the state holds after any statement
    that returns. *)
Lemma wp_pure {A : Type} (P : Prop) (m : M A) st :
  P -> wp m (fun _ _ => P) (fun _ _ => True) st.
Proof.
  intros H. unfold wp. destruct (m st) as [[a | e] st']; [exact H | exact I].
Qed.

(** Composition with a statement of which only an invariant is known. *)
Lemma exec_keeps {A B : Type} G (m : M A) (k : A -> M B) R Q E st :
  keeps G m R -> G st ->
  (forall a st', G st' -> R a -> wp (k a) Q E st') ->
  (forall e st', G st' -> E e st') ->
  wp (bind m k) Q E st.
Proof.
  intros Hm Hst Hk HE. apply wp_bind.
  eapply wp_mono; [apply (Hm st Hst) | |].
  - intros a st' [H1 H2]. auto.
  - intros e st'. apply HE.
Qed.

Lemma nth_error_last {A : Type} (l : list A) x :
  nth_error (l ++ [x]) (List.length l) = Some x.
Proof. rewrite nth_error_app2, Nat.sub_diag by lia. reflexivity. Qed.

Lemma replace_nth_last {A : Type} (l : list A) x y :
  replace_nth (List.length l) y (l ++ [x]) = l ++ [y].
Proof. induction l as [| z l IH]; simpl; [reflexivity | rewrite IH; reflexivity]. Qed.

(** The projections of a state that is written out. *)
Ltac state_simpl := cbv beta; cbn [cache heap globals page app List.length replace_nth].

(** One statement of a run whose outcome is determined. *)
Ltac exec :=
  lazymatch goal with
  | |- wp (bind _ _) _ _ _ => apply wp_bind; exec
  | |- wp (ret _) _ _ _ => apply exec_ret; state_simpl
  | |- wp (emit _ _) _ _ _ => apply exec_emit; state_simpl
  | |- wp (assign _ _) _ _ _ => apply exec_assign; state_simpl
  | |- wp (alloc _) _ _ _ => apply exec_alloc; state_simpl
  | |- wp (read_frame _) _ _ _ =>
      eapply exec_read_frame; [state_simpl; first [reflexivity | eassumption] | state_simpl]
  | |- wp (read_counts _) _ _ _ =>
      eapply exec_read_counts; [state_simpl; first [reflexivity | eassumption] | state_simpl]
  | |- wp (read_stats _) _ _ _ =>
      eapply exec_read_stats; [state_simpl; first [reflexivity | eassumption] | state_simpl]
  | |- wp (column _ _) _ _ _ =>
      eapply exec_column;
      [state_simpl; first [reflexivity | eassumption] | assumption | state_simpl]
  | |- wp (column_num _ _) _ _ _ =>
      eapply exec_column_num;
      [state_simpl; first [reflexivity | eassumption] | assumption | state_simpl]
  | |- wp (where_eq _ _ _) _ _ _ =>
      eapply exec_where_eq;
      [state_simpl; first [reflexivity | eassumption] | assumption | state_simpl]
  | |- wp (set_columns _ _) _ _ _ =>
      eapply exec_set_columns;
      [state_simpl; first [reflexivity | eassumption] | state_simpl]
  | |- wp (metric_mean_max _ _ _) _ _ _ =>
      eapply exec_metric_mean_max;
      [state_simpl; first [reflexivity | eassumption] | assumption | state_simpl]
  | |- wp (metric_of _ _ _ _ _) _ _ _ =>
      eapply exec_metric_of; [assumption | state_simpl]
  | |- wp (lift (getitem_str _ _)) _ _ _ =>
      eapply exec_getitem_str; [assumption | state_simpl]
  | |- wp (lift (getitem_num _ _)) _ _ _ =>
      eapply exec_getitem_num; [assumption | state_simpl]
  | |- wp (lift (row_get _ _ _)) _ _ _ =>
      eapply exec_row_get; [assumption | state_simpl]
  | |- wp (lift (row_get_str _ _ _)) _ _ _ =>
      eapply exec_row_get_str; [assumption | state_simpl]
  | |- wp (for_each (fun cat => lift (row_get _ _ cat)) _) _ _ _ =>
      eapply exec_row_values; [repeat constructor; assumption | state_simpl]
  | |- wp (lift _) _ _ _ => eapply exec_lift; [eassumption | state_simpl]
  | |- wp (tab1 _ _) _ _ _ => unfold tab1
  | |- wp (tab2 _ _) _ _ _ => unfold tab2
  | |- wp (tab3 _ _) _ _ _ => unfold tab3
  | |- wp (tab4 _) _ _ _ => unfold tab4
  end.

(** *** The sidebar *)

Lemma wp_eq {A : Type} (m : M A) (t : Result A * State) st :
  wp m (fun a st' => (Ok a, st') = t) (fun e st' => (Raised e, st') = t) st ->
  m st = t.
Proof.
  unfold wp. destruct (m st) as [[a | e] st']; auto.
Qed.

(** The sidebar on a table with the columns it reads. *)
Lemma sidebar_exec d w :
  has_column d "season" = true ->
  has_column d "name" = true ->
  has_column d "position" = true ->
  sidebar w 0 (loaded_state d)
  = (Ok (fst (after_sidebar d w)), snd (after_sidebar d w)).
Proof.
  intros Hs Hn Hp. apply wp_eq. unfold sidebar, loaded_state.
  do 13 exec. unfold after_sidebar, filtered.
  destruct (String.eqb (selected_position w) "All").
  - do 2 exec. reflexivity.
  - do 4 exec. reflexivity.
Qed.

Lemma page_body_exec d w :
  has_column d "season" = true ->
  has_column d "name" = true ->
  has_column d "position" = true ->
  page_body w 0 (loaded_state d)
  = main_content w 0 (fst (after_sidebar d w)) (snd (after_sidebar d w)).
Proof.
  intros Hs Hn Hp. unfold page_body, bind.
  rewrite (sidebar_exec d w Hs Hn Hp). reflexivity.
Qed.

Lemma after_sidebar_filtered d w :
  lookup "filtered_df" (snd (after_sidebar d w)) = Some (OFrame (filtered d w)) /\
  nth_error (heap (snd (after_sidebar d w))) (fst (after_sidebar d w))
  = Some (OFrame (filtered d w)) /\
  nth_error (heap (snd (after_sidebar d w))) 0 = Some (OFrame d) /\
  page (snd (after_sidebar d w)) = sidebar_elements d.
Proof.
  unfold after_sidebar.
  destruct (String.eqb (selected_position w) "All"); repeat split; reflexivity.
Qed.

(** *** What the filters keep *)

Lemma select_mask_map {A : Type} (f : A -> bool) (l : list A) :
  select_mask (map f l) l = filter f l.
Proof.
  induction l as [| x l IH]; simpl; [reflexivity |].
  rewrite IH. reflexivity.
Qed.

Lemma getitem_mask_eq d c v :
  getitem_mask d (series_eq (map (str_field c) (records d)) (Some v))
  = mkFrame (columns d) (filter (fun r => String.eqb (str_field c (snd r)) v) (rows d)).
Proof.
  unfold getitem_mask, series_eq, records. rewrite !map_map.
  rewrite (select_mask_map (fun r => String.eqb (str_field c (snd r)) v)).
  reflexivity.
Qed.

Lemma unique_In x s : In x (unique s) -> In x s.
Proof.
  induction s as [| y s IH]; simpl; [auto |].
  intros [-> | H]; [left; reflexivity |].
  apply filter_In in H. right. apply IH. apply H.
Qed.

Lemma sorted_reverse_In x l : In x (sorted_reverse l) -> In x l.
Proof.
  intros H. eapply Permutation_in; [apply Permutation_sym, stable_sort_perm | exact H].
Qed.

Lemma select_mask_all {A : Type} (f : A -> bool) (l : list A) :
  Forall (fun x => f x = true) l -> select_mask (map f l) l = l.
Proof.
  induction 1 as [| x l Hx _ IH]; simpl; [reflexivity |].
  rewrite Hx, IH. reflexivity.
Qed.

(** With one season in the table, the season filter keeps every row. *)
Lemma season_filtered_all d w :
  season_constant d -> season_chosen d w -> season_filtered d w = d.
Proof.
  intros [_ Hall] Hsel. unfold season_filtered, getitem_mask.
  destruct d as [cols rws]. cbn [columns rows]. f_equal.
  destruct rws as [| r rws]; [reflexivity |].
  unfold season_chosen, selectbox_returns in Hsel.
  destruct (sorted_reverse (unique (map season (records (mkFrame cols (r :: rws))))))
    as [| o opts] eqn:Hopts.
  - exfalso.
    assert (Hlen : List.length (sorted_reverse
                     (unique (map season (records (mkFrame cols (r :: rws)))))) = 0)
      by (rewrite Hopts; reflexivity).
    unfold sorted_reverse in Hlen.
    rewrite <- (Permutation_length (stable_sort_perm _ _)) in Hlen.
    discriminate Hlen.
  - destruct Hsel as (v & Hv & Hin). rewrite <- Hopts in Hin.
    apply sorted_reverse_In, unique_In in Hin.
    rewrite Forall_forall in Hall.
    apply in_map_iff in Hin. destruct Hin as (x & Hx & Hin).
    pose proof (Hall x Hin) as Hx'. rewrite Hx' in Hx. subst v.
    rewrite Hv. unfold series_eq, records. cbn [rows]. rewrite !map_map.
    apply (select_mask_all (fun x => String.eqb (str_field c_season (snd x)) "2024-25")).
    apply Forall_forall. intros y Hy. apply String.eqb_eq.
    apply Hall. unfold records. cbn [rows]. apply in_map. exact Hy.
Qed.

Lemma filtered_rows d w :
  season_constant d -> season_chosen d w ->
  filtered d w
  = if String.eqb (selected_position w) "All" then d
    else mkFrame (columns d) (position_rows (selected_position w) d).
Proof.
  intros Hd Hw. unfold filtered. rewrite (season_filtered_all d w Hd Hw).
  destruct (String.eqb (selected_position w) "All"); [reflexivity |].
  apply getitem_mask_eq.
Qed.

(** ** Loading *)

Lemma has_column_table header recs c :
  has_column (table header recs) c
  = existsb (String.eqb c) header || String.eqb c "season".
Proof.
  unfold has_column, table. cbn [columns].
  destruct (existsb (String.eqb "season") header) eqn:E.
  - destruct (String.eqb_spec c "season") as [-> | Hc].
    + rewrite E. reflexivity.
    + rewrite orb_false_r. reflexivity.
  - rewrite existsb_app. cbn [existsb]. rewrite orb_false_r. reflexivity.
Qed.

Lemma has_column_in header recs c :
  In c header -> has_column (table header recs) c = true.
Proof.
  intros Hc. rewrite has_column_table. apply orb_true_iff. left.
  apply existsb_exists. exists c. split; [exact Hc | apply String.eqb_refl].
Qed.

Lemma map_snd_combine {A B : Type} (l : list A) (l' : list B) :
  List.length l = List.length l' -> map snd (combine l l') = l'.
Proof.
  revert l'. induction l as [| x l IH]; intros [| y l'] H; simpl in *;
    try discriminate; [reflexivity |].
  rewrite IH by lia. reflexivity.
Qed.

Lemma map_fst_combine {A B : Type} (l : list A) (l' : list B) :
  List.length l = List.length l' -> map fst (combine l l') = l.
Proof.
  revert l'. induction l as [| x l IH]; intros [| y l'] H; simpl in *;
    try discriminate; [reflexivity |].
  rewrite IH by lia. reflexivity.
Qed.

Lemma rows_table header recs :
  rows (table header recs)
  = combine (seq 0 (List.length recs)) (map (set_season "2024-25") recs).
Proof.
  unfold table. cbn [rows]. generalize 0.
  induction recs as [| r recs IH]; intros n; simpl; [reflexivity |].
  rewrite IH. reflexivity.
Qed.

Lemma records_table header recs :
  records (table header recs) = map (set_season "2024-25") recs.
Proof.
  unfold records. rewrite rows_table.
  apply map_snd_combine. rewrite length_seq, length_map. reflexivity.
Qed.

Lemma index_table header recs :
  index (table header recs) = seq 0 (List.length recs).
Proof.
  unfold index. rewrite rows_table.
  apply map_fst_combine. rewrite length_seq, length_map. reflexivity.
Qed.

Lemma well_formed_table header recs :
  incl required_columns header -> well_formed (table header recs).
Proof.
  intros Hh c Hc. apply has_column_in. apply Hh. exact Hc.
Qed.

(** C8.  Loading a file of 25 lines whose header has the ten required
    columns returns a table at a new address, with exactly 25 records,
    labelled 0 to 24, that are the lines of the file with the season set; the
    table has the ten required columns and the season column. *)
Theorem load_data_25_records header recs
    (Hlen : List.length recs = 25)
    (Hcols : incl required_columns header) :
  exists d,
    load_data (Parsed header recs) (mkState None [] [] [])
    = (Ok 0, mkState None [OFrame d] [] []) /\
    List.length (rows d) = 25 /\
    index d = seq 0 25 /\
    records d = map (set_season "2024-25") recs /\
    well_formed d /\
    has_column d "season" = true.
Proof.
  exists (table header recs). split; [reflexivity |].
  split; [| split; [| split; [| split]]].
  - rewrite rows_table, length_combine, length_seq, length_map, Hlen. reflexivity.
  - rewrite index_table, Hlen. reflexivity.
  - apply records_table.
  - apply well_formed_table. exact Hcols.
  - apply table_season_constant.
Qed.

Lemma load_data_25_records_witness :
  List.length roster = 25 /\
  incl required_columns required_columns /\
  exists d,
    load_data sample_file (mkState None [] [] [])
    = (Ok 0, mkState None [OFrame d] [] []) /\
    List.length (rows d) = 25 /\
    index d = seq 0 25 /\
    records d = map (set_season "2024-25") roster /\
    well_formed d /\
    has_column d "season" = true.
Proof.
  split; [reflexivity |]. split; [apply incl_refl |].
  apply (load_data_25_records required_columns roster);
    [reflexivity | apply incl_refl].
Defined.

(** C7.  In a session that starts with an empty cache, whatever the file
    and the widgets are at each interaction, every table in the store at the
    end of every execution -- the loaded table and every table derived from
    it -- has the season column, with "2024-25" in every row. *)
Theorem season_constant_in_session (steps : list (CsvFile * Widgets)) :
  Forall (fun out => Forall season_constant (frames (heap (snd out))))
    (snd (session None steps)).
Proof.
  apply session_frames_season. left. reflexivity.
Qed.

(** C9.  Once an execution has been served a table, that execution and
    every later one of the session end with [df] bound to that very table,
    row for row and field for field, whatever the widgets and the file then
    are; the cache holds the same table, and no other name is bound to the
    object [df] is bound to. *)
Theorem loaded_table_immutable c file header recs w
    (steps : list (CsvFile * Widgets))
    (Hs : serves c file header recs) :
  Forall (fun out => df_intact (table header recs) (snd out))
    (snd (session c ((file, w) :: steps))).
Proof.
  cbn [session]. constructor.
  - cbn [snd]. rewrite (rerun_served _ _ _ _ w Hs). apply page_body_df_intact.
  - cbn [snd]. rewrite (rerun_cache_served _ _ _ _ w Hs).
    apply session_df_intact.
Qed.

Lemma loaded_table_immutable_witness :
  serves None sample_file required_columns roster /\
  Forall (fun out => df_intact (table required_columns roster) (snd out))
    (snd (session None [(sample_file, default_widgets);
                        (Absent, point_guard_widgets);
                        (all_rounders_file, guards_widgets)])).
Proof.
  assert (Hs : serves None sample_file required_columns roster)
    by (right; split; reflexivity).
  split; [exact Hs |].
  apply (loaded_table_immutable None sample_file required_columns roster
           default_widgets _ Hs).
Defined.

(** ** The position filter *)

Lemma main_content_grows d w :
  grows tab_names (snd (after_sidebar d w))
    (snd (main_content w 0 (fst (after_sidebar d w)) (snd (after_sidebar d w)))).
Proof.
  eapply keeps_final; [apply keeps_main_content, incl_refl | apply grows_refl].
Qed.

Lemma not_in_tab_names x :
  x = "filtered_df" \/ x = "df" -> ~ In x tab_names.
Proof.
  unfold tab_names. intros [-> | ->] H; simpl in H;
    repeat (destruct H as [H | H]; [discriminate |]); exact H.
Qed.

Lemma final_filtered_df c file header recs w :
  serves c file header recs ->
  In "name" header -> In "position" header ->
  lookup "filtered_df" (snd (rerun c file w))
  = Some (OFrame (filtered (table header recs) w)).
Proof.
  intros Hs Hn Hp.
  rewrite (rerun_served _ _ _ _ w Hs).
  rewrite page_body_exec;
    [| apply table_season_constant | apply has_column_in, Hn | apply has_column_in, Hp].
  eapply grows_lookup;
    [apply main_content_grows | apply not_in_tab_names; left; reflexivity |].
  apply after_sidebar_filtered.
Qed.

(** C1, as amended.  For a table with the columns the sidebar reads (name
    and position), and the season select box on the table's season: when the
    position select box is on any value other than "All", [filtered_df] ends
    the execution bound to a table of exactly the rows of the loaded table
    whose position is that value, in their order and under their labels;
    when it is on "All", [filtered_df] is the loaded table in full. *)
Theorem position_filter_selects c file header recs w
    (Hs : serves c file header recs)
    (Hname : In "name" header)
    (Hposition : In "position" header)
    (Hseason : season_chosen (table header recs) w) :
  let d := table header recs in
  exists f,
    lookup "filtered_df" (snd (rerun c file w)) = Some (OFrame f) /\
    columns f = columns d /\
    (selected_position w = "All" -> f = d) /\
    (selected_position w <> "All" ->
     rows f = position_rows (selected_position w) d /\
     forall r, In r (rows f) <->
               In r (rows d) /\ position (snd r) = selected_position w).
Proof.
  intros d. exists (filtered d w).
  split; [apply final_filtered_df; assumption |].
  unfold d. rewrite (filtered_rows _ w (table_season_constant header recs) Hseason).
  destruct (String.eqb_spec (selected_position w) "All") as [Hall | Hall].
  - split; [reflexivity |]. split; [reflexivity | contradiction].
  - split; [reflexivity |]. split; [contradiction |]. intros _.
    split; [reflexivity |]. intros r. cbn [rows]. unfold position_rows.
    rewrite filter_In, String.eqb_eq. reflexivity.
Qed.

Lemma position_filter_selects_witness :
  serves None sample_file required_columns roster /\
  In "name" required_columns /\
  In "position" required_columns /\
  season_chosen (table required_columns roster) point_guard_widgets /\
  exists f,
    lookup "filtered_df" (snd (rerun None sample_file point_guard_widgets))
    = Some (OFrame f) /\
    columns f = columns (table required_columns roster) /\
    (selected_position point_guard_widgets = "All" ->
     f = table required_columns roster) /\
    (selected_position point_guard_widgets <> "All" ->
     rows f = position_rows "PG" (table required_columns roster) /\
     forall r, In r (rows f) <->
               In r (rows (table required_columns roster)) /\
               position (snd r) = "PG").
Proof.
  assert (H1 : serves None sample_file required_columns roster)
    by (right; split; reflexivity).
  assert (H2 : In "name" required_columns) by (simpl; tauto).
  assert (H3 : In "position" required_columns) by (simpl; tauto).
  assert (H4 : season_chosen (table required_columns roster) point_guard_widgets)
    by (exists "2024-25"; split; [reflexivity | left; reflexivity]).
  repeat split; try assumption;
    apply (position_filter_selects None sample_file required_columns roster
             point_guard_widgets H1 H2 H3 H4).
Defined.

(** C1 as stated fails on a position that reads "All": it is a value
    present in the data, the select box is on it, and [filtered_df] holds a
    row of another position. *)
Lemma position_named_All_counterexample :
  In "All" (map position all_rounders) /\
  selected_position position_all_widgets = "All" /\
  exists f r,
    lookup "filtered_df" (snd (rerun None all_rounders_file position_all_widgets))
    = Some (OFrame f) /\
    In r (records f) /\
    position r = "SG".
Proof.
  split; [left; reflexivity |]. split; [reflexivity |].
  eexists. eexists. split; [vm_compute; reflexivity |].
  split; [right; left; reflexivity | reflexivity].
Qed.

(** ** The comparison table *)

Lemma wp_keeps {A : Type} G (m : M A) R Q E st :
  keeps G m R -> G st ->
  (forall a st', G st' -> R a -> Q a st') ->
  (forall e st', G st' -> E e st') ->
  wp m Q E st.
Proof.
  intros Hm Hst HQ HE. eapply wp_mono; [apply (Hm st Hst) | |].
  - intros a st' [H1 H2]. auto.
  - intros e st'. apply HE.
Qed.

Lemma wp_final {A : Type} (m : M A) (P : State -> Prop) st :
  wp m (fun _ st' => P st') (fun _ st' => P st') st -> P (snd (m st)).
Proof.
  unfold wp. destruct (m st) as [[a | e] st']; auto.
Qed.

(** A sequence of statements and whole tabs. *)
Ltac keeps_script :=
  repeat (eapply keeps_bind;
          [first [ solve [keeps_stmt]
                 | apply keeps_tab2
                 | apply keeps_tab3; simpl; tauto
                 | apply keeps_tab4; simpl; tauto ]
          | let a := fresh in let H := fresh in intros a H; cbv beta in H]);
  try (eapply keeps_weaken; [solve [keeps_stmt] | trivial]).

Lemma has_column_filtered d w c : has_column (filtered d w) c = has_column d c.
Proof.
  unfold filtered. destruct (String.eqb (selected_position w) "All"); reflexivity.
Qed.

Lemma filter_filter {A : Type} (f g : A -> bool) (l : list A) :
  filter f (filter g l) = filter (fun x => f x && g x) l.
Proof.
  induction l as [| x l IH]; simpl; [reflexivity |].
  destruct (g x); simpl; rewrite ?IH, ?andb_true_r, ?andb_false_r; reflexivity.
Qed.

Lemma records_filter (f : PlayerRecord -> bool) (l : list (nat * PlayerRecord)) :
  map snd (filter (fun r => f (snd r)) l) = filter f (map snd l).
Proof.
  induction l as [| x l IH]; simpl; [reflexivity |].
  destruct (f (snd x)); simpl; rewrite IH; reflexivity.
Qed.

Lemma records_filtered d w :
  season_constant d -> season_chosen d w ->
  records (filtered d w) = filter (passes (selected_position w)) (records d).
Proof.
  intros Hd Hw. rewrite (filtered_rows d w Hd Hw). unfold passes.
  destruct (String.eqb (selected_position w) "All") eqn:Hall.
  - cbn [orb]. symmetry. apply forallb_filter_id.
    apply forallb_forall. reflexivity.
  - cbn [orb]. unfold records, position_rows. cbn [rows].
    apply (records_filter (fun r => String.eqb (position r) (selected_position w))).
Qed.

Lemma records_comparison d w :
  season_constant d -> season_chosen d w ->
  records (comparison d w) = compared d w.
Proof.
  intros Hd Hw. unfold comparison, compared, getitem_mask, isin, records at 1.
  cbn [rows].
  assert (Hm : map (fun x => existsb (String.eqb x) (selected_players w))
                 (map (str_field c_name) (records (filtered d w)))
               = map (fun r => existsb (String.eqb (name (snd r))) (selected_players w))
                   (rows (filtered d w))).
  { unfold records. rewrite !map_map. reflexivity. }
  rewrite Hm, select_mask_map.
  rewrite (records_filter (fun r => existsb (String.eqb (name r)) (selected_players w))).
  fold (records (filtered d w)). rewrite (records_filtered d w Hd Hw).
  apply filter_filter.
Qed.

(** ** The ten most efficient players *)

Lemma larger_true c y x :
  larger c y x = true <-> (num_field c (snd x) < num_field c (snd y))%Q.
Proof.
  unfold larger. rewrite negb_true_iff.
  destruct (Qle_bool (num_field c (snd y)) (num_field c (snd x))) eqn:E.
  - apply Qle_bool_iff in E. split; [discriminate |].
    intros H. exfalso. apply (Qlt_not_le _ _ H E).
  - split; [intros _ | reflexivity].
    apply Qnot_le_lt. intros H. apply Qle_bool_iff in H. congruence.
Qed.






Lemma StronglySorted_app_inv {A : Type} (R : A -> A -> Prop) l1 l2 :
  StronglySorted R (l1 ++ l2) ->
  StronglySorted R l1 /\ forall a b, In a l1 -> In b l2 -> R a b.
Proof.
  induction l1 as [| x l1 IH]; simpl; intros H.
  - split; [constructor | intros a b []].
  - inversion H as [| ? ? Hs Hx]; subst.
    destruct (IH Hs) as [H1 H2]. rewrite Forall_forall in Hx. split.
    + constructor; [exact H1 |]. apply Forall_forall.
      intros y Hy. apply Hx. apply in_or_app. left. exact Hy.
    + intros a b [-> | Ha] Hb; [| auto].
      apply Hx. apply in_or_app. right. exact Hb.
Qed.



(** ** An empty selection *)

Lemma first_missing_none d labels :
  Forall (fun c => has_column d c = true) labels -> first_missing d labels = None.
Proof.
  unfold first_missing. induction 1 as [| c labels Hc _ IH]; simpl; [reflexivity |].
  rewrite Hc. exact IH.
Qed.

Lemma well_formed_columns d :
  well_formed d ->
  Forall (fun c => has_column d c = true) required_columns.
Proof.
  intros Hwf. apply Forall_forall. exact Hwf.
Qed.

Lemma groupby_mean_ok d key :
  well_formed d -> has_column d (str_label key) = true ->
  exists s, groupby_mean d key = Ok s.
Proof.
  intros Hwf Hk. unfold groupby_mean. rewrite first_missing_none; [eauto |].
  constructor; [exact Hk |].
  repeat (constructor; [apply Hwf; simpl; tauto |]). constructor.
Qed.

Lemma px_scatter_ok title d w :
  well_formed d -> px_scatter title (filtered d w) = Ok (ScatterChart title (filtered d w)).
Proof.
  intros Hwf. unfold px_scatter. rewrite first_missing_none; [reflexivity |].
  repeat (constructor; [rewrite has_column_filtered; apply Hwf; simpl; tauto |]).
  constructor.
Qed.

Lemma nlargest_ok n c d :
  has_column d (num_label c) = true -> exists t, nlargest n c d = Ok t.
Proof.
  intros Hc. unfold nlargest. rewrite Hc. eauto.
Qed.

Lemma unique_nonempty s : s <> [] -> unique s <> [].
Proof. destruct s; [contradiction | discriminate]. Qed.

(** The row of the chosen player is found when the table has rows. *)
Lemma chosen_player_row d w :
  rows d <> [] -> player_chosen d w ->
  exists r, iloc0 (getitem_mask d (series_eq (map (str_field c_name) (records d))
                                     (selected_player w))) = Ok r.
Proof.
  intros Hrows Hsel. unfold player_chosen, selectbox_returns in Hsel.
  destruct (unique (map name (records d))) as [| o opts] eqn:Hu.
  - exfalso. apply (unique_nonempty (map name (records d))); [| exact Hu].
    unfold records. destruct (rows d); [contradiction | discriminate].
  - destruct Hsel as (p & Hp & Hin). rewrite <- Hu in Hin.
    apply unique_In in Hin. rewrite Hp, getitem_mask_eq.
    unfold iloc0. cbn [rows].
    destruct (filter _ (rows d)) as [| r rs] eqn:Hf; [| eauto].
    exfalso. unfold records in Hin. rewrite map_map in Hin.
    apply in_map_iff in Hin. destruct Hin as (x & Hx & Hin).
    assert (Hin' : In x (filter (fun r => String.eqb (str_field c_name (snd r)) p)
                           (rows d))).
    { apply filter_In. split; [exact Hin |]. apply String.eqb_eq. exact Hx. }
    rewrite Hf in Hin'. destruct Hin'.
Qed.

Lemma wp_ok {A : Type} (m : M A) (Q : A -> State -> Prop) st :
  wp m Q (fun _ _ => False) st ->
  exists a, fst (m st) = Ok a /\ Q a (snd (m st)).
Proof.
  unfold wp. destruct (m st) as [[a | e] st']; simpl; [eauto | contradiction].
Qed.

(** With nobody selected, on a table with the required columns and at least
    one row, the whole page is rendered. *)
Lemma page_completes_without_selection d w :
  season_constant d -> well_formed d -> rows d <> [] ->
  selected_players w = [] -> player_chosen d w ->
  wp (page_body w 0)
    (fun _ st' =>
       filter in_tab1 (page st')
       = [(Tab 1, Header "Player Comparison");
          (Tab 1, Info "Please select players to compare from the sidebar.")] /\
       address_of "comparison_df" st' = None)
    (fun _ _ => False) (loaded_state d).
Proof.
  intros [Hs _] Hwf Hrows Hsel Hpl.
  pose proof (well_formed_columns d Hwf) as Hcols.
  unfold required_columns in Hcols.
  repeat match goal with
         | H : Forall _ (_ :: _) |- _ => inversion H; clear H; subst
         end.
  destruct (chosen_player_row d w Hrows Hpl) as (r & Hr).
  destruct (groupby_mean_ok d c_position Hwf ltac:(assumption)) as (sp & Hsp).
  destruct (groupby_mean_ok d c_team Hwf ltac:(assumption)) as (stm & Hst).
  destruct (nlargest_ok 10 c_efficiency d ltac:(assumption)) as (t & Ht).
  pose proof (px_scatter_ok "Points vs Rebounds by Position" d w Hwf) as Hsc.
  unfold wp. rewrite page_body_exec by assumption.
  match goal with
  | |- match ?m ?st with _ => _ end => change (wp m
      (fun _ st' =>
         filter in_tab1 (page st')
         = [(Tab 1, Header "Player Comparison");
            (Tab 1, Info "Please select players to compare from the sidebar.")] /\
         address_of "comparison_df" st' = None)
      (fun _ _ => False) st)
  end.
  unfold after_sidebar, main_content.
  destruct (String.eqb (selected_position w) "All"); cbn [fst snd];
    repeat exec; rewrite Hsel; repeat exec; split; reflexivity.
Qed.

(** C4.  When no player is selected, the comparison tab, in whatever state
    it is entered, shows its header and the informational message and
    returns: it reads no table, makes none, binds no name and raises
    nothing.  On a loaded table with the ten required columns and at least
    one row (the dataset has twenty-five), with the select box of the second
    tab on one of its options, the whole page is then rendered to its end
    without an error; the two elements are all there is in the first tab,
    and [comparison_df] is not bound. *)
Theorem empty_selection_shows_info c file header recs w
    (Hs : serves c file header recs)
    (Hcols : incl required_columns header)
    (Hrows : recs <> [])
    (Hplayer : player_chosen (table header recs) w)
    (Hsel : selected_players w = []) :
  let out := rerun c file w in
  (forall f st,
     tab1 w f st
     = (Ok tt,
        mkState (cache st) (heap st) (globals st)
          (page st
           ++ [(Tab 1, Header "Player Comparison");
               (Tab 1, Info "Please select players to compare from the sidebar.")]))) /\
  fst out = Ok tt /\
  filter in_tab1 (page (snd out))
  = [(Tab 1, Header "Player Comparison");
     (Tab 1, Info "Please select players to compare from the sidebar.")] /\
  address_of "comparison_df" (snd out) = None.
Proof.
  intros out. split.
  - intros f st. unfold tab1, bind, emit. rewrite Hsel. cbn [page cache heap globals].
    rewrite <- app_assoc. reflexivity.
  - unfold out. rewrite (rerun_served _ _ _ _ w Hs).
    destruct (wp_ok _ _ _ (page_completes_without_selection (table header recs) w
                             (table_season_constant header recs)
                             (well_formed_table header recs Hcols)
                             ltac:(rewrite rows_table; destruct recs;
                                   [contradiction | discriminate])
                             Hsel Hplayer))
      as ([] & Hok & Hpage & Hcmp).
    auto.
Qed.

Lemma empty_selection_shows_info_witness :
  let w := mkWidgets (Some "2024-25") [] "All" (Some "Player 01") in
  let out := rerun None sample_file w in
  List.length roster = 25 /\
  fst out = Ok tt /\
  filter in_tab1 (page (snd out))
  = [(Tab 1, Header "Player Comparison");
     (Tab 1, Info "Please select players to compare from the sidebar.")] /\
  address_of "comparison_df" (snd out) = None.
Proof.
  intros w. split; [reflexivity |].
  apply (empty_selection_shows_info None sample_file required_columns roster w).
  - right. split; reflexivity.
  - apply incl_refl.
  - discriminate.
  - exists "Player 01". split; [reflexivity | left; reflexivity].
  - reflexivity.
Defined.

(** A file that has the header line and no row is not the data the page is
    written for.  On it nobody can be selected; the comparison tab shows its
    message as on any table, and it is the second tab that raises, when it
    indexes the first row of an empty table. *)
Lemma header_only_file_raises_in_second_tab :
  let out := rerun None header_only_file no_choice_widgets in
  selected_players no_choice_widgets = [] /\
  In (Tab 1, Info "Please select players to compare from the sidebar.")
    (page (snd out)) /\
  fst out = Raised IndexError /\
  last (page (snd out)) (Main, Markdown "")
  = (Tab 2, Selectbox "Select a Player for Detailed Stats" []).
Proof.
  vm_compute. repeat split; tauto.
Qed.

(** ** Executions that raise *)

(** The loop of the radar chart raises as soon as a player has no row in
    the comparison table. *)
Lemma radar_traces_missing_player a d p ps traces st :
  nth_error (heap st) a = Some (OFrame d) ->
  has_column d "name" = true ->
  ~ In p (map name (records d)) ->
  radar_traces a (p :: ps) traces st = (Raised IndexError, st).
Proof.
  intros Ha Hn Hp. cbn [radar_traces]. unfold bind at 1, read_frame.
  rewrite Ha. unfold bind at 1, lift, getitem_str.
  change (str_label c_name) with "name". rewrite Hn.
  unfold bind at 1. rewrite getitem_mask_eq. unfold iloc0. cbn [rows].
  destruct (filter _ (rows d)) as [| r rs] eqn:Hf; [reflexivity |].
  exfalso. apply Hp.
  assert (Hr : In r (filter (fun r => String.eqb (str_field c_name (snd r)) p) (rows d)))
    by (rewrite Hf; left; reflexivity).
  apply filter_In in Hr. destruct Hr as [Hr He]. apply String.eqb_eq in He.
  unfold records. rewrite map_map. apply in_map_iff. exists r. split; assumption.
Qed.

(** On a table with the columns the comparison reads, a selection that is
    not empty and of which no row passes the position filter makes the
    execution raise IndexError in the first tab. *)
Lemma comparison_without_rows_raises c file header recs w :
  serves c file header recs ->
  In "name" header -> In "position" header ->
  In "ppg" header -> In "rpg" header -> In "apg" header ->
  season_chosen (table header recs) w ->
  selected_players w <> [] ->
  compared (table header recs) w = [] ->
  fst (rerun c file w) = Raised IndexError.
Proof.
  intros Hs Hn Hp Hppg Hrpg Hapg Hseason Hsel Hnone.
  set (d := table header recs) in *.
  assert (Hd : season_constant d) by apply table_season_constant.
  pose proof (records_comparison d w Hd Hseason) as Hrec. rewrite Hnone in Hrec.
  assert (Hcol : forall x, In x header -> has_column (filtered d w) x = true)
    by (intros x Hx; rewrite has_column_filtered; apply has_column_in, Hx).
  pose proof (Hcol _ Hn) as Hn'. pose proof (Hcol _ Hppg) as Hppg'.
  pose proof (Hcol _ Hrpg) as Hrpg'. pose proof (Hcol _ Hapg) as Hapg'.
  assert (Hmelt : melt_players (comparison d w) = Ok []).
  { unfold melt_players. rewrite first_missing_none.
    - rewrite Hrec. reflexivity.
    - repeat (constructor; [assumption |]). constructor. }
  rewrite (rerun_served _ _ _ _ w Hs). fold d.
  rewrite page_body_exec;
    [| apply Hd | apply has_column_in, Hn | apply has_column_in, Hp].
  assert (H : wp (main_content w 0 (fst (after_sidebar d w)))
                (fun _ _ => False) (fun e _ => e = IndexError)
                (snd (after_sidebar d w))).
  { clear Hs Hseason Hnone. unfold after_sidebar, main_content, tab1.
    destruct w as [season players choice player].
    cbn [selected_players selected_position] in *.
    destruct players as [| p ps]; [contradiction |].
    unfold comparison in Hrec, Hmelt. cbn [selected_players] in Hrec, Hmelt.
    destruct (String.eqb choice "All"); cbn [fst snd];
      (repeat exec; apply wp_bind; unfold wp at 1;
       erewrite radar_traces_missing_player;
       [ reflexivity
       | reflexivity
       | exact Hn'
       | rewrite Hrec; intros [] ]). }
  apply wp_run in H.
  destruct (fst (main_content _ _ _ _)) as [u | e]; [contradiction | congruence].
Qed.

(** C5.  There is a selection of players that is not empty, with a position
    filter that differs from the position of every selected player, on
    which the comparison tab raises IndexError: the comparison table has no
    row, the grouped bar chart is the last element on the page, and in the
    state the execution stopped in, the loop that builds the radar chart
    raises on its first player, whose table is empty. *)
Theorem radar_raises_when_filter_excludes_selection :
  exists header recs w,
    selected_players w <> [] /\
    Forall (fun r => In (name r) (selected_players w) ->
                     position r <> selected_position w) recs /\
    fst (rerun None (Parsed header recs) w) = Raised IndexError /\
    lookup "comparison_df" (snd (rerun None (Parsed header recs) w))
    = Some (OFrame (mkFrame (columns (table header recs)) [])) /\
    last (page (snd (rerun None (Parsed header recs) w))) (Main, Markdown "")
    = (Tab 1, PlotlyChart (BarGrouped "Player Statistics Comparison" [])) /\
    exists a,
      address_of "comparison_df" (snd (rerun None (Parsed header recs) w)) = Some a /\
      radar_traces a (selected_players w) [] (snd (rerun None (Parsed header recs) w))
      = (Raised IndexError, snd (rerun None (Parsed header recs) w)).
Proof.
  exists required_columns, roster, center_widgets.
  split; [discriminate |]. split.
  - repeat constructor; simpl; intros [H | [H | []]]; discriminate.
  - split; [vm_compute; reflexivity |]. split; [vm_compute; reflexivity |].
    split; [vm_compute; reflexivity |].
    exists 3. split; [vm_compute; reflexivity |].
    apply (radar_traces_missing_player 3
             (mkFrame (columns (table required_columns roster)) [])).
    + vm_compute. reflexivity.
    + vm_compute. reflexivity.
    + intros [].
Qed.

(** *** A missing column *)

(** The second tab reads every required column: when it returns, the table
    has them all. *)
Lemma tab2_reads_required_columns d w st :
  nth_error (heap st) 0 = Some (OFrame d) ->
  wp (tab2 w 0) (fun _ _ => well_formed d) (fun _ _ => True) st.
Proof.
  intros Hdf. unfold tab2. exec.
  apply wp_bind. eapply try_column; [exact Hdf | intros Hname | trivial].
  state_simpl. do 3 exec.
  apply wp_bind. apply try_result; [intros r _ | trivial]. state_simpl. exec.
  apply wp_bind. apply try_metric_of; [intros Hppg | trivial]. state_simpl.
  apply wp_bind. apply try_metric_of; [intros Hrpg | trivial]. state_simpl.
  apply wp_bind. apply try_metric_of; [intros Hapg | trivial]. state_simpl. exec.
  apply wp_bind. apply try_metric_of; [intros Hspg | trivial]. state_simpl.
  apply wp_bind. apply try_metric_of; [intros Hbpg | trivial]. state_simpl.
  apply wp_bind. apply try_metric_of; [intros Hfg | trivial]. state_simpl.
  apply wp_bind. apply try_metric_of; [intros Heff | trivial]. state_simpl.
  do 2 exec.
  apply wp_bind. apply try_row_get_str; [intros Hteam | trivial]. state_simpl. exec.
  apply wp_bind. apply try_row_get_str; [intros Hpos | trivial]. state_simpl.
  apply wp_pure.
  intros c Hc. unfold required_columns in Hc. simpl in Hc.
  repeat (destruct Hc as [<- | Hc]; [assumption |]). contradiction.
Qed.

Lemma keeps_refilter N st0 w f :
  In "filtered_df" N -> List.length (heap st0) <= f ->
  keeps (grows N st0)
    (if String.eqb (selected_position w) "All" then ret f
     else (a <- where_eq f c_position (Some (selected_position w)) ;;
           assign "filtered_df" a ;;
           ret a))
    (fun _ => True).
Proof.
  intros HN Hf. destruct (String.eqb (selected_position w) "All"); keeps_run.
Qed.

(** A page that is rendered to its end was made from a table with all the
    required columns. *)
Lemma completes_well_formed d w :
  fst (page_body w 0 (loaded_state d)) = Ok tt -> well_formed d.
Proof.
  intros Hok.
  assert (H : wp (page_body w 0) (fun _ _ => well_formed d) (fun _ _ => True)
                (loaded_state d)).
  { unfold page_body.
    eapply (exec_keeps (grows view_names (loaded_state d)) _ _ (fun _ => True));
      [apply keeps_sidebar; simpl; tauto | apply grows_refl | | trivial].
    intros f st1 H1 _. unfold main_content.
    eapply (exec_keeps (grows view_names (loaded_state d)) _ _ (fun _ => True));
      [apply keeps_emit | exact H1 | | trivial].
    intros _ st2 H2 _.
    eapply (exec_keeps (grows view_names (loaded_state d)) _ _ (fun _ => True));
      [apply keeps_emit | exact H2 | | trivial].
    intros _ st3 H3 _.
    eapply (exec_keeps (grows view_names (loaded_state d)) _ _ (fun _ => True));
      [apply keeps_emit | exact H3 | | trivial].
    intros _ st4 H4 _.
    eapply (exec_keeps (grows view_names (loaded_state d)) _ _ (fun _ => True));
      [apply keeps_tab1; simpl; tauto | exact H4 | | trivial].
    intros _ st5 H5 _.
    apply wp_bind.
    eapply wp_mono;
      [apply (tab2_reads_required_columns d w st5);
       apply (grows_old _ _ _ _ _ H5); reflexivity | | trivial].
    intros u st6 Hwf. apply wp_pure. exact Hwf. }
  apply wp_run in H. rewrite Hok in H. exact H.
Qed.

Lemma not_incl_missing (l h : list string) :
  ~ incl l h -> exists c, In c l /\ ~ In c h.
Proof.
  induction l as [| x l IH]; intros Hn.
  - exfalso. apply Hn. apply incl_nil_l.
  - destruct (in_dec string_dec x h) as [Hx | Hx].
    + destruct IH as (c & Hc & Hch).
      * intros Hl. apply Hn. apply incl_cons; assumption.
      * exists c. split; [right; exact Hc | exact Hch].
    + exists x. split; [left; reflexivity | exact Hx].
Qed.

Lemma table_not_well_formed header recs :
  ~ incl required_columns header -> ~ well_formed (table header recs).
Proof.
  intros Hn Hwf. destruct (not_incl_missing _ _ Hn) as (c & Hc & Hch).
  specialize (Hwf c Hc). rewrite has_column_table in Hwf.
  apply orb_true_iff in Hwf. destruct Hwf as [Hwf | Hwf].
  - apply existsb_exists in Hwf. destruct Hwf as (x & Hx & He).
    apply String.eqb_eq in He. rewrite <- He in Hx. contradiction.
  - apply String.eqb_eq in Hwf. rewrite Hwf in Hc.
    unfold required_columns in Hc. simpl in Hc.
    repeat (destruct Hc as [Hc | Hc]; [discriminate |]). contradiction.
Qed.

(** The first element of the sidebar is on the page whatever follows. *)
Lemma page_starts_with_sidebar_title d w :
  hd_error (page (snd (page_body w 0 (loaded_state d))))
  = Some (Sidebar, Title "🏀 NBA Players Dashboard").
Proof.
  apply wp_final. unfold page_body, sidebar, loaded_state. exec.
  match goal with
  | |- wp _ _ _ ?st => set (G := grows view_names st)
  end.
  assert (HG : forall st', G st' ->
            hd_error (page st') = Some (Sidebar, Title "🏀 NBA Players Dashboard")).
  { intros st' [_ _ _ [p Hp]]. rewrite Hp. reflexivity. }
  assert (HN : In "filtered_df" view_names) by (simpl; tauto).
  eapply (wp_keeps G _ (fun _ => True)).
  - repeat (eapply keeps_bind;
            [first [solve [keeps_stmt] | apply keeps_refilter; [simpl; tauto | assumption]]
            | let a := fresh in let H := fresh in intros a H; cbv beta in H]).
    eapply keeps_weaken; [apply keeps_ret | trivial].
  - apply grows_refl.
  - intros f st' Hst' _.
    eapply (wp_keeps G _ (fun _ => True));
      [apply keeps_main_content; intros x Hx; simpl in *; tauto | exact Hst' | |].
    + intros _ st'' Hst'' _. apply HG, Hst''.
    + intros _ st'' Hst''. apply HG, Hst''.
  - intros _ st' Hst'. apply HG, Hst'.
Qed.

(** ** The tables of the analysis tabs *)

Lemma computed_from_functional d x o1 o2 :
  computed_from d x o1 -> computed_from d x o2 -> o1 = o2.
Proof.
  intros H1 H2. destruct H1; inversion H2; subst; try reflexivity; congruence.
Qed.

Lemma settled_grows N d x st0 st :
  grows N st0 st -> ~ In x N -> settled d x st0 -> settled d x st.
Proof.
  intros Hg Hx [Hnone | (o & Ho & Hc)].
  - left. rewrite (grows_address _ _ _ _ Hg Hx). exact Hnone.
  - right. exists o. split; [| exact Hc]. eapply grows_lookup; eauto.
Qed.

Lemma nth_error_app_old {A : Type} (l l' : list A) a x :
  nth_error l a = Some x -> nth_error (l ++ l') a = Some x.
Proof.
  intros H. rewrite nth_error_app1; [exact H |].
  apply nth_error_Some. congruence.
Qed.

(** Comparisons of names that are written out. *)
Ltac names_eqb :=
  repeat match goal with
    | |- context [String.eqb ?a ?b] =>
        let v := eval vm_compute in (String.eqb a b) in
        lazymatch v with
        | true => change (String.eqb a b) with true
        | false => change (String.eqb a b) with false
        end
    end.

(** A name left unbound, and a name bound to the table it should be. *)
Ltac unbound Hnone :=
  left; unfold address_of; cbn [globals find fst]; names_eqb;
  cbn [find]; exact Hnone.

Ltac at_address :=
  first [ apply nth_error_last
        | eassumption
        | apply nth_error_app_old; at_address ].

Ltac bound_to :=
  right; eexists; split;
  [ unfold lookup; cbn [globals find fst heap]; names_eqb; cbn [find];
    at_address
  | constructor; try assumption ].

(** A state written out as the extension of [st] that it is. *)
Ltac new_bindings :=
  lazymatch goal with
  | |- ?x :: ?y :: ?z :: globals ?s = ?g ++ _ => unify g [x; y; z]; reflexivity
  | |- ?x :: ?y :: globals ?s = ?g ++ _ => unify g [x; y]; reflexivity
  | |- ?x :: globals ?s = ?g ++ _ => unify g [x]; reflexivity
  | |- globals ?s = ?g ++ _ => unify g (@nil (string * nat)); reflexivity
  end.

Ltac grows_written :=
  split; cbn [cache heap globals page];
  [ reflexivity
  | eexists; split;
    [ first [ reflexivity
            | rewrite <- !app_assoc; reflexivity
            | symmetry; apply app_nil_r ]
    | repeat constructor;
      let d' := fresh in
      let H := fresh in
      intros d' H;
      first [ discriminate H
            | injection H as <-; eexists 0, _;
              split; [eassumption | eapply derived_nlargest; eassumption] ] ]
  | eexists; split;
    [ new_bindings
    | repeat constructor; cbn [fst snd]; try (simpl; tauto);
      rewrite ?length_app; lia ]
  | eexists; first [ rewrite <- !app_assoc; reflexivity | reflexivity ] ].

(** The third tab binds its two tables to what is computed from [d]. *)
Lemma tab3_settles d f st :
  nth_error (heap st) 0 = Some (OFrame d) ->
  wp (tab3 0 f) (fun _ st' => tab3_post d st st') (fun _ st' => tab3_post d st st') st.
Proof.
  intros Hdf. unfold tab3. exec.
  apply wp_bind. eapply try_column; [exact Hdf | intros Hpos | intros _]; state_simpl.
  2: { split; [grows_written | split; intros Hn; unbound Hn]. }
  do 2 exec.
  apply wp_bind. eapply exec_set_columns; [cbn [heap]; at_address |].
  state_simpl. rewrite replace_nth_last. cbn [counts_rows].
  apply wp_bind. eapply exec_read_counts; [cbn [heap]; at_address |].
  state_simpl. exec.
  apply wp_bind. eapply exec_read_frame; [cbn [heap]; at_address |].
  state_simpl.
  apply wp_bind. apply try_result; [intros s Hs | intros _]; state_simpl.
  2: { split; [grows_written | split; intros Hn; [bound_to | unbound Hn]]. }
  do 2 exec.
  match goal with
  | |- wp _ _ _ ?s5 => set (st5 := s5)
  end.
  assert (H5 : tab3_post d st st5)
    by (unfold st5; split; [grows_written | split; intros Hn; bound_to]).
  assert (Hrest : forall st', grows [] st5 st' -> tab3_post d st st').
  { intros st' Hg. destruct H5 as (H5g & H5c & H5s). split; [| split].
    - eapply grows_trans; [exact H5g |].
      eapply grows_weaken; [| exact Hg]. apply incl_nil_l.
    - intros Hn. eapply settled_grows; [exact Hg | intros [] | auto].
    - intros Hn. eapply settled_grows; [exact Hg | intros [] | auto]. }
  eapply (wp_keeps (grows [] st5) _ (fun _ => True));
    [keeps_run | apply grows_refl | intros u st' Hg _; apply Hrest, Hg
    | intros e st' Hg; apply Hrest, Hg].
Qed.

(** The fourth tab binds its three tables to what is computed from [d]. *)
Lemma tab4_settles d st :
  nth_error (heap st) 0 = Some (OFrame d) ->
  wp (tab4 0) (fun _ st' => tab4_post d st st') (fun _ st' => tab4_post d st st') st.
Proof.
  intros Hdf. unfold tab4. exec.
  apply wp_bind. eapply exec_read_frame; [exact Hdf |]. state_simpl.
  apply wp_bind. apply try_result; [intros s Hs | intros _]; state_simpl.
  2: { split; [grows_written | repeat split; intros Hn; unbound Hn]. }
  do 2 exec.
  apply wp_bind. eapply exec_read_stats; [cbn [heap]; at_address |].
  state_simpl. exec.
  apply wp_bind. eapply exec_read_frame; [cbn [heap]; at_address |].
  state_simpl.
  apply wp_bind. apply try_result; [intros t Ht | intros _]; state_simpl.
  2: { split; [grows_written | repeat split; intros Hn; first [bound_to | unbound Hn]]. }
  do 2 exec.
  apply wp_bind. eapply exec_read_frame; [cbn [heap]; at_address |].
  state_simpl. exec.
  apply wp_bind.
  eapply try_column;
    [cbn [heap]; at_address | intros Hteam | intros _];
    state_simpl.
  2: { split; [grows_written | repeat split; intros Hn; first [bound_to | unbound Hn]]. }
  do 2 exec.
  apply wp_bind. eapply exec_set_columns; [cbn [heap]; at_address |].
  state_simpl. rewrite replace_nth_last. cbn [counts_rows].
  apply wp_bind. eapply exec_read_counts; [cbn [heap]; at_address |].
  state_simpl. exec.
  split; [grows_written | repeat split; intros Hn; bound_to].
Qed.

Lemma unbound_after_load d x :
  In x view_names -> address_of x (loaded_state d) = None.
Proof.
  unfold view_names. simpl. intros H.
  repeat (destruct H as [<- | H]; [reflexivity |]). contradiction.
Qed.

Lemma all_settled_unbound d st :
  (forall x, In x analysis_names -> address_of x st = None) -> all_settled d st.
Proof. intros H x Hx. left. apply H, Hx. Qed.

Lemma all_settled_grows d st st' :
  grows [] st st' -> all_settled d st -> all_settled d st'.
Proof.
  intros Hg H x Hx. eapply settled_grows; [exact Hg | intros [] | apply H, Hx].
Qed.

Lemma not_in_names (x : string) (l : list string) :
  forallb (fun y => negb (String.eqb x y)) l = true -> ~ In x l.
Proof.
  intros H Hin. rewrite forallb_forall in H. specialize (H x Hin).
  rewrite String.eqb_refl in H. discriminate.
Qed.

Lemma all_settled_tab3 d st st3 :
  (forall x, In x analysis_names -> address_of x st = None) ->
  tab3_post d st st3 -> all_settled d st3.
Proof.
  intros Hn (Hg & Hc & Hs) x Hx. unfold analysis_names in Hx. simpl in Hx.
  destruct Hx as [<- | [<- | Hx]].
  - apply Hc, Hn. simpl; tauto.
  - apply Hs, Hn. simpl; tauto.
  - left. rewrite (grows_address _ _ _ _ Hg).
    + apply Hn. simpl; tauto.
    + destruct Hx as [<- | [<- | [<- | []]]]; apply not_in_names; reflexivity.
Qed.

Lemma all_settled_tab4 d st st3 st4 :
  (forall x, In x analysis_names -> address_of x st = None) ->
  tab3_post d st st3 -> tab4_post d st3 st4 -> all_settled d st4.
Proof.
  intros Hn H3 (Hg & Hts & Htop & Htc) x Hx.
  pose proof (all_settled_tab3 d st st3 Hn H3) as Hall.
  destruct H3 as (Hg3 & _ & _).
  assert (Hn3 : forall y, In y ["team_stats"; "top_10_efficiency"; "team_counts"] ->
                          address_of y st3 = None).
  { intros y Hy. rewrite (grows_address _ _ _ _ Hg3).
    - apply Hn. simpl in *. tauto.
    - simpl in Hy. destruct Hy as [<- | [<- | [<- | []]]];
        apply not_in_names; reflexivity. }
  unfold analysis_names in Hx. simpl in Hx.
  destruct Hx as [<- | [<- | [<- | [<- | [<- | []]]]]].
  - eapply settled_grows; [exact Hg | apply not_in_names; reflexivity |].
    apply Hall. simpl; tauto.
  - eapply settled_grows; [exact Hg | apply not_in_names; reflexivity |].
    apply Hall. simpl; tauto.
  - apply Hts, Hn3. simpl; tauto.
  - apply Htop, Hn3. simpl; tauto.
  - apply Htc, Hn3. simpl; tauto.
Qed.

(** At the end of an execution served [d], each table of the analysis tabs
    is either not made or the one computed from [d]. *)
Lemma analysis_settled d w :
  all_settled d (snd (page_body w 0 (loaded_state d))).
Proof.
  apply wp_final. unfold page_body.
  set (G := grows ["filtered_df"; "comparison_df"] (loaded_state d)).
  assert (HG : forall st, G st ->
            forall x, In x analysis_names -> address_of x st = None).
  { intros st Hst x Hx. rewrite (grows_address _ _ _ _ Hst).
    - apply unbound_after_load. unfold analysis_names, view_names in *.
      simpl in *. tauto.
    - unfold analysis_names in Hx. simpl in Hx.
      destruct Hx as [<- | [<- | [<- | [<- | [<- | []]]]]];
        apply not_in_names; reflexivity. }
  assert (HE : forall st, G st -> all_settled d st)
    by (intros st Hst; apply all_settled_unbound, HG, Hst).
  assert (Hdf : forall st, G st -> nth_error (heap st) 0 = Some (OFrame d))
    by (intros st Hst; apply (grows_old _ _ _ _ _ Hst); reflexivity).
  eapply (exec_keeps G _ _ (fun _ => True));
    [apply keeps_sidebar; simpl; tauto | apply grows_refl | | intros e st; apply HE].
  intros f st1 H1 _. unfold main_content.
  eapply (exec_keeps G _ _ (fun _ => True));
    [apply keeps_emit | exact H1 | | intros e st; apply HE].
  intros u2 st2 H2 _.
  eapply (exec_keeps G _ _ (fun _ => True));
    [apply keeps_emit | exact H2 | | intros e st; apply HE].
  intros u3 st3 H3 _.
  eapply (exec_keeps G _ _ (fun _ => True));
    [apply keeps_emit | exact H3 | | intros e st; apply HE].
  intros u4 st4 H4 _.
  eapply (exec_keeps G _ _ (fun _ => True));
    [apply keeps_tab1; simpl; tauto | exact H4 | | intros e st; apply HE].
  intros u5 st5 H5 _.
  eapply (exec_keeps G _ _ (fun _ => True));
    [apply keeps_tab2 | exact H5 | | intros e st; apply HE].
  intros u6 st6 H6 _.
  apply wp_bind.
  eapply wp_mono; [apply (tab3_settles d f st6 (Hdf st6 H6)) | |].
  2: { intros e st7 H7. eapply all_settled_tab3; [apply HG, H6 | exact H7]. }
  intros u7 st7 H7.
  assert (Hdf7 : nth_error (heap st7) 0 = Some (OFrame d)).
  { destruct H7 as (Hg7 & _). apply (grows_old _ _ _ _ _ Hg7). apply Hdf, H6. }
  apply wp_bind.
  eapply wp_mono; [apply (tab4_settles d st7 Hdf7) | |].
  2: { intros e st8 H8. eapply all_settled_tab4; [apply HG, H6 | exact H7 | exact H8]. }
  intros u8 st8 H8.
  pose proof (all_settled_tab4 d st6 st7 st8 (HG st6 H6) H7 H8) as Hall.
  eapply (wp_keeps (grows [] st8) _ (fun _ => True));
    [keeps_run | apply grows_refl | |].
  - intros u st' Hg _. eapply all_settled_grows; eauto.
  - intros e st' Hg. eapply all_settled_grows; eauto.
Qed.

Lemma final_analysis_table c file header recs w x o :
  serves c file header recs ->
  In x analysis_names ->
  lookup x (snd (rerun c file w)) = Some o ->
  computed_from (table header recs) x o.
Proof.
  intros Hs Hx Ho. rewrite (rerun_served _ _ _ _ w Hs) in Ho.
  destruct (analysis_settled (table header recs) w x Hx) as [Hn | (o' & Ho' & Hc)].
  - rewrite lookup_address, Hn in Ho. discriminate.
  - rewrite Ho in Ho'. injection Ho' as <-. exact Hc.
Qed.

(** C10.  The position counts, the per-position means and the per-team
    means (and with them the ten most efficient players and the team
    counts) that an execution leaves bound are the ones computed from the
    loaded table alone: two executions served the same table leave the same
    tables, whatever the season, the players and the position selected in
    each.  The table of the scatter chart is [filtered_df], which does change
    with the position filter. *)
Theorem analysis_tables_ignore_widgets :
  (forall c file header recs w1 w2 x o1 o2,
      serves c file header recs ->
      In x analysis_names ->
      lookup x (snd (rerun c file w1)) = Some o1 ->
      lookup x (snd (rerun c file w2)) = Some o2 ->
      computed_from (table header recs) x o1 /\ o1 = o2) /\
  (scatter_data (page (snd (rerun None sample_file default_widgets)))
   = Some (table required_columns roster) /\
   scatter_data (page (snd (rerun None sample_file guards_widgets)))
   = Some (mkFrame (columns (table required_columns roster))
             (position_rows "PG" (table required_columns roster))) /\
   List.length (rows (table required_columns roster)) = 25 /\
   List.length (position_rows "PG" (table required_columns roster)) = 5).
Proof.
  split.
  - intros c file header recs w1 w2 x o1 o2 Hs Hx H1 H2.
    pose proof (final_analysis_table _ _ _ _ _ _ _ Hs Hx H1) as C1.
    pose proof (final_analysis_table _ _ _ _ _ _ _ Hs Hx H2) as C2.
    split; [exact C1 | eapply computed_from_functional; eauto].
  - split; [| split; [| split]]; vm_compute; reflexivity.
Qed.

Lemma analysis_tables_ignore_widgets_witness :
  serves None sample_file required_columns roster /\
  exists o1 o2,
    lookup "position_stats" (snd (rerun None sample_file default_widgets)) = Some o1 /\
    lookup "position_stats" (snd (rerun None sample_file guards_widgets)) = Some o2 /\
    computed_from (table required_columns roster) "position_stats" o1 /\
    o1 = o2.
Proof.
  assert (Hs : serves None sample_file required_columns roster)
    by (right; split; reflexivity).
  split; [exact Hs |].
  destruct (lookup "position_stats" (snd (rerun None sample_file default_widgets)))
    as [o1 |] eqn:H1; [| vm_compute in H1; discriminate H1].
  destruct (lookup "position_stats" (snd (rerun None sample_file guards_widgets)))
    as [o2 |] eqn:H2; [| vm_compute in H2; discriminate H2].
  exists o1, o2. split; [reflexivity |]. split; [reflexivity |].
  apply (proj1 analysis_tables_ignore_widgets None sample_file required_columns
           roster default_widgets guards_widgets "position_stats" o1 o2 Hs).
  - unfold analysis_names. simpl. tauto.
  - exact H1.
  - exact H2.
Defined.

(** ** Further properties *)

(** *** Distinct values and counts *)

Lemma unique_in x s : In x s -> In x (unique s).
Proof.
  induction s as [| y s IH]; simpl; [auto |].
  intros [-> | H]; [left; reflexivity |].
  destruct (String.eqb_spec y x) as [-> | Hne]; [left; reflexivity |].
  right. apply filter_In. split; [apply IH, H |].
  apply negb_true_iff. apply String.eqb_neq. exact Hne.
Qed.

Lemma unique_NoDup s : NoDup (unique s).
Proof.
  induction s as [| y s IH]; simpl; constructor.
  - intros H. apply filter_In in H. destruct H as [_ H].
    rewrite String.eqb_refl in H. discriminate.
  - apply NoDup_filter. exact IH.
Qed.

(** A series that holds one value has that value as its only distinct one. *)
Lemma unique_constant x s :
  s <> [] -> Forall (eq x) s -> unique s = [x].
Proof.
  intros Hne Hall. destruct s as [| y s]; [contradiction |].
  pose proof (Forall_inv Hall) as Hy. pose proof (Forall_inv_tail Hall) as Hs.
  subst y. clear Hall Hne. simpl. f_equal.
  assert (Hu : forall z, In z (unique s) -> z = x).
  { intros z Hz. apply unique_In in Hz. rewrite Forall_forall in Hs.
    symmetry. apply Hs, Hz. }
  induction (unique s) as [| z l IH]; simpl; [reflexivity |].
  rewrite (Hu z (or_introl eq_refl)), String.eqb_refl. simpl.
  apply IH. intros z' Hz'. apply Hu. right. exact Hz'.
Qed.

Lemma count_of_positive x s : In x s <-> 0 < count_of x s.
Proof.
  induction s as [| y s IH]; simpl; [split; [intros [] | lia] |].
  destruct (String.eqb_spec x y) as [-> | Hne].
  - split; [lia | auto].
  - rewrite <- IH. split; [intros [H | H]; [congruence | exact H] | auto].
Qed.

Lemma count_of_filter x s :
  count_of x s = List.length (filter (String.eqb x) s).
Proof.
  induction s as [| y s IH]; simpl; [reflexivity |].
  destruct (String.eqb x y); simpl; rewrite IH; reflexivity.
Qed.

Lemma total_cons x l : total (x :: l) = snd x + total l.
Proof. reflexivity. Qed.

Lemma total_perm l1 l2 : Permutation l1 l2 -> total l1 = total l2.
Proof.
  induction 1; simpl; lia.
Qed.

(** The counts of the values other than [x], taken in the series with or
    without a leading [x]. *)
Lemma total_counts_others x s l :
  total (map (fun v => (v, count_of v (x :: s))) (filter (fun y => negb (String.eqb x y)) l))
  = total (map (fun v => (v, count_of v s)) (filter (fun y => negb (String.eqb x y)) l)).
Proof.
  induction l as [| y l IH]; cbn [filter]; [reflexivity |].
  destruct (String.eqb_spec x y) as [-> | Hne]; cbn [negb]; [exact IH |].
  cbn [map]. rewrite !total_cons, IH. cbn [snd count_of].
  destruct (String.eqb_spec y x) as [-> | _]; [contradiction | reflexivity].
Qed.

(** The counts of a list of distinct values split into that of [x] and
    those of the others. *)
Lemma total_counts_split x s l :
  NoDup l ->
  total (map (fun v => (v, count_of v s)) l)
  = (if existsb (String.eqb x) l then count_of x s else 0)
    + total (map (fun v => (v, count_of v s)) (filter (fun y => negb (String.eqb x y)) l)).
Proof.
  induction 1 as [| y l Hy Hl IH]; [reflexivity |].
  cbn [map existsb filter]. rewrite total_cons. cbn [snd].
  destruct (String.eqb_spec x y) as [-> | Hne]; cbn [negb orb].
  - rewrite IH.
    assert (Hx : existsb (String.eqb y) l = false).
    { destruct (existsb (String.eqb y) l) eqn:E; [| reflexivity].
      apply existsb_exists in E. destruct E as (z & Hz & He).
      apply String.eqb_eq in He. subst z. contradiction. }
    rewrite Hx. lia.
  - cbn [map]. rewrite total_cons, IH. cbn [snd]. lia.
Qed.

(** The counts of the distinct values of a series add up to its length. *)
Lemma total_counts s :
  total (map (fun v => (v, count_of v s)) (unique s)) = List.length s.
Proof.
  induction s as [| x s IH]; [reflexivity |].
  cbn [unique map List.length]. rewrite total_cons. cbn [snd].
  rewrite total_counts_others.
  rewrite (total_counts_split x s (unique s) (unique_NoDup s)) in IH.
  cbn [count_of]. rewrite String.eqb_refl.
  destruct (existsb (String.eqb x) (unique s)) eqn:E; [lia |].
  assert (Hx : count_of x s = 0).
  { destruct (count_of x s) eqn:Hc; [reflexivity |].
    assert (Hin : In x s) by (apply count_of_positive; lia).
    apply unique_in in Hin.
    assert (Ht : existsb (String.eqb x) (unique s) = true)
      by (apply existsb_exists; exists x; split; [exact Hin | apply String.eqb_refl]).
    congruence. }
  lia.
Qed.

(** *** Largest values *)

Lemma fold_Qmax_upper l x :
  (x <= fold_left Qmax l x)%Q /\ Forall (fun v => (v <= fold_left Qmax l x)%Q) l.
Proof.
  revert x. induction l as [| y l IH]; intros x; simpl.
  - split; [apply Qle_refl | constructor].
  - destruct (IH (Qmax x y)) as [H1 H2]. split; [| constructor; [| exact H2]].
    + eapply Qle_trans; [apply Q.le_max_l | exact H1].
    + eapply Qle_trans; [apply Q.le_max_r | exact H1].
Qed.

Lemma fold_Qmax_in l x : In (fold_left Qmax l x) (x :: l).
Proof.
  revert x. induction l as [| y l IH]; intros x; simpl; [left; reflexivity |].
  destruct (IH (Qmax x y)) as [H | H]; [| right; right; exact H].
  rewrite <- H. unfold Qmax, GenericMinMax.gmax.
  destruct (x ?= y)%Q; [left | right; left | left]; reflexivity.
Qed.

(** [series.max()] is one of the values, and none is larger. *)
Lemma series_max_greatest l m :
  series_max l = Some m -> In m l /\ Forall (fun v => (v <= m)%Q) l.
Proof.
  destruct l as [| x l]; [discriminate |]. simpl. intros H. injection H as <-.
  split; [apply fold_Qmax_in |].
  destruct (fold_Qmax_upper l x) as [H1 H2]. constructor; assumption.
Qed.

Lemma series_max_none l : series_max l = None <-> l = [].
Proof. destruct l; split; intros H; try reflexivity; discriminate. Qed.

Lemma fold_py_max_upper l x :
  let m := fold_left (fun m y => if Qlt_le_dec m y then y else m) l x in
  (x <= m)%Q /\ Forall (fun v => (v <= m)%Q) l /\ In m (x :: l).
Proof.
  revert x. induction l as [| y l IH]; intros x; simpl.
  - split; [apply Qle_refl | split; [constructor | left; reflexivity]].
  - destruct (Qlt_le_dec x y) as [Hlt | Hle].
    + destruct (IH y) as (H1 & H2 & H3). split; [| split].
      * eapply Qle_trans; [apply Qlt_le_weak, Hlt | exact H1].
      * constructor; assumption.
      * right. exact H3.
    + destruct (IH x) as (H1 & H2 & H3). split; [exact H1 | split].
      * constructor; [eapply Qle_trans; eassumption | exact H2].
      * destruct H3 as [H3 | H3]; [left; exact H3 | right; right; exact H3].
Qed.

(** Python's [max] returns one of the values, and none is larger. *)
Lemma py_max_greatest l m :
  py_max l = Ok m -> In m l /\ Forall (fun v => (v <= m)%Q) l.
Proof.
  destruct l as [| x l]; [discriminate |]. simpl. intros H. injection H as <-.
  destruct (fold_py_max_upper l x) as (H1 & H2 & H3).
  split; [exact H3 | constructor; assumption].
Qed.

Lemma py_max_ok l : l <> [] -> exists m, py_max l = Ok m.
Proof. destruct l; [contradiction | simpl; eauto]. Qed.

(** *** The cache over a session *)

Lemma session_cached header recs steps :
  session (Some (table header recs)) steps
  = (Some (table header recs),
     map (fun s => rerun (Some (table header recs)) Absent (snd s)) steps).
Proof.
  induction steps as [| [file w] steps IH]; [reflexivity |].
  assert (Hs : forall f, serves (Some (table header recs)) f header recs)
    by (intros f; left; reflexivity).
  cbn [session map snd fst].
  rewrite (rerun_cache_served _ _ _ _ w (Hs file)), IH. cbn [fst snd].
  rewrite (rerun_served _ _ _ _ w (Hs file)), (rerun_served _ _ _ _ w (Hs Absent)).
  reflexivity.
Qed.

(** X1.  Once an execution has been served a table, the file is not read
    again: that execution and every later one of the session end as an
    execution with that table in the cache and no file at all would, with
    the widgets of the moment; the session ends with the table in the
    cache. *)
Theorem session_after_load c file header recs w
    (steps : list (CsvFile * Widgets))
    (Hs : serves c file header recs) :
  let d := table header recs in
  session c ((file, w) :: steps)
  = (Some d, map (fun s => rerun (Some d) Absent (snd s)) ((file, w) :: steps)).
Proof.
  intros d. unfold d. cbn [session map snd fst].
  rewrite (rerun_cache_served _ _ _ _ w Hs), session_cached. cbn [fst snd].
  rewrite (rerun_served _ _ _ _ w Hs).
  rewrite (rerun_served (Some (table header recs)) Absent header recs w)
    by (left; reflexivity).
  reflexivity.
Qed.

Lemma session_after_load_witness :
  serves None sample_file required_columns roster /\
  session None [(sample_file, default_widgets); (Absent, point_guard_widgets);
                (all_rounders_file, center_widgets)]
  = (Some (table required_columns roster),
     [rerun (Some (table required_columns roster)) Absent default_widgets;
      rerun (Some (table required_columns roster)) Absent point_guard_widgets;
      rerun (Some (table required_columns roster)) Absent center_widgets]).
Proof.
  assert (Hs : serves None sample_file required_columns roster)
    by (right; split; reflexivity).
  split; [exact Hs |].
  apply (session_after_load None sample_file required_columns roster default_widgets
           [(Absent, point_guard_widgets); (all_rounders_file, center_widgets)] Hs).
Defined.

(** X2.  A load that fails caches nothing.  While the file is missing,
    empty or cannot be parsed, every execution of a session that started with an
    empty cache raises the load's exception with nothing on the page, no
    object made and no name bound; the executions that follow are those of
    a session that starts, with an empty cache, where the failures end. *)
Theorem failed_loads_cache_nothing (fails steps : list (CsvFile * Widgets))
    (Hfail : Forall (fun s => fst s = Absent \/ fst s = Empty \/
                              fst s = Unparsable) fails) :
  session None (fails ++ steps)
  = (fst (session None steps),
     map (fun s => (Raised (match fst s with
                            | Absent => FileNotFoundError
                            | Empty => EmptyDataError
                            | _ => ParserError
                            end), mkState None [] [] [])) fails
     ++ snd (session None steps)).
Proof.
  induction Hfail as [| [file w] fails Hf _ IH].
  - simpl. destruct (session None steps). reflexivity.
  - cbn [app session map fst snd] in *.
    destruct Hf as [-> | [-> | ->]].
    + change (rerun None Absent w)
        with (@Raised unit FileNotFoundError, mkState None [] [] []).
      cbn [fst snd cache]. rewrite IH. reflexivity.
    + change (rerun None Empty w)
        with (@Raised unit EmptyDataError, mkState None [] [] []).
      cbn [fst snd cache]. rewrite IH. reflexivity.
    + change (rerun None Unparsable w)
        with (@Raised unit ParserError, mkState None [] [] []).
      cbn [fst snd cache]. rewrite IH. reflexivity.
Qed.

Lemma failed_loads_cache_nothing_witness :
  Forall (fun s : CsvFile * Widgets => fst s = Absent \/ fst s = Empty \/
                                       fst s = Unparsable)
    [(Absent, default_widgets); (Unparsable, guards_widgets)] /\
  session None [(Absent, default_widgets); (Unparsable, guards_widgets);
                (sample_file, default_widgets)]
  = (Some (table required_columns roster),
     [(Raised FileNotFoundError, mkState None [] [] []);
      (Raised ParserError, mkState None [] [] []);
      rerun None sample_file default_widgets]).
Proof.
  assert (Hf : Forall (fun s : CsvFile * Widgets => fst s = Absent \/ fst s = Empty \/
                                                    fst s = Unparsable)
                 [(Absent, default_widgets); (Unparsable, guards_widgets)]).
  { constructor; [left; reflexivity |].
    constructor; [right; right; reflexivity |]. constructor. }
  split; [exact Hf |].
  pose proof (failed_loads_cache_nothing
                [(Absent, default_widgets); (Unparsable, guards_widgets)]
                [(sample_file, default_widgets)] Hf) as H.
  cbn [app] in H. rewrite H.
  cbn [session map app fst snd].
  rewrite (rerun_cache_served None sample_file required_columns roster default_widgets)
    by (right; split; reflexivity).
  reflexivity.
Defined.

(** *** The widgets of the sidebar *)

Lemma map_field_table {A : Type} (f : PlayerRecord -> A) header recs :
  (forall r, f (set_season "2024-25" r) = f r) ->
  map f (records (table header recs)) = map f recs.
Proof.
  intros Hf. rewrite records_table, map_map. apply map_ext. exact Hf.
Qed.

(** The seasons of a loaded table. *)
Lemma seasons_table header recs :
  sorted_reverse (unique (map season (records (table header recs))))
  = match recs with [] => [] | _ :: _ => ["2024-25"] end.
Proof.
  destruct recs as [| r recs]; [reflexivity |].
  rewrite (unique_constant "2024-25"); [reflexivity | |].
  - rewrite records_table. discriminate.
  - rewrite records_table, map_map. apply Forall_forall.
    intros x Hx. apply in_map_iff in Hx. destruct Hx as (y & <- & _). reflexivity.
Qed.

(** The season select box is the third element of the page, whatever
    happens after it. *)
Lemma season_box_on_page d w :
  has_column d "season" = true ->
  nth_error (page (snd (page_body w 0 (loaded_state d)))) 2
  = Some (Sidebar, Selectbox "Select Season"
                     (sorted_reverse (unique (map season (records d))))).
Proof.
  intros Hs. apply wp_final. unfold page_body, sidebar, loaded_state. do 4 exec.
  match goal with
  | |- wp _ _ _ ?st => set (G := grows view_names st)
  end.
  assert (HG : forall st', G st' ->
            nth_error (page st') 2
            = Some (Sidebar, Selectbox "Select Season"
                               (sorted_reverse (unique (map season (records d)))))).
  { intros st' [_ _ _ [p Hp]]. rewrite Hp. reflexivity. }
  assert (HN : In "filtered_df" view_names) by (simpl; tauto).
  eapply (wp_keeps G _ (fun _ => True)).
  - repeat (eapply keeps_bind;
            [first [solve [keeps_stmt] | apply keeps_refilter; [simpl; tauto | assumption]]
            | let a := fresh in let H := fresh in intros a H; cbv beta in H]).
    eapply keeps_weaken; [apply keeps_ret | trivial].
  - apply grows_refl.
  - intros f st' Hst' _.
    eapply (wp_keeps G _ (fun _ => True));
      [apply keeps_main_content; intros x Hx; simpl in *; tauto | exact Hst' | |].
    + intros _ st'' Hst'' _. apply HG, Hst''.
    + intros _ st'' Hst''. apply HG, Hst''.
  - intros _ st' Hst'. apply HG, Hst'.
Qed.

(** X3.  The season select box of a loaded table offers one option,
    2024-25 (none when the table has no row), and it is on the page
    whatever happens after the sidebar.  The select box has returned one of
    its options exactly when the selected season is that one, and then the
    season filter keeps every row of the table. *)
Theorem season_box_offers_one_season c file header recs w
    (Hs : serves c file header recs) :
  let d := table header recs in
  let only := match recs with [] => None | _ :: _ => Some "2024-25" end in
  nth_error (page (snd (rerun c file w))) 2
  = Some (Sidebar, Selectbox "Select Season"
                     (match only with Some s => [s] | None => [] end)) /\
  (season_chosen d w <-> selected_season w = only) /\
  (selected_season w = only -> season_filtered d w = d).
Proof.
  intros d only.
  assert (Hopts : sorted_reverse (unique (map season (records d)))
                  = match only with Some s => [s] | None => [] end).
  { unfold d, only. rewrite seasons_table. destruct recs; reflexivity. }
  assert (Hiff : season_chosen d w <-> selected_season w = only).
  { unfold season_chosen, selectbox_returns. rewrite Hopts. unfold only.
    destruct recs as [| r recs]; [reflexivity |]. split.
    - intros (o & Ho & [<- | []]). exact Ho.
    - intros Ho. exists "2024-25". split; [exact Ho | left; reflexivity]. }
  split; [| split; [exact Hiff |]].
  - rewrite (rerun_served _ _ _ _ w Hs), <- Hopts.
    apply season_box_on_page. apply table_season_constant.
  - intros Hsel. apply season_filtered_all;
      [apply table_season_constant | apply Hiff, Hsel].
Qed.

Lemma season_box_offers_one_season_witness :
  serves None sample_file required_columns roster /\
  nth_error (page (snd (rerun None sample_file center_widgets))) 2
  = Some (Sidebar, Selectbox "Select Season" ["2024-25"]) /\
  season_filtered (table required_columns roster) center_widgets
  = table required_columns roster.
Proof.
  assert (Hs : serves None sample_file required_columns roster)
    by (right; split; reflexivity).
  split; [exact Hs |].
  destruct (season_box_offers_one_season None sample_file required_columns roster
              center_widgets Hs) as (H1 & _ & H3).
  split; [exact H1 | apply H3; reflexivity].
Defined.




(** *** Statements that return or raise a known exception *)

Lemma case_getitem_str d c (Q : list string -> State -> Prop) E st :
  (has_column d (str_label c) = true -> Q (map (str_field c) (records d)) st) ->
  (has_column d (str_label c) = false -> E (KeyError (str_label c)) st) ->
  wp (lift (getitem_str d c)) Q E st.
Proof.
  intros HQ HE. unfold wp, lift, getitem_str.
  destruct (has_column d (str_label c)); auto.
Qed.

Lemma case_column a c d (Q : list string -> State -> Prop) E st :
  nth_error (heap st) a = Some (OFrame d) ->
  (has_column d (str_label c) = true -> Q (map (str_field c) (records d)) st) ->
  (has_column d (str_label c) = false -> E (KeyError (str_label c)) st) ->
  wp (column a c) Q E st.
Proof.
  intros Ha HQ HE. unfold column. apply wp_bind.
  eapply exec_read_frame; [exact Ha |]. apply case_getitem_str; assumption.
Qed.

Lemma case_column_num a c d (Q : list Q -> State -> Prop) E st :
  nth_error (heap st) a = Some (OFrame d) ->
  (has_column d (num_label c) = true -> Q (map (num_field c) (records d)) st) ->
  (has_column d (num_label c) = false -> E (KeyError (num_label c)) st) ->
  wp (column_num a c) Q E st.
Proof.
  intros Ha HQ HE. unfold column_num. apply wp_bind.
  eapply exec_read_frame; [exact Ha |].
  unfold wp, lift, getitem_num. destruct (has_column d (num_label c)); auto.
Qed.

Lemma case_metric_mean_max label a c d (Q : unit -> State -> Prop) E st :
  nth_error (heap st) a = Some (OFrame d) ->
  (has_column d (num_label c) = true ->
   Q tt (mkState (cache st) (heap st) (globals st)
           (page st ++ [(Tab 1, Metric label
                                  (fixed1 "" (mean (map (num_field c) (records d))) "")
                                  (Some (fixed1 "Max: "
                                           (series_max (map (num_field c) (records d)))
                                           "")))]))) ->
  (has_column d (num_label c) = false -> E (KeyError (num_label c)) st) ->
  wp (metric_mean_max label a c) Q E st.
Proof.
  intros Ha HQ HE. unfold metric_mean_max. apply wp_bind.
  eapply case_column_num; [exact Ha | intros Hc | exact HE].
  apply wp_bind. eapply exec_column_num; [exact Ha | exact Hc |].
  apply exec_emit. auto.
Qed.

Lemma case_row_get d r c (Q : Q -> State -> Prop) E st :
  (has_column d (num_label c) = true -> Q (num_field c r) st) ->
  (has_column d (num_label c) = false -> E (KeyError (num_label c)) st) ->
  wp (lift (row_get d r c)) Q E st.
Proof.
  intros HQ HE. unfold wp, lift, row_get.
  destruct (has_column d (num_label c)); auto.
Qed.

Lemma case_row_get_str d r c (Q : string -> State -> Prop) E st :
  (has_column d (str_label c) = true -> Q (str_field c r) st) ->
  (has_column d (str_label c) = false -> E (KeyError (str_label c)) st) ->
  wp (lift (row_get_str d r c)) Q E st.
Proof.
  intros HQ HE. unfold wp, lift, row_get_str.
  destruct (has_column d (str_label c)); auto.
Qed.

Lemma case_metric_of label d r c suffix (Q : unit -> State -> Prop) E st :
  (has_column d (num_label c) = true ->
   Q tt (mkState (cache st) (heap st) (globals st)
           (page st ++ [(Tab 2, Metric label (fixed1 "" (Some (num_field c r)) suffix)
                                  None)]))) ->
  (has_column d (num_label c) = false -> E (KeyError (num_label c)) st) ->
  wp (metric_of label d r c suffix) Q E st.
Proof.
  intros HQ HE. unfold metric_of. apply wp_bind.
  apply case_row_get; [intros Hc | exact HE]. apply exec_emit. auto.
Qed.

(** The statistics of a row, read one axis after the other: the first axis
    the table lacks raises. *)
Lemma case_row_values d r (cats : list NumCol) (Q : list Q -> State -> Prop) E st :
  (Forall (fun c => has_column d (num_label c) = true) cats ->
   Q (map (fun c => num_field c r) cats) st) ->
  (forall c, In c cats -> has_column d (num_label c) = false ->
             E (KeyError (num_label c)) st) ->
  wp (for_each (fun cat => lift (row_get d r cat)) cats) Q E st.
Proof.
  revert Q. induction cats as [| c cats IH]; intros Q HQ HE; simpl.
  - apply HQ. constructor.
  - apply wp_bind. apply case_row_get.
    + intros Hc. apply wp_bind. apply IH.
      * intros Hall. apply exec_ret. apply HQ. constructor; assumption.
      * intros c' Hc'. apply HE. right. exact Hc'.
    + apply HE. left. reflexivity.
Qed.

(** *** The row of a player *)

Lemma has_column_mask d mask c : has_column (getitem_mask d mask) c = has_column d c.
Proof. reflexivity. Qed.

Lemma select_mask_none {A : Type} (l : list A) :
  select_mask (map (fun _ => false) l) l = [].
Proof. induction l as [| x l IH]; simpl; [reflexivity | exact IH]. Qed.

Lemma find_filter_hd {A : Type} (f : A -> bool) (l : list A) :
  find f l = hd_error (filter f l).
Proof.
  induction l as [| x l IH]; simpl; [reflexivity |].
  destruct (f x); [reflexivity | exact IH].
Qed.

(** [d[d['name'] == v].iloc[0]] is the first row under the name [v]. *)
Lemma iloc0_first_named d v :
  iloc0 (getitem_mask d (series_eq (map (str_field c_name) (records d)) v))
  = match v with
    | Some p =>
        match first_named d p with
        | Some r => Ok r
        | None => Raised IndexError
        end
    | None => Raised IndexError
    end.
Proof.
  destruct v as [p |].
  - rewrite getitem_mask_eq. unfold iloc0, first_named, records. cbn [rows].
    rewrite find_filter_hd.
    rewrite <- (records_filter (fun r => String.eqb (name r) p)).
    cbn [str_field].
    destruct (filter (fun r => String.eqb (name (snd r)) p) (rows d)); reflexivity.
  - unfold getitem_mask, series_eq, records, iloc0. cbn [rows].
    cbv beta iota. rewrite !map_map.
    rewrite (select_mask_none (rows d)). reflexivity.
Qed.

Lemma first_named_found d p :
  first_named d p <> None <-> In p (map name (records d)).
Proof.
  unfold first_named. split.
  - destruct (find _ (records d)) as [r |] eqn:Hf; [intros _ | contradiction].
    apply find_some in Hf. destruct Hf as [Hin He].
    apply String.eqb_eq in He. subst p. apply in_map. exact Hin.
  - intros Hin Hnone. apply in_map_iff in Hin. destruct Hin as (r & Hr & Hin).
    pose proof (find_none _ _ Hnone r Hin) as Hne. cbv beta in Hne.
    rewrite Hr, String.eqb_refl in Hne. discriminate.
Qed.

Lemma find_filter_implied {A : Type} (f g : A -> bool) (l : list A) :
  (forall x, f x = true -> g x = true) -> find f (filter g l) = find f l.
Proof.
  intros Hfg. induction l as [| x l IH]; simpl; [reflexivity |].
  destruct (g x) eqn:Hg; simpl.
  - destruct (f x); [reflexivity | exact IH].
  - destruct (f x) eqn:Hf; [| exact IH].
    rewrite (Hfg x Hf) in Hg. discriminate.
Qed.

Lemma records_isin f players :
  records (getitem_mask f (isin (map (str_field c_name) (records f)) players))
  = filter (fun r => existsb (String.eqb (name r)) players) (records f).
Proof.
  unfold getitem_mask, isin, records. cbn [rows]. rewrite !map_map.
  rewrite (select_mask_map
             (fun r => existsb (String.eqb (str_field c_name (snd r))) players)).
  apply (records_filter (fun r => existsb (String.eqb (name r)) players)).
Qed.

(** The first row of a selected player in the comparison table is the
    player's first row in the table it is taken from. *)
Lemma first_named_isin f players p :
  In p players ->
  first_named (getitem_mask f (isin (map (str_field c_name) (records f)) players)) p
  = first_named f p.
Proof.
  intros Hp. unfold first_named. rewrite records_isin.
  apply find_filter_implied. intros r Hr. apply String.eqb_eq in Hr.
  apply existsb_exists. exists p. split; [exact Hp |].
  rewrite Hr. apply String.eqb_refl.
Qed.

(** *** The loop of the radar chart *)

Lemma case_radar_traces a d players :
  forall traces (Q : list (string * list Q) -> State -> Prop) E st,
  nth_error (heap st) a = Some (OFrame d) ->
  has_column d "name" = true ->
  (forall c, In c categories -> has_column d (num_label c) = false ->
             E (KeyError (num_label c)) st) ->
  (~ Forall (fun p => first_named d p <> None) players -> E IndexError st) ->
  ((players <> [] -> Forall (fun c => has_column d (num_label c) = true) categories) ->
   Forall (fun p => first_named d p <> None) players ->
   Q (traces ++ radar_of d players) st) ->
  wp (radar_traces a players traces) Q E st.
Proof.
  induction players as [| p ps IH]; intros traces Q E st Ha Hn HK HI HQ.
  - cbn [radar_traces]. apply exec_ret.
    unfold radar_of in HQ. cbn [map] in HQ. rewrite app_nil_r in HQ.
    apply HQ; [intros H; contradiction | constructor].
  - cbn [radar_traces]. apply wp_bind.
    eapply exec_read_frame; [exact Ha |]. apply wp_bind.
    eapply exec_getitem_str; [exact Hn |]. apply wp_bind.
    rewrite iloc0_first_named.
    destruct (first_named d p) as [r |] eqn:Hr.
    + eapply exec_lift; [reflexivity |]. apply wp_bind.
      apply case_row_values; [intros Hcats | exact HK].
      apply IH; [exact Ha | exact Hn | exact HK | |].
      * intros Hnot. apply HI. intros Hall. apply Hnot.
        apply (Forall_inv_tail Hall).
      * intros _ Hps. rewrite <- app_assoc.
        change ([(p, map (fun c => num_field c r) categories)] ++ radar_of d ps)
          with ((p, row_values r) :: radar_of d ps).
        assert (Hq : radar_of d (p :: ps) = (p, row_values r) :: radar_of d ps)
          by (unfold radar_of; cbn [map]; rewrite Hr; reflexivity).
        rewrite <- Hq. apply HQ; [intros _; exact Hcats |].
        constructor; [rewrite Hr; discriminate | exact Hps].
    + unfold wp, lift. apply HI. intros Hall.
      apply (Forall_inv Hall). exact Hr.
Qed.

(** The largest value of every axis, on a table that has rows. *)
Lemma exec_maxima a d (cats : list NumCol) :
  forall (Q : list Q -> State -> Prop) E st,
  nth_error (heap st) a = Some (OFrame d) ->
  records d <> [] ->
  Forall (fun c => has_column d (num_label c) = true) cats ->
  (forall maxima,
     Forall2 (fun c m => py_max (map (num_field c) (records d)) = Ok m) cats maxima ->
     Q maxima st) ->
  wp (for_each (fun cat => s <- column_num a cat ;; lift (py_max s)) cats) Q E st.
Proof.
  induction cats as [| c cats IH]; intros Q E st Ha Hrows Hcats HQ; simpl.
  - apply HQ. constructor.
  - pose proof (Forall_inv Hcats) as Hc. pose proof (Forall_inv_tail Hcats) as Hcs.
    destruct (py_max_ok (map (num_field c) (records d))) as [m Hm].
    { intros H. apply map_eq_nil in H. contradiction. }
    apply wp_bind. apply wp_bind.
    eapply exec_column_num; [exact Ha | exact Hc |].
    eapply exec_lift; [exact Hm |].
    apply wp_bind. apply IH; [exact Ha | exact Hrows | exact Hcs |].
    intros maxima Hmax. apply exec_ret. apply HQ. constructor; assumption.
Qed.

Lemma melt_players_ok d :
  has_column d "name" = true -> has_column d "ppg" = true ->
  has_column d "rpg" = true -> has_column d "apg" = true ->
  exists bars, melt_players d = Ok bars.
Proof.
  intros Hn Hp Hr Ha. unfold melt_players. rewrite first_missing_none; [eauto |].
  repeat (constructor; [assumption |]). constructor.
Qed.

(** *** The outcome of an execution *)

Lemma wp_page_body d w (Q : unit -> State -> Prop) E :
  has_column d "season" = true ->
  has_column d "name" = true ->
  has_column d "position" = true ->
  wp (main_content w 0 (fst (after_sidebar d w))) Q E (snd (after_sidebar d w)) ->
  wp (page_body w 0) Q E (loaded_state d).
Proof.
  intros Hs Hn Hp H. unfold wp. rewrite (page_body_exec d w Hs Hn Hp). exact H.
Qed.

Lemma radar_of_isin f players :
  radar_of (getitem_mask f (isin (map (str_field c_name) (records f)) players)) players
  = radar_of f players.
Proof.
  unfold radar_of. apply map_ext_in. intros p Hp.
  rewrite (first_named_isin f players p Hp). reflexivity.
Qed.

(** The columns the first tab reads. *)
Lemma categories_read c :
  In c categories -> In (num_label c) ["name"; "ppg"; "rpg"; "apg"; "spg"; "bpg"].
Proof.
  unfold categories. simpl.
  intros [<- | [<- | [<- | [<- | [<- | []]]]]]; simpl; tauto.
Qed.

(** A statement that returns. *)
Lemma wp_returns {A : Type} (m : M A) (Q : A -> State -> Prop) st :
  wp m Q (fun _ _ => False) st ->
  exists a st', m st = (Ok a, st') /\ Q a st'.
Proof.
  unfold wp. destruct (m st) as [[a | e] st']; [eauto | contradiction].
Qed.

(** A statement that raises. *)
Lemma wp_raises {A : Type} (m : M A) (X : Exn -> Prop) st :
  wp m (fun _ _ => False) (fun e _ => X e) st ->
  exists e, fst (m st) = Raised e /\ X e.
Proof.
  unfold wp. destruct (m st) as [[a | e] st']; [contradiction |].
  intros HX. exists e. split; [reflexivity | exact HX].
Qed.

(** A column read of which the label is written out. *)
Ltac norm H :=
  rewrite ?has_column_mask, ?has_column_filtered in H;
  cbn [str_label num_label] in H.

Ltac key_error H :=
  cbv beta; try congruence;
  lazymatch goal with
  | HK : forall c, has_column _ c = false -> _ |- _ => apply (HK _ H); simpl; tauto
  | |- _ => right; eexists; split; [reflexivity | split; [simpl; tauto | exact H]]
  end.

Ltac at_heap := state_simpl; first [reflexivity | eassumption | at_address].

(** One statement of a run that may raise on a missing column. *)
Ltac walk :=
  lazymatch goal with
  | |- wp (bind _ _) _ _ _ => apply wp_bind; walk
  | |- wp (column _ _) _ _ _ =>
      eapply case_column;
      [ at_heap
      | let H := fresh "Hcol" in intros H; norm H; state_simpl
      | let H := fresh "Hcol" in intros H; norm H; key_error H ]
  | |- wp (metric_mean_max _ _ _) _ _ _ =>
      eapply case_metric_mean_max;
      [ at_heap
      | let H := fresh "Hcol" in intros H; norm H; state_simpl
      | let H := fresh "Hcol" in intros H; norm H; key_error H ]
  | |- wp (metric_of _ _ _ _ _) _ _ _ =>
      eapply case_metric_of;
      [ let H := fresh "Hcol" in intros H; norm H; state_simpl
      | let H := fresh "Hcol" in intros H; norm H; key_error H ]
  | |- wp (lift (getitem_str _ _)) _ _ _ =>
      eapply case_getitem_str;
      [ let H := fresh "Hcol" in intros H; norm H; state_simpl
      | let H := fresh "Hcol" in intros H; norm H; key_error H ]
  | |- wp (lift (row_get_str _ _ _)) _ _ _ =>
      eapply case_row_get_str;
      [ let H := fresh "Hcol" in intros H; norm H; state_simpl
      | let H := fresh "Hcol" in intros H; norm H; key_error H ]
  | |- wp (read_frame _) _ _ _ => eapply exec_read_frame; [at_heap | state_simpl]
  | |- wp (read_counts _) _ _ _ => eapply exec_read_counts; [at_heap | state_simpl]
  | |- wp (read_stats _) _ _ _ => eapply exec_read_stats; [at_heap | state_simpl]
  | |- wp (set_columns _ _) _ _ _ =>
      eapply exec_set_columns;
      [at_heap | state_simpl; rewrite ?replace_nth_last; cbn [counts_rows]]
  | |- _ => exec
  end.


(** The second tab: the statistics of the first row under the selected
    name, or the exception of the first thing that is missing. *)
Lemma tab2_outcome d w df (X : Exn -> Prop) (Q : unit -> State -> Prop) st :
  nth_error (heap st) df = Some (OFrame d) ->
  has_column d "name" = true ->
  (forall c, In c required_columns -> has_column d c = false -> X (KeyError c)) ->
  ((forall p, selected_player w = Some p -> first_named d p = None) -> X IndexError) ->
  (forall n r,
     selected_player w = Some n -> first_named d n = Some r -> well_formed d ->
     Q tt (mkState (cache st) (heap st) (globals st)
             (page st ++ individual_elements (unique (map name (records d))) n r))) ->
  wp (tab2 w df) Q (fun e _ => X e) st.
Proof.
  intros Hdf Hn HK HI HQ.
  assert (HK' : forall c, has_column d c = false -> In c required_columns ->
                          X (KeyError c)) by auto.
  unfold tab2. do 5 walk. apply wp_bind. rewrite iloc0_first_named.
  destruct (selected_player w) as [n |] eqn:Hpl;
    [destruct (first_named d n) as [r |] eqn:Hr |].
  2: { apply HI. intros p Hp. injection Hp as <-. exact Hr. }
  2: { apply HI. intros p Hp. discriminate Hp. }
  eapply exec_lift; [reflexivity |]. state_simpl.
  do 17 walk.
  assert (Hwf : well_formed d).
  { intros c Hc. unfold required_columns in Hc. simpl in Hc.
    repeat (destruct Hc as [<- | Hc]; [assumption |]). contradiction. }
  specialize (HQ n r eq_refl Hr Hwf).
  match goal with
  | |- Q tt ?s =>
      match type of HQ with
      | Q tt ?s' => replace s with s'; [exact HQ |]
      end
  end.
  unfold individual_elements, row_values. f_equal.
  rewrite <- !app_assoc. reflexivity.
Qed.

(** The first tab: the message, or the comparison of the selected players
    that are in the table [fd] the name [filtered_df] is bound to, or the
    exception of the first thing that is missing. *)
Lemma tab1_outcome w f fd (X : Exn -> Prop) (Q : unit -> State -> Prop) st :
  let cmp := getitem_mask fd (isin (map (str_field c_name) (records fd))
                                (selected_players w)) in
  nth_error (heap st) f = Some (OFrame fd) ->
  (forall c, In c ["name"; "ppg"; "rpg"; "apg"; "spg"; "bpg"] ->
             has_column fd c = false -> X (KeyError c)) ->
  (~ (forall p, In p (selected_players w) -> In p (map name (records fd))) ->
   X IndexError) ->
  (forall bars top st',
     (forall p, In p (selected_players w) -> In p (map name (records fd))) ->
     (selected_players w <> [] ->
      melt_players cmp = Ok bars /\ radar_range cmp top /\
      lookup "comparison_df" st' = Some (OFrame cmp)) ->
     cache st' = cache st ->
     (exists h, heap st' = heap st ++ h) ->
     page st' = page st ++ comparison_elements (selected_players w) cmp bars
                             (radar_of fd (selected_players w)) top ->
     Q tt st') ->
  wp (tab1 w f) Q (fun e _ => X e) st.
Proof.
  intros cmp Hf HK HI HQ.
  assert (HK' : forall c, has_column fd c = false ->
                          In c ["name"; "ppg"; "rpg"; "apg"; "spg"; "bpg"] ->
                          X (KeyError c)) by auto.
  unfold tab1. walk. subst cmp.
  destruct (selected_players w) as [| p ps] eqn:Hsel.
  - walk. apply (HQ [] 0%Q).
    + intros p [].
    + intros H. contradiction.
    + reflexivity.
    + exists []. symmetry. apply app_nil_r.
    + cbn [page comparison_elements]. rewrite <- app_assoc. reflexivity.
  - do 9 walk.
    destruct (melt_players_ok
                (getitem_mask fd (isin (map (str_field c_name) (records fd)) (p :: ps))))
      as [bars Hbars]; try assumption.
    do 3 walk. apply wp_bind.
    eapply case_radar_traces; [at_heap | exact Hcol | | |].
    + intros c Hc Hmiss. apply HK'; [exact Hmiss | apply categories_read, Hc].
    + intros Hnot. apply HI. intros Hall. apply Hnot.
      apply Forall_forall. intros q Hq. rewrite (first_named_isin _ _ _ Hq).
      apply first_named_found. apply Hall. exact Hq.
    + intros Hcats Hpresent. specialize (Hcats ltac:(discriminate)).
      cbn [app]. rewrite radar_of_isin.
      assert (Hrows : records (getitem_mask fd
                                 (isin (map (str_field c_name) (records fd)) (p :: ps)))
                      <> []).
      { pose proof (Forall_inv Hpresent) as Hp. apply first_named_found in Hp.
        intros Hnil. rewrite Hnil in Hp. destruct Hp. }
      apply wp_bind. eapply exec_maxima; [at_heap | exact Hrows | exact Hcats |].
      intros maxima Hmax.
      destruct (py_max_ok maxima) as [top Htop].
      { inversion Hmax. discriminate. }
      do 2 walk. apply (HQ bars top).
      * intros q Hq. rewrite Forall_forall in Hpresent.
        apply first_named_found. rewrite <- (first_named_isin fd (p :: ps) q Hq).
        apply Hpresent, Hq.
      * intros _. split; [exact Hbars |].
        split; [exists maxima; split; assumption |].
        unfold lookup. cbn [globals find fst heap]. names_eqb. cbn [find].
        at_address.
      * reflexivity.
      * eexists. reflexivity.
      * cbn [page comparison_elements]. rewrite <- !app_assoc. reflexivity.
Qed.

(** The columns of a table with the required columns, one by one. *)
Ltac required_columns_of Hwf :=
  let Hall := fresh "Hall" in
  pose proof (well_formed_columns _ Hwf) as Hall;
  unfold required_columns in Hall;
  repeat match goal with
         | H : Forall _ (_ :: _) |- _ => inversion H; clear H; subst
         end.

Ltac bound_in_store :=
  unfold lookup; cbn [globals find fst heap]; names_eqb; cbn [find]; at_address.

(** The third tab on a table with the required columns. *)
Lemma tab3_outcome d fd df f (Q : unit -> State -> Prop) E st :
  nth_error (heap st) df = Some (OFrame d) ->
  nth_error (heap st) f = Some (OFrame fd) ->
  well_formed d ->
  columns fd = columns d ->
  (forall sp st',
     groupby_mean d c_position = Ok sp ->
     cache st' = cache st ->
     (exists h, heap st' = heap st ++ h) ->
     page st'
     = page st
       ++ position_elements
            (mkCounts ["Position"; "Count"]
               (counts_rows (value_counts "position" (map position (records d)))))
            sp fd ->
     lookup "position_counts" st'
     = Some (OCounts (mkCounts ["Position"; "Count"]
                        (counts_rows (value_counts "position"
                                        (map position (records d)))))) ->
     lookup "position_stats" st' = Some (OStats sp) ->
     Q tt st') ->
  wp (tab3 df f) Q E st.
Proof.
  intros Hdf Hf Hwf Hcols HQ. required_columns_of Hwf.
  destruct (groupby_mean_ok d c_position Hwf ltac:(assumption)) as (sp & Hsp).
  assert (Hsc : px_scatter "Points vs Rebounds by Position" fd
                = Ok (ScatterChart "Points vs Rebounds by Position" fd)).
  { unfold px_scatter. rewrite first_missing_none; [reflexivity |].
    unfold has_column. rewrite Hcols.
    repeat (constructor; [assumption |]). constructor. }
  unfold tab3. do 15 walk. apply (HQ sp); try assumption.
  - reflexivity.
  - cbn [heap]. eexists. rewrite <- !app_assoc. reflexivity.
  - cbn [page]. unfold position_elements. rewrite <- !app_assoc. reflexivity.
  - bound_in_store.
  - bound_in_store.
Qed.

(** The fourth tab on a table with the required columns. *)
Lemma tab4_outcome d df (Q : unit -> State -> Prop) E st :
  nth_error (heap st) df = Some (OFrame d) ->
  well_formed d ->
  (forall stm t st',
     groupby_mean d c_team = Ok stm ->
     nlargest 10 c_efficiency d = Ok t ->
     cache st' = cache st ->
     (exists h, heap st' = heap st ++ h) ->
     page st'
     = page st
       ++ team_elements stm t
            (mkCounts ["Team"; "Count"]
               (counts_rows (value_counts "team" (map team (records d))))) ->
     lookup "team_stats" st' = Some (OStats stm) ->
     lookup "top_10_efficiency" st' = Some (OFrame t) ->
     lookup "team_counts" st'
     = Some (OCounts (mkCounts ["Team"; "Count"]
                        (counts_rows (value_counts "team" (map team (records d)))))) ->
     Q tt st') ->
  wp (tab4 df) Q E st.
Proof.
  intros Hdf Hwf HQ. required_columns_of Hwf.
  destruct (groupby_mean_ok d c_team Hwf ltac:(assumption)) as (stm & Hstm).
  destruct (nlargest_ok 10 c_efficiency d ltac:(assumption)) as (t & Ht).
  unfold tab4. do 19 walk. apply (HQ stm t); try assumption.
  - reflexivity.
  - cbn [heap]. eexists. rewrite <- !app_assoc. reflexivity.
  - cbn [page]. unfold team_elements. rewrite <- !app_assoc. reflexivity.
  - bound_in_store.
  - bound_in_store.
  - bound_in_store.
Qed.

(** The third and the fourth tab and the footer. *)
Lemma analysis_outcome d fd f (Q : unit -> State -> Prop) E st :
  nth_error (heap st) 0 = Some (OFrame d) ->
  nth_error (heap st) f = Some (OFrame fd) ->
  well_formed d ->
  columns fd = columns d ->
  (forall sp stm t st',
     groupby_mean d c_position = Ok sp ->
     groupby_mean d c_team = Ok stm ->
     nlargest 10 c_efficiency d = Ok t ->
     cache st' = cache st ->
     page st'
     = page st
       ++ position_elements
            (mkCounts ["Position"; "Count"]
               (counts_rows (value_counts "position" (map position (records d)))))
            sp fd
       ++ team_elements stm t
            (mkCounts ["Team"; "Count"]
               (counts_rows (value_counts "team" (map team (records d)))))
       ++ footer ->
     Q tt st') ->
  wp (tab3 0 f ;; tab4 0 ;;
      emit Main (Markdown "---") ;;
      emit Main (Markdown "Data source: NBA Players Statistics 2024-25 Season"))
    Q E st.
Proof.
  intros Hdf Hf Hwf Hcols HQ. apply wp_bind.
  eapply (tab3_outcome d fd 0 f); [exact Hdf | exact Hf | exact Hwf | exact Hcols |].
  intros sp st3 Hsp Hcache3 [h3 Hheap3] Hpage3 _ _. apply wp_bind.
  eapply (tab4_outcome d 0); [rewrite Hheap3; apply nth_error_app_old, Hdf | exact Hwf |].
  intros stm t st4 Hstm Ht Hcache4 _ Hpage4 _ _ _.
  do 2 walk. apply (HQ sp stm t); try assumption.
  - cbn [cache]. congruence.
  - cbn [page]. rewrite Hpage4, Hpage3. unfold footer.
    rewrite <- !app_assoc. reflexivity.
Qed.

Lemma columns_filtered d w : columns (filtered d w) = columns d.
Proof.
  unfold filtered. destruct (String.eqb (selected_position w) "All"); reflexivity.
Qed.

(** An execution that was served [d] ends in one of three ways: the page is
    complete, a player was not found, or a required column is missing. *)
Lemma page_body_outcome d w :
  has_column d "season" = true ->
  wp (page_body w 0)
    (fun _ st' => well_formed d /\ players_found d w /\ complete_page d w (page st'))
    (fun e _ => raise_ok d w e)
    (loaded_state d).
Proof.
  intros Hs.
  destruct (has_column d "name") eqn:Hn.
  2: { unfold page_body, sidebar, loaded_state. do 8 exec. walk. congruence. }
  destruct (has_column d "position") eqn:Hp.
  2: { unfold page_body, sidebar, loaded_state. do 11 exec. walk. congruence. }
  apply wp_page_body; try assumption.
  destruct (after_sidebar_filtered d w) as (_ & Hf & Hdf & Hpage).
  unfold main_content. do 3 walk.
  assert (HK : forall c, In c required_columns -> has_column d c = false ->
                         raise_ok d w (KeyError c)).
  { intros c Hc Hmiss. right. exists c. auto. }
  apply wp_bind.
  eapply (tab1_outcome w _ (filtered d w) (raise_ok d w)); [exact Hf | | |].
  { intros c Hc Hmiss. rewrite has_column_filtered in Hmiss. apply HK; [| exact Hmiss].
    simpl in Hc. unfold required_columns. simpl. tauto. }
  { intros Hnot. left. split; [reflexivity |]. intros [Hfound _]. contradiction. }
  intros bars top st1 Hfound Hcmp Hcache1 [h1 Hheap1] Hpage1. cbn [cache heap page] in *.
  assert (Hdf1 : nth_error (heap st1) 0 = Some (OFrame d))
    by (rewrite Hheap1; apply nth_error_app_old; exact Hdf).
  assert (Hf1 : nth_error (heap st1) (fst (after_sidebar d w))
                = Some (OFrame (filtered d w)))
    by (rewrite Hheap1; apply nth_error_app_old; exact Hf).
  apply wp_bind.
  eapply (tab2_outcome d w 0 (raise_ok d w)); [exact Hdf1 | exact Hn | exact HK | |].
  { intros Hnone. left. split; [reflexivity |].
    intros [_ (q & Hq & Hin)]. apply first_named_found in Hin.
    apply Hin. apply Hnone. exact Hq. }
  intros n r Hpl Hr Hwf.
  eapply (analysis_outcome d (filtered d w));
    [exact Hdf1 | exact Hf1 | exact Hwf | apply columns_filtered |].
  intros sp stm t st2 Hsp Hstm Ht _ Hpage2. cbn [page] in Hpage2.
  split; [exact Hwf |]. split.
  - split; [exact Hfound |]. exists n. split; [exact Hpl |].
    apply first_named_found. rewrite Hr. discriminate.
  - exists bars, top, n, r, sp, stm, t.
    split; [intros Hsel; split; apply (Hcmp Hsel) |].
    repeat (split; [assumption |]).
    rewrite Hpage2, Hpage1, Hpage. unfold main_header, comparison.
    rewrite <- !app_assoc. reflexivity.
Qed.

Lemma well_formed_table_header header recs :
  well_formed (table header recs) <-> incl required_columns header.
Proof.
  split; [| apply well_formed_table].
  intros Hwf c Hc. specialize (Hwf c Hc). rewrite has_column_table in Hwf.
  apply orb_true_iff in Hwf. destruct Hwf as [Hwf | Hwf].
  - apply existsb_exists in Hwf. destruct Hwf as (x & Hx & He).
    apply String.eqb_eq in He. subst x. exact Hx.
  - apply String.eqb_eq in Hwf. subst c. unfold required_columns in Hc.
    simpl in Hc. repeat (destruct Hc as [Hc | Hc]; [discriminate |]). contradiction.
Qed.

Lemma rerun_outcome c file header recs w :
  serves c file header recs ->
  let d := table header recs in
  match fst (rerun c file w) with
  | Ok _ => well_formed d /\ players_found d w /\
            complete_page d w (page (snd (rerun c file w)))
  | Raised e => raise_ok d w e
  end.
Proof.
  intros Hs d. rewrite (rerun_served _ _ _ _ w Hs).
  apply (wp_run (page_body w 0)
           (fun _ st' => well_formed d /\ players_found d w /\
                         complete_page d w (page st'))
           (fun e _ => raise_ok d w e) (loaded_state d)).
  apply page_body_outcome. apply table_season_constant.
Qed.

(** *** A page rendered to its end *)

Lemma rerun_complete c file header recs w :
  serves c file header recs ->
  fst (rerun c file w) = Ok tt ->
  let d := table header recs in
  well_formed d /\ players_found d w /\
  complete_page d w (page (snd (rerun c file w))).
Proof.
  intros Hs Hok. pose proof (rerun_outcome c file header recs w Hs) as H.
  rewrite Hok in H. exact H.
Qed.
(** *** The first tab *)

Lemma Forall2_in_left {A B : Type} (R : A -> B -> Prop) l1 l2 x :
  Forall2 R l1 l2 -> In x l1 -> exists y, In y l2 /\ R x y.
Proof.
  induction 1 as [| a b l1 l2 Hab _ IH]; intros Hin; [destruct Hin |].
  destruct Hin as [<- | Hin].
  - exists b. split; [left; reflexivity | exact Hab].
  - destruct (IH Hin) as (y & Hy & Hxy). exists y. split; [right; exact Hy | exact Hxy].
Qed.

Lemma Forall2_in_right {A B : Type} (R : A -> B -> Prop) l1 l2 y :
  Forall2 R l1 l2 -> In y l2 -> exists x, In x l1 /\ R x y.
Proof.
  induction 1 as [| a b l1 l2 Hab _ IH]; intros Hin; [destruct Hin |].
  destruct Hin as [<- | Hin].
  - exists a. split; [left; reflexivity | exact Hab].
  - destruct (IH Hin) as (x & Hx & Hxy). exists x. split; [right; exact Hx | exact Hxy].
Qed.

(** The upper end of the radial axis is the largest statistic of the
    compared rows. *)
Lemma radar_range_greatest cmp top :
  radar_range cmp top ->
  (forall r col, In r (records cmp) -> In col categories ->
                 (num_field col r <= top)%Q) /\
  (exists r col, In r (records cmp) /\ In col categories /\ num_field col r = top).
Proof.
  intros (maxima & Hmax & Htop).
  apply py_max_greatest in Htop. destruct Htop as [Hin Hall]. split.
  - intros r col Hr Hcol.
    destruct (Forall2_in_left _ _ _ _ Hmax Hcol) as (m & Hm & Hpy).
    apply py_max_greatest in Hpy. destruct Hpy as [_ Hle].
    rewrite Forall_forall in Hle, Hall.
    eapply Qle_trans; [apply Hle; apply in_map; exact Hr | apply Hall; exact Hm].
  - destruct (Forall2_in_right _ _ _ _ Hmax Hin) as (col & Hcol & Hpy).
    apply py_max_greatest in Hpy. destruct Hpy as [Hm _].
    apply in_map_iff in Hm. destruct Hm as (r & Hr & Hin').
    exists r, col. auto.
Qed.

Lemma first_named_row d p r :
  first_named d p = Some r -> In r (records d) /\ name r = p.
Proof.
  intros H. apply find_some in H. destruct H as [Hin He].
  apply String.eqb_eq in He. auto.
Qed.

(** X5.  The first tab with a selection that is not empty, entered with
    [filtered_df] bound to a table [fd] that has the six columns the tab
    reads.  The rows compared are the rows of [fd] whose name is selected.
    When every selected player has a row in [fd] the tab returns: it has
    bound [comparison_df] to the rows compared and shown the selection, the
    bar chart of their points, rebounds and assists, and the radar chart.
    The radar chart has one trace per selected player, in the order of the
    selection; the trace of a player holds the points, rebounds, assists,
    steals and blocks of the first row of [fd] under the player's name.  The
    upper end of its radial axis is a statistic of one of the rows compared,
    and no value of any trace exceeds it.  When a selected player has no
    row in [fd] the tab raises IndexError. *)
Theorem first_tab_compares_selection w f fd st
    (Hf : nth_error (heap st) f = Some (OFrame fd))
    (Hcols : Forall (fun c => has_column fd c = true)
               ["name"; "ppg"; "rpg"; "apg"; "spg"; "bpg"])
    (Hsel : selected_players w <> []) :
  let players := selected_players w in
  let cmp := getitem_mask fd (isin (map (str_field c_name) (records fd)) players) in
  let traces := radar_of fd players in
  records cmp
  = filter (fun r => existsb (String.eqb (name r)) players) (records fd) /\
  map fst traces = players /\
  ((forall p, In p players -> In p (map name (records fd))) ->
   exists bars top st',
     tab1 w f st = (Ok tt, st') /\
     lookup "comparison_df" st' = Some (OFrame cmp) /\
     melt_players cmp = Ok bars /\
     In (Tab 1, Write (String.append "Comparing: " (String.concat ", " players)))
       (page st') /\
     In (Tab 1, PlotlyChart (BarGrouped "Player Statistics Comparison" bars))
       (page st') /\
     In (Tab 1, PlotlyChart (RadarChart "Player Stats Comparison (Radar Chart)"
                               traces top))
       (page st') /\
     (forall p, In p players ->
        exists r, first_named fd p = Some r /\
                  In (p, [ppg r; rpg r; apg r; spg r; bpg r]) traces /\
                  Forall (fun v => (v <= top)%Q)
                    [ppg r; rpg r; apg r; spg r; bpg r]) /\
     (exists r col, In r (records cmp) /\ In col categories /\
                    num_field col r = top)) /\
  (~ (forall p, In p players -> In p (map name (records fd))) ->
   fst (tab1 w f st) = Raised IndexError).
Proof.
  intros players cmp traces.
  assert (HK : forall c, In c ["name"; "ppg"; "rpg"; "apg"; "spg"; "bpg"] ->
                         has_column fd c = false -> False).
  { intros c Hc Hmiss. rewrite Forall_forall in Hcols.
    rewrite (Hcols c Hc) in Hmiss. discriminate. }
  split; [apply records_isin |].
  split; [unfold traces, radar_of; rewrite map_map; apply map_id |].
  split.
  - intros Hfound.
    assert (H : wp (tab1 w f)
                  (fun _ st' =>
                     exists bars top,
                       (melt_players cmp = Ok bars /\ radar_range cmp top /\
                        lookup "comparison_df" st' = Some (OFrame cmp)) /\
                       page st' = page st ++ comparison_elements players cmp bars
                                               traces top)
                  (fun e _ => False) st).
    { apply (tab1_outcome w f fd (fun _ => False)); [exact Hf | | |].
      - intros c Hc Hmiss. exact (HK c Hc Hmiss).
      - intros Hnot. exact (Hnot Hfound).
      - intros bars top st' _ Hcmp _ _ Hpage. exists bars, top.
        split; [exact (Hcmp Hsel) | exact Hpage]. }
    apply wp_returns in H.
    destruct H as ([] & st' & Hrun & bars & top & (Hbars & Hrange & Hbound) & Hpage).
    destruct (radar_range_greatest _ _ Hrange) as [Hle Hattained].
    assert (Hshown : forall e,
               In e (comparison_elements players cmp bars traces top) ->
               In e (page st')).
    { intros e He. rewrite Hpage. apply in_or_app. right. exact He. }
    exists bars, top, st'.
    split; [exact Hrun |]. split; [exact Hbound |]. split; [exact Hbars |].
    unfold comparison_elements in Hshown. fold players in Hsel.
    destruct players as [| p0 ps] eqn:Hplayers; [contradiction |].
    split; [apply Hshown; simpl; tauto |].
    split; [apply Hshown; simpl; tauto |].
    split; [apply Hshown; simpl; tauto |].
    split; [| exact Hattained].
    intros p Hp. pose proof (Hfound p Hp) as Hin.
    apply first_named_found in Hin.
    destruct (first_named fd p) as [x |] eqn:Hx; [| contradiction].
    exists x. split; [reflexivity |]. split.
    + unfold traces, radar_of. apply in_map_iff. exists p.
      rewrite Hx. split; [reflexivity | exact Hp].
    + destruct (first_named_row _ _ _ Hx) as [Hrow Hname].
      assert (Hc : In x (records cmp)).
      { unfold cmp. rewrite records_isin. apply filter_In.
        split; [exact Hrow |]. apply existsb_exists. exists p.
        split; [exact Hp |]. rewrite Hname. apply String.eqb_refl. }
      repeat constructor.
      * apply (Hle x c_ppg Hc). simpl; tauto.
      * apply (Hle x c_rpg Hc). simpl; tauto.
      * apply (Hle x c_apg Hc). simpl; tauto.
      * apply (Hle x c_spg Hc). simpl; tauto.
      * apply (Hle x c_bpg Hc). simpl; tauto.
  - intros Hnot.
    assert (H : wp (tab1 w f) (fun _ _ => False)
                  (fun e _ => e = IndexError) st).
    { apply (tab1_outcome w f fd (fun e => e = IndexError)); [exact Hf | | |].
      - intros c Hc Hmiss. destruct (HK c Hc Hmiss).
      - intros _. reflexivity.
      - intros bars top st' Hfound _ _ _ _. exact (Hnot Hfound). }
    apply wp_raises in H. destruct H as (e & He & ->). exact He.
Qed.

Lemma first_tab_compares_selection_witness :
  nth_error (heap (loaded_state (table required_columns roster))) 0
  = Some (OFrame (table required_columns roster)) /\
  Forall (fun c => has_column (table required_columns roster) c = true)
    ["name"; "ppg"; "rpg"; "apg"; "spg"; "bpg"] /\
  selected_players default_widgets = ["Player 01"; "Player 02"] /\
  radar_of (table required_columns roster) ["Player 01"; "Player 02"]
  = [ ("Player 01", [34; 54 # 10; 7; 6 # 10; 4 # 10]);
      ("Player 02", [333 # 10; 109 # 10; 27 # 10; 21 # 10; 8 # 10]) ]%Q /\
  fst (tab1 default_widgets 0 (loaded_state (table required_columns roster)))
  = Ok tt /\
  fst (tab1 center_widgets 0
         (mkState None
            [OFrame (filtered (table required_columns roster) center_widgets)]
            [] []))
  = Raised IndexError.
Proof.
  set (d := table required_columns roster).
  assert (Hf : nth_error (heap (loaded_state d)) 0 = Some (OFrame d))
    by reflexivity.
  assert (Hcols : Forall (fun c => has_column d c = true)
                    ["name"; "ppg"; "rpg"; "apg"; "spg"; "bpg"])
    by (repeat constructor).
  assert (Hsel : selected_players default_widgets <> []) by discriminate.
  split; [exact Hf |]. split; [exact Hcols |]. split; [reflexivity |].
  split; [vm_compute; reflexivity |]. split.
  - destruct (first_tab_compares_selection default_widgets 0 d (loaded_state d)
                Hf Hcols Hsel) as (_ & _ & Hrun & _).
    destruct Hrun as (bars & top & st' & Hrun & _).
    + intros p Hp. simpl in Hp.
      destruct Hp as [<- | [<- | []]]; vm_compute; tauto.
    + rewrite Hrun. reflexivity.
  - apply (first_tab_compares_selection center_widgets 0
             (filtered d center_widgets)
             (mkState None [OFrame (filtered d center_widgets)] [] [])
             eq_refl).
    + repeat constructor.
    + discriminate.
    + intros Hall. specialize (Hall "Player 01" (or_introl eq_refl)).
      vm_compute in Hall.
      repeat (destruct Hall as [Hall | Hall]; [discriminate Hall |]).
      exact Hall.
Defined.

(** X6.  In the first tab, with a selection that is not empty all of whose
    players have a row in [filtered_df], each of the three metrics (points,
    rebounds, assists per game) shows, after "Max: ", the largest value of
    its column among the rows compared: the value of one of those rows,
    which none of them exceeds. *)
Theorem first_tab_metrics_show_maxima w f fd st
    (Hf : nth_error (heap st) f = Some (OFrame fd))
    (Hcols : Forall (fun c => has_column fd c = true)
               ["name"; "ppg"; "rpg"; "apg"; "spg"; "bpg"])
    (Hsel : selected_players w <> [])
    (Hfound : forall p, In p (selected_players w) -> In p (map name (records fd))) :
  let cmp := getitem_mask fd (isin (map (str_field c_name) (records fd))
                                (selected_players w)) in
  exists st',
    tab1 w f st = (Ok tt, st') /\
    records cmp <> [] /\
    Forall (fun metric =>
              exists shown top,
                In (Tab 1, Metric (fst metric) (fixed1 "" shown "")
                             (Some (fixed1 "Max: " (Some top) "")))
                  (page st') /\
                In top (map (num_field (snd metric)) (records cmp)) /\
                Forall (fun v => (v <= top)%Q)
                  (map (num_field (snd metric)) (records cmp)))
      [ ("Points Per Game", c_ppg); ("Rebounds Per Game", c_rpg);
        ("Assists Per Game", c_apg) ].
Proof.
  intros cmp.
  assert (H : wp (tab1 w f)
                (fun _ st' =>
                   exists bars top,
                     page st' = page st ++ comparison_elements (selected_players w)
                                             cmp bars
                                             (radar_of fd (selected_players w)) top)
                (fun e _ => False) st).
  { apply (tab1_outcome w f fd (fun _ => False)); [exact Hf | | |].
    - intros c Hc Hmiss. rewrite Forall_forall in Hcols.
      rewrite (Hcols c Hc) in Hmiss. discriminate.
    - intros Hnot. exact (Hnot Hfound).
    - intros bars top st' _ _ _ _ Hpage. exists bars, top. exact Hpage. }
  apply wp_returns in H. destruct H as ([] & st' & Hrun & bars & top & Hpage).
  assert (Hrows : records cmp <> []).
  { destruct (selected_players w) as [| p ps] eqn:Hplayers; [contradiction |].
    pose proof (Hfound p (or_introl eq_refl)) as Hin.
    apply in_map_iff in Hin. destruct Hin as (r & Hname & Hr).
    assert (Hc : In r (records cmp)).
    { unfold cmp. rewrite records_isin. apply filter_In.
      split; [exact Hr |]. cbn [existsb]. rewrite Hname, String.eqb_refl.
      reflexivity. }
    intros Hnil. rewrite Hnil in Hc. destruct Hc. }
  assert (Hmax : forall c, exists top',
             series_max (map (num_field c) (records cmp)) = Some top' /\
             In top' (map (num_field c) (records cmp)) /\
             Forall (fun v => (v <= top')%Q) (map (num_field c) (records cmp))).
  { intros c.
    destruct (series_max (map (num_field c) (records cmp))) as [x |] eqn:Hx.
    - exists x. split; [reflexivity | apply series_max_greatest, Hx].
    - apply series_max_none in Hx. apply map_eq_nil in Hx. contradiction. }
  assert (Hshown : forall e,
             In e (comparison_elements (selected_players w) cmp bars
                     (radar_of fd (selected_players w)) top) ->
             In e (page st')).
  { intros e He. rewrite Hpage. apply in_or_app. right. exact He. }
  exists st'. split; [exact Hrun |]. split; [exact Hrows |].
  unfold comparison_elements in Hshown.
  destruct (selected_players w) as [| p ps]; [contradiction |].
  destruct (Hmax c_ppg) as (x1 & E1 & Hin1 & Hle1).
  destruct (Hmax c_rpg) as (x2 & E2 & Hin2 & Hle2).
  destruct (Hmax c_apg) as (x3 & E3 & Hin3 & Hle3).
  change (map (num_field c_ppg) (records cmp)) with (map ppg (records cmp)) in E1.
  change (map (num_field c_rpg) (records cmp)) with (map rpg (records cmp)) in E2.
  change (map (num_field c_apg) (records cmp)) with (map apg (records cmp)) in E3.
  rewrite E1, E2, E3 in Hshown.
  constructor; [| constructor; [| constructor; [| constructor]]]; cbn [fst snd].
  - exists (mean (map ppg (records cmp))), x1.
    split; [apply Hshown; simpl; tauto | split; assumption].
  - exists (mean (map rpg (records cmp))), x2.
    split; [apply Hshown; simpl; tauto | split; assumption].
  - exists (mean (map apg (records cmp))), x3.
    split; [apply Hshown; simpl; tauto | split; assumption].
Qed.

Lemma first_tab_metrics_show_maxima_witness :
  nth_error (heap (loaded_state (table required_columns roster))) 0
  = Some (OFrame (table required_columns roster)) /\
  Forall (fun c => has_column (table required_columns roster) c = true)
    ["name"; "ppg"; "rpg"; "apg"; "spg"; "bpg"] /\
  selected_players default_widgets = ["Player 01"; "Player 02"] /\
  exists st',
    tab1 default_widgets 0 (loaded_state (table required_columns roster))
    = (Ok tt, st') /\
    exists shown,
      In (Tab 1, Metric "Points Per Game" (fixed1 "" shown "")
                   (Some (fixed1 "Max: " (Some 34%Q) "")))
        (page st').
Proof.
  set (d := table required_columns roster).
  assert (Hf : nth_error (heap (loaded_state d)) 0 = Some (OFrame d))
    by reflexivity.
  assert (Hcols : Forall (fun c => has_column d c = true)
                    ["name"; "ppg"; "rpg"; "apg"; "spg"; "bpg"])
    by (repeat constructor).
  assert (Hsel : selected_players default_widgets <> []) by discriminate.
  assert (Hfound : forall p, In p (selected_players default_widgets) ->
                             In p (map name (records d))).
  { intros p Hp. simpl in Hp.
    destruct Hp as [<- | [<- | []]]; vm_compute; tauto. }
  split; [exact Hf |]. split; [exact Hcols |]. split; [reflexivity |].
  destruct (first_tab_metrics_show_maxima default_widgets 0 d (loaded_state d)
              Hf Hcols Hsel Hfound) as (st' & Hrun & _ & Hmetrics).
  exists st'. split; [exact Hrun |].
  apply Forall_inv in Hmetrics. destruct Hmetrics as (shown & top & Hin & Htop & Hle).
  exists shown. cbn [fst snd] in Hin, Htop, Hle.
  assert (Htop34 : top = 34%Q).
  { vm_compute in Htop. destruct Htop as [<- | [<- | []]]; [reflexivity |].
    vm_compute in Hle. apply Forall_inv in Hle. exfalso. apply Hle. reflexivity. }
  rewrite <- Htop34. exact Hin.
Defined.
(** *** The second tab *)

(** X7.  The second tab, entered with [df] bound to a table [d] that has
    the ten required columns.  When the table has a row under the name
    chosen in the tab's select box, the tab returns and adds sixteen
    elements: its header, the select box over the distinct names of [d],
    the seven metrics, the team and the position, and the bar chart of the
    five statistics -- all of them of the first row of [d] under that name.
    The store is left as it was.  When no name is chosen (the table has no
    row) or the table has no row under the name, the tab raises
    IndexError. *)
Theorem second_tab_shows_first_row w df d st
    (Hdf : nth_error (heap st) df = Some (OFrame d))
    (Hwf : well_formed d) :
  (forall n r,
     selected_player w = Some n -> first_named d n = Some r ->
     In r (records d) /\ name r = n /\
     tab2 w df st
     = (Ok tt, mkState (cache st) (heap st) (globals st)
                 (page st ++ individual_elements (unique (map name (records d)))
                               n r))) /\
  ((forall n, selected_player w = Some n -> ~ In n (map name (records d))) ->
   fst (tab2 w df st) = Raised IndexError).
Proof.
  assert (Hname : has_column d "name" = true)
    by (apply Hwf; unfold required_columns; simpl; tauto).
  assert (HK : forall c, In c required_columns -> has_column d c = false -> False).
  { intros c Hc Hmiss. rewrite (Hwf c Hc) in Hmiss. discriminate. }
  split.
  - intros n r Hn Hr. destruct (first_named_row _ _ _ Hr) as [Hin Hnm].
    split; [exact Hin |]. split; [exact Hnm |].
    assert (H : wp (tab2 w df)
                  (fun _ st' =>
                     st' = mkState (cache st) (heap st) (globals st)
                             (page st ++ individual_elements
                                           (unique (map name (records d))) n r))
                  (fun e _ => False) st).
    { apply (tab2_outcome d w df (fun _ => False)); [exact Hdf | exact Hname | | |].
      - intros c Hc Hmiss. exact (HK c Hc Hmiss).
      - intros Hnone. rewrite (Hnone n Hn) in Hr. discriminate.
      - intros n' r' Hn' Hr' _. rewrite Hn in Hn'. injection Hn' as <-.
        rewrite Hr in Hr'. injection Hr' as <-. reflexivity. }
    apply wp_returns in H. destruct H as ([] & st' & Hrun & ->). exact Hrun.
  - intros Hnone.
    assert (H : wp (tab2 w df) (fun _ _ => False)
                  (fun e _ => e = IndexError) st).
    { apply (tab2_outcome d w df (fun e => e = IndexError));
        [exact Hdf | exact Hname | | |].
      - intros c Hc Hmiss. destruct (HK c Hc Hmiss).
      - intros _. reflexivity.
      - intros n r Hn Hr _. destruct (first_named_row _ _ _ Hr) as [Hin Hnm].
        apply (Hnone n Hn). rewrite <- Hnm. apply in_map. exact Hin. }
    apply wp_raises in H. destruct H as (e & He & ->). exact He.
Qed.

Lemma second_tab_shows_first_row_witness :
  nth_error (heap (loaded_state (table required_columns roster))) 0
  = Some (OFrame (table required_columns roster)) /\
  well_formed (table required_columns roster) /\
  (exists r,
     first_named (table required_columns roster) "Player 06" = Some r /\
     (name r, team r, position r, efficiency r)
     = ("Player 06", "DEN", "PG", (325 # 10)%Q) /\
     page (snd (tab2 guards_widgets 0
                  (loaded_state (table required_columns roster))))
     = individual_elements (unique (map name roster)) "Player 06" r) /\
  fst (tab2 (mkWidgets (Some "2024-25") [] "All" None) 0
         (loaded_state (table required_columns roster)))
  = Raised IndexError.
Proof.
  set (d := table required_columns roster).
  assert (Hdf : nth_error (heap (loaded_state d)) 0 = Some (OFrame d))
    by reflexivity.
  assert (Hwf : well_formed d) by (apply well_formed_table, incl_refl).
  split; [exact Hdf |]. split; [exact Hwf |].
  split.
  - destruct (first_named d "Player 06") as [r |] eqn:Hr;
      [| vm_compute in Hr; discriminate Hr].
    exists r. split; [reflexivity |].
    destruct (second_tab_shows_first_row guards_widgets 0 d (loaded_state d)
                Hdf Hwf) as [Hrun _].
    destruct (Hrun "Player 06" r eq_refl Hr) as (_ & _ & Hrun').
    split; [vm_compute in Hr; injection Hr as <-; reflexivity |].
    rewrite Hrun'. cbn [snd page loaded_state app].
    unfold d. rewrite (map_field_table name) by reflexivity. reflexivity.
  - apply (second_tab_shows_first_row (mkWidgets (Some "2024-25") [] "All" None)
             0 d (loaded_state d) Hdf Hwf).
    intros n Hn. discriminate Hn.
Defined.

(** *** The tables of counts *)

Lemma insert_by_count_sorted (x : string * nat) l :
  StronglySorted (fun a b => snd b <= snd a) l ->
  StronglySorted (fun a b => snd b <= snd a)
    (insert_by (fun y x => Nat.ltb (snd x) (snd y)) x l).
Proof.
  induction 1 as [| y l Hs IH Hy]; simpl.
  - constructor; constructor.
  - destruct (Nat.ltb_spec (snd x) (snd y)) as [Hlt | Hge].
    + constructor; [exact IH |].
      eapply Permutation_Forall; [apply insert_by_perm |].
      constructor; [lia | exact Hy].
    + constructor; [constructor; assumption |].
      constructor; [exact Hge |].
      eapply Forall_impl; [| exact Hy]. cbv beta. intros z Hz. lia.
Qed.

Lemma count_sort_sorted (l : list (string * nat)) :
  StronglySorted (fun a b => snd b <= snd a)
    (stable_sort (fun y x => Nat.ltb (snd x) (snd y)) l).
Proof.
  induction l as [| x l IH]; simpl; [constructor |].
  apply insert_by_count_sorted. exact IH.
Qed.

(** What [value_counts] counts. *)
Lemma value_counts_counts label s :
  counts_of s (counts_rows (value_counts label s)).
Proof.
  unfold value_counts. cbn [counts_rows].
  set (pairs := map (fun v => (v, count_of v s)) (unique s)).
  assert (Hperm : Permutation pairs
                    (stable_sort (fun y x => Nat.ltb (snd x) (snd y)) pairs))
    by apply stable_sort_perm.
  assert (Hfst : map fst pairs = unique s).
  { unfold pairs. rewrite map_map. apply map_id. }
  split; [| split; [| split]].
  - eapply Permutation_NoDup; [apply Permutation_map, Hperm |].
    rewrite Hfst. apply unique_NoDup.
  - intros v n. split.
    + intros Hin. apply (Permutation_in _ (Permutation_sym Hperm)) in Hin.
      unfold pairs in Hin. apply in_map_iff in Hin.
      destruct Hin as (x & Hx & Hin). injection Hx as -> <-.
      split; [apply unique_In, Hin | apply count_of_filter].
    + intros [Hin ->]. apply (Permutation_in _ Hperm).
      unfold pairs. apply in_map_iff. exists v.
      rewrite count_of_filter. split; [reflexivity | apply unique_in, Hin].
  - rewrite <- (total_perm _ _ Hperm). apply total_counts.
  - apply count_sort_sorted.
Qed.

Lemma counts_positive s rows :
  counts_of s rows -> Forall (fun line => 0 < snd line) rows.
Proof.
  intros (_ & Hin & _). apply Forall_forall. intros [v k] Hline. cbn [snd].
  apply Hin in Hline. destruct Hline as [Hv ->].
  rewrite <- count_of_filter. apply count_of_positive, Hv.
Qed.


(** *** The tables of groups *)

Lemma ascii_compare_lt_trans a b c :
  Ascii.compare a b = Lt -> Ascii.compare b c = Lt -> Ascii.compare a c = Lt.
Proof.
  unfold Ascii.compare. rewrite !N.compare_lt_iff. apply N.lt_trans.
Qed.

Lemma string_compare_lt_trans a :
  forall b c, String.compare a b = Lt -> String.compare b c = Lt ->
              String.compare a c = Lt.
Proof.
  induction a as [| x a IH]; intros [| y b] [| z c]; simpl; try discriminate;
    try reflexivity.
  destruct (Ascii.compare x y) eqn:Hxy; try discriminate.
  - apply Ascii.compare_eq_iff in Hxy. subst y.
    destruct (Ascii.compare x z) eqn:Hxz; try discriminate; [| reflexivity].
    apply IH.
  - intros _. destruct (Ascii.compare y z) eqn:Hyz; try discriminate.
    + apply Ascii.compare_eq_iff in Hyz. subst z. rewrite Hxy. reflexivity.
    + rewrite (ascii_compare_lt_trans x y z Hxy Hyz). reflexivity.
Qed.

(** [b] is not before [a]: the order the sort of the keys keeps. *)
Lemma not_before_trans a b c :
  String.ltb b a = false -> String.ltb c b = false -> String.ltb c a = false.
Proof.
  unfold String.ltb. intros Hab Hbc.
  destruct (String.compare c b) eqn:Hcb; try discriminate.
  - apply String.compare_eq_iff in Hcb. subst c. exact Hab.
  - destruct (String.compare b a) eqn:Hba; try discriminate.
    + apply String.compare_eq_iff in Hba. subst b.
      rewrite Hcb. reflexivity.
    + destruct (String.compare c a) eqn:Hca; try reflexivity.
      rewrite String.compare_antisym in Hcb, Hba.
      destruct (String.compare b c) eqn:Hbc'; try discriminate.
      destruct (String.compare a b) eqn:Hab'; try discriminate.
      pose proof (string_compare_lt_trans c a b Hca Hab') as H.
      rewrite String.compare_antisym, Hbc' in H. discriminate.
Qed.

Lemma insert_by_string_sorted x l :
  StronglySorted (fun a b => String.ltb b a = false) l ->
  StronglySorted (fun a b => String.ltb b a = false)
    (insert_by (fun y x => String.ltb y x) x l).
Proof.
  induction 1 as [| y l Hs IH Hy]; simpl.
  - constructor; constructor.
  - destruct (String.ltb y x) eqn:Hlt.
    + constructor; [exact IH |].
      eapply Permutation_Forall; [apply insert_by_perm |].
      constructor; [| exact Hy].
      unfold String.ltb in *. rewrite String.compare_antisym.
      destruct (String.compare y x); try discriminate. reflexivity.
    + constructor; [constructor; assumption |].
      constructor; [exact Hlt |].
      eapply Forall_impl; [| exact Hy]. cbv beta. intros z Hz.
      eapply not_before_trans; eauto.
Qed.

Lemma sorted_strings_sorted l :
  StronglySorted (fun a b => String.ltb b a = false) (sorted_strings l).
Proof.
  unfold sorted_strings. induction l as [| x l IH]; simpl; [constructor |].
  apply insert_by_string_sorted. exact IH.
Qed.

Lemma sorted_distinct_ascending l :
  NoDup l ->
  StronglySorted (fun a b => String.ltb b a = false) l ->
  StronglySorted (fun a b => String.ltb a b = true) l.
Proof.
  intros Hnd Hs. induction Hs as [| x l Hs IH Hx]; constructor.
  - apply IH. apply (NoDup_cons_iff x l). exact Hnd.
  - apply NoDup_cons_iff in Hnd. destruct Hnd as [Hnot _].
    rewrite Forall_forall in *. intros y Hy. specialize (Hx y Hy).
    unfold String.ltb in *. rewrite String.compare_antisym.
    destruct (String.compare y x) eqn:Hc; try discriminate; [| reflexivity].
    apply String.compare_eq_iff in Hc. subst y. contradiction.
Qed.

Lemma mean_of_values l : l <> [] -> mean l <> None.
Proof. destruct l; [contradiction | discriminate]. Qed.

(** What [groupby(key).agg(... 'mean')] holds when it returns. *)
Lemma groupby_mean_grouped d key s :
  groupby_mean d key = Ok s -> grouped_by d key s.
Proof.
  unfold groupby_mean.
  destruct (first_missing d _); [discriminate |]. intros H. injection H as <-.
  set (keys := sorted_strings (unique (map (str_field key) (records d)))).
  assert (Hperm : Permutation (unique (map (str_field key) (records d))) keys)
    by apply stable_sort_perm.
  assert (Hkeys : forall k, In k keys <-> In k (map (str_field key) (records d))).
  { intros k. split.
    - intros Hk. apply unique_In.
      apply (Permutation_in _ (Permutation_sym Hperm)). exact Hk.
    - intros Hk. apply (Permutation_in _ Hperm). apply unique_in. exact Hk. }
  unfold grouped_by. cbn [stats_columns stats_rows]. rewrite map_map.
  cbv zeta. cbn [stats_key]. rewrite map_id.
  split; [reflexivity |]. split; [| split; [exact Hkeys |]].
  - apply sorted_distinct_ascending; [| apply sorted_strings_sorted].
    eapply Permutation_NoDup; [exact Hperm | apply unique_NoDup].
  - apply Forall_forall. intros row Hrow. apply in_map_iff in Hrow.
    destruct Hrow as (k & <- & Hk). cbn [stats_key mean_ppg mean_rpg mean_apg
                                           mean_efficiency].
    assert (Hg : group_of key k d <> []).
    { apply Hkeys in Hk. apply in_map_iff in Hk. destruct Hk as (r & Hr & Hin).
      intros Hnil.
      assert (Hin' : In r (group_of key k d)).
      { apply filter_In. split; [exact Hin |]. apply String.eqb_eq. exact Hr. }
      rewrite Hnil in Hin'. destruct Hin'. }
    assert (Hm : forall f : PlayerRecord -> Q, mean (map f (group_of key k d)) <> None).
    { intros f. apply mean_of_values. intros Hnil. apply map_eq_nil in Hnil.
      contradiction. }
    split; [exact Hg |].
    split; [apply Hm |]. split; [apply Hm |]. split; apply Hm.
Qed.

(** *** The third tab *)

(** X8.  The third tab, entered with [df] bound to a table [d] that has
    the ten required columns and [filtered_df] bound to a table [fd] with
    the columns of [d], returns and adds four elements: its header, the pie
    chart, the bar chart of averages and the scatter chart.  The pie chart
    is drawn from [position_counts], with its columns renamed to Position
    and Count: one line per distinct position of [d], with the number of
    rows of [d] that have it; the counts are positive, add up to the number
    of rows of [d], and stand in descending order.  The bar chart is drawn
    from [position_stats]: one line per distinct position of [d], in
    ascending order of the positions, none of its means not-a-number.  Both
    are taken from [d], whatever [fd] is; only the scatter chart is drawn
    from [fd]. *)
Theorem third_tab_charts df f d fd st
    (Hdf : nth_error (heap st) df = Some (OFrame d))
    (Hf : nth_error (heap st) f = Some (OFrame fd))
    (Hwf : well_formed d)
    (Hcols : columns fd = columns d) :
  exists by_position stats st',
    tab3 df f st = (Ok tt, st') /\
    page st'
    = page st
      ++ [ (Tab 3, Header "Position Analysis");
           (Tab 3, PlotlyChart (PieChart "Distribution of Players by Position"
                                  (mkCounts ["Position"; "Count"] by_position)));
           (Tab 3, PlotlyChart (BarGrouped "Average Statistics by Position"
                                  (melt_stats stats)));
           (Tab 3, PlotlyChart (ScatterChart "Points vs Rebounds by Position" fd)) ] /\
    lookup "position_counts" st'
    = Some (OCounts (mkCounts ["Position"; "Count"] by_position)) /\
    lookup "position_stats" st' = Some (OStats stats) /\
    counts_of (map position (records d)) by_position /\
    Forall (fun line => 0 < snd line) by_position /\
    grouped_by d c_position stats.
Proof.
  assert (H : wp (tab3 df f)
                (fun _ st' =>
                   exists stats,
                     groupby_mean d c_position = Ok stats /\
                     page st'
                     = page st
                       ++ position_elements
                            (mkCounts ["Position"; "Count"]
                               (counts_rows (value_counts "position"
                                               (map position (records d)))))
                            stats fd /\
                     lookup "position_counts" st'
                     = Some (OCounts
                               (mkCounts ["Position"; "Count"]
                                  (counts_rows (value_counts "position"
                                                  (map position (records d)))))) /\
                     lookup "position_stats" st' = Some (OStats stats))
                (fun _ _ => False) st).
  { apply (tab3_outcome d fd df f); [exact Hdf | exact Hf | exact Hwf | exact Hcols |].
    intros sp st' Hsp _ _ Hpage Hcounts Hstats. exists sp. auto. }
  apply wp_returns in H.
  destruct H as ([] & st' & Hrun & stats & Hstats & Hpage & Hc & Hs).
  pose proof (value_counts_counts "position" (map position (records d))) as Hcounts.
  exists (counts_rows (value_counts "position" (map position (records d)))),
    stats, st'.
  split; [exact Hrun |]. split; [exact Hpage |]. split; [exact Hc |].
  split; [exact Hs |]. split; [exact Hcounts |].
  split; [apply (counts_positive _ _ Hcounts) |].
  apply groupby_mean_grouped, Hstats.
Qed.

Lemma third_tab_charts_witness :
  nth_error (heap (snd (after_sidebar (table required_columns roster)
                          guards_widgets))) 0
  = Some (OFrame (table required_columns roster)) /\
  nth_error (heap (snd (after_sidebar (table required_columns roster)
                          guards_widgets)))
    (fst (after_sidebar (table required_columns roster) guards_widgets))
  = Some (OFrame (filtered (table required_columns roster) guards_widgets)) /\
  well_formed (table required_columns roster) /\
  columns (filtered (table required_columns roster) guards_widgets)
  = columns (table required_columns roster) /\
  exists stats st',
    tab3 0 (fst (after_sidebar (table required_columns roster) guards_widgets))
      (snd (after_sidebar (table required_columns roster) guards_widgets))
    = (Ok tt, st') /\
    lookup "position_counts" st'
    = Some (OCounts (mkCounts ["Position"; "Count"]
                       [("PG", 5); ("SG", 5); ("SF", 5); ("PF", 5); ("C", 5)])) /\
    lookup "position_stats" st' = Some (OStats stats) /\
    map stats_key (stats_rows stats) = ["C"; "PF"; "PG"; "SF"; "SG"] /\
    In (Tab 3, PlotlyChart
                 (ScatterChart "Points vs Rebounds by Position"
                    (filtered (table required_columns roster) guards_widgets)))
      (page st').
Proof.
  set (d := table required_columns roster).
  set (st := snd (after_sidebar d guards_widgets)).
  set (f := fst (after_sidebar d guards_widgets)).
  assert (Hdf : nth_error (heap st) 0 = Some (OFrame d)) by reflexivity.
  assert (Hf : nth_error (heap st) f = Some (OFrame (filtered d guards_widgets)))
    by reflexivity.
  assert (Hwf : well_formed d) by (apply well_formed_table, incl_refl).
  assert (Hcols : columns (filtered d guards_widgets) = columns d) by reflexivity.
  split; [exact Hdf |]. split; [exact Hf |]. split; [exact Hwf |].
  split; [exact Hcols |].
  destruct (third_tab_charts 0 f d (filtered d guards_widgets) st Hdf Hf Hwf Hcols)
    as (bp & stats & st' & Hrun & Hpage & Hc & Hs & _ & _ & _).
  assert (Hrun' : snd (tab3 0 f st) = st') by (rewrite Hrun; reflexivity).
  exists stats, st'. split; [exact Hrun |].
  assert (Hbp : bp = [("PG", 5); ("SG", 5); ("SF", 5); ("PF", 5); ("C", 5)]).
  { assert (Hl : lookup "position_counts" (snd (tab3 0 f st))
                 = Some (OCounts (mkCounts ["Position"; "Count"]
                                    [("PG", 5); ("SG", 5); ("SF", 5); ("PF", 5);
                                     ("C", 5)])))
      by (vm_compute; reflexivity).
    rewrite Hrun in Hl. cbn [snd] in Hl. rewrite Hc in Hl.
    injection Hl as Hl. exact Hl. }
  split; [rewrite Hc, Hbp; reflexivity |]. split; [exact Hs |].
  split.
  - assert (Hl : lookup "position_stats" (snd (tab3 0 f st))
                 = match groupby_mean d c_position with
                   | Ok s => Some (OStats s)
                   | Raised _ => None
                   end)
      by (vm_compute; reflexivity).
    rewrite Hrun', Hs in Hl. vm_compute in Hl. injection Hl as ->. reflexivity.
  - rewrite Hpage. apply in_or_app. right. simpl. tauto.
Defined.
(** *** The fourth tab *)

Lemma insert_by_descending c x l :
  StronglySorted (fun a b => (num_field c (snd b) <= num_field c (snd a))%Q) l ->
  StronglySorted (fun a b => (num_field c (snd b) <= num_field c (snd a))%Q)
    (insert_by (larger c) x l).
Proof.
  induction 1 as [| y l Hs IH Hy]; simpl.
  - constructor; constructor.
  - destruct (larger c y x) eqn:E.
    + constructor; [exact IH |].
      eapply Permutation_Forall; [apply insert_by_perm |].
      constructor; [| exact Hy].
      apply Qlt_le_weak. apply larger_true. exact E.
    + assert (Hyx : (num_field c (snd y) <= num_field c (snd x))%Q).
      { apply Qnot_lt_le. intros Hlt. apply larger_true in Hlt. congruence. }
      constructor; [constructor; assumption |].
      constructor; [exact Hyx |].
      eapply Forall_impl; [| exact Hy]. cbv beta. intros z Hz.
      eapply Qle_trans; eauto.
Qed.

Lemma stable_sort_descending c l :
  StronglySorted (fun a b => (num_field c (snd b) <= num_field c (snd a))%Q)
    (stable_sort (larger c) l).
Proof.
  induction l as [| x l IH]; simpl; [constructor |].
  apply insert_by_descending. exact IH.
Qed.

(** What [nlargest] returns on a table of any number of rows. *)
Lemma nlargest_rows n c d t :
  nlargest n c d = Ok t ->
  columns t = columns d /\
  List.length (rows t) = Nat.min n (List.length (rows d)) /\
  incl (rows t) (rows d) /\
  StronglySorted (fun a b => (num_field c (snd b) <= num_field c (snd a))%Q)
    (rows t) /\
  (List.length (rows d) <= n -> Permutation (rows d) (rows t)).
Proof.
  unfold nlargest. destruct (has_column d (num_label c)); [| discriminate].
  intros H. injection H as <-. cbn [columns rows].
  assert (Hperm : Permutation (rows d) (stable_sort (larger c) (rows d)))
    by apply stable_sort_perm.
  split; [reflexivity |]. split; [| split; [| split]].
  - rewrite length_firstn, <- (Permutation_length Hperm). reflexivity.
  - intros r Hr. apply firstn_incl in Hr.
    eapply Permutation_in; [apply Permutation_sym, Hperm | exact Hr].
  - pose proof (stable_sort_descending c (rows d)) as Hs.
    rewrite <- (firstn_skipn n (stable_sort (larger c) (rows d))) in Hs.
    apply StronglySorted_app_inv in Hs. apply Hs.
  - intros Hle. rewrite firstn_all2; [exact Hperm |].
    rewrite <- (Permutation_length Hperm). exact Hle.
Qed.

(** X9.  The fourth tab, entered with [df] bound to a table [d] that has
    the ten required columns, returns and adds four elements: its header,
    the heat map, the bar chart of the most efficient players and the bar
    chart of the number of players by team.  The heat map is drawn from
    [team_stats]: one line per distinct team of [d], in ascending order of
    the teams, none of its means not-a-number.  The bar chart of the most
    efficient players is drawn from [top_10_efficiency]: ten rows of [d],
    or all of them when [d] has fewer, in descending order of efficiency.
    The last chart is drawn from [team_counts], with its columns renamed to
    Team and Count: one line per distinct team of [d], with the number of
    rows of [d] that have it; the counts add up to the number of rows of
    [d] and stand in descending order. *)
Theorem fourth_tab_charts df d st
    (Hdf : nth_error (heap st) df = Some (OFrame d))
    (Hwf : well_formed d) :
  exists stats top10 by_team st',
    tab4 df st = (Ok tt, st') /\
    page st'
    = page st
      ++ [ (Tab 4, Header "Team Analysis");
           (Tab 4, PlotlyChart (Heatmap "Team Performance Heatmap" stats));
           (Tab 4, PlotlyChart (BarPlayers "Top 10 Players by Efficiency" top10));
           (Tab 4, PlotlyChart (BarCounts "Number of Top 25 Players by Team"
                                  (mkCounts ["Team"; "Count"] by_team))) ] /\
    lookup "team_stats" st' = Some (OStats stats) /\
    lookup "top_10_efficiency" st' = Some (OFrame top10) /\
    lookup "team_counts" st' = Some (OCounts (mkCounts ["Team"; "Count"] by_team)) /\
    grouped_by d c_team stats /\
    nlargest 10 c_efficiency d = Ok top10 /\
    columns top10 = columns d /\
    List.length (rows top10) = Nat.min 10 (List.length (rows d)) /\
    incl (rows top10) (rows d) /\
    StronglySorted (fun a b => (efficiency (snd b) <= efficiency (snd a))%Q)
      (rows top10) /\
    (List.length (rows d) <= 10 -> Permutation (rows d) (rows top10)) /\
    counts_of (map team (records d)) by_team.
Proof.
  assert (H : wp (tab4 df)
                (fun _ st' =>
                   exists stats top10,
                     groupby_mean d c_team = Ok stats /\
                     nlargest 10 c_efficiency d = Ok top10 /\
                     page st'
                     = page st
                       ++ team_elements stats top10
                            (mkCounts ["Team"; "Count"]
                               (counts_rows (value_counts "team"
                                               (map team (records d))))) /\
                     lookup "team_stats" st' = Some (OStats stats) /\
                     lookup "top_10_efficiency" st' = Some (OFrame top10) /\
                     lookup "team_counts" st'
                     = Some (OCounts
                               (mkCounts ["Team"; "Count"]
                                  (counts_rows (value_counts "team"
                                                  (map team (records d)))))))
                (fun _ _ => False) st).
  { apply (tab4_outcome d df); [exact Hdf | exact Hwf |].
    intros stm t st' Hstm Ht _ _ Hpage H1 H2 H3. exists stm, t. auto 7. }
  apply wp_returns in H.
  destruct H as ([] & st' & Hrun & stats & top10 & Hstats & Htop & Hpage
                 & H1 & H2 & H3).
  destruct (nlargest_rows 10 c_efficiency d top10 Htop)
    as (Hc & Hlen & Hincl & Hsorted & Hall).
  exists stats, top10,
    (counts_rows (value_counts "team" (map team (records d)))), st'.
  split; [exact Hrun |]. split; [exact Hpage |].
  do 3 (split; [assumption |]).
  split; [apply groupby_mean_grouped, Hstats |].
  do 6 (split; [assumption |]).
  apply value_counts_counts.
Qed.

Lemma fourth_tab_charts_witness :
  nth_error (heap (loaded_state (table required_columns (firstn 3 roster)))) 0
  = Some (OFrame (table required_columns (firstn 3 roster))) /\
  well_formed (table required_columns (firstn 3 roster)) /\
  exists stats top10 by_team st',
    tab4 0 (loaded_state (table required_columns (firstn 3 roster)))
    = (Ok tt, st') /\
    lookup "team_stats" st' = Some (OStats stats) /\
    lookup "top_10_efficiency" st' = Some (OFrame top10) /\
    lookup "team_counts" st' = Some (OCounts (mkCounts ["Team"; "Count"] by_team)) /\
    map (fun r => (fst r, name (snd r), efficiency (snd r))) (rows top10)
    = [ (2%nat, "Player 03", 325 # 10); (0%nat, "Player 01", 316 # 10);
        (1%nat, "Player 02", 309 # 10) ]%Q /\
    total by_team = 3.
Proof.
  set (d := table required_columns (firstn 3 roster)).
  assert (Hdf : nth_error (heap (loaded_state d)) 0 = Some (OFrame d))
    by reflexivity.
  assert (Hwf : well_formed d) by (apply well_formed_table, incl_refl).
  split; [exact Hdf |]. split; [exact Hwf |].
  destruct (fourth_tab_charts 0 d (loaded_state d) Hdf Hwf)
    as (stats & top10 & bt & st' & Hrun & _ & H1 & H2 & H3 & _ & Htop & _ & _
        & _ & _ & _ & Hcounts).
  exists stats, top10, bt, st'.
  split; [exact Hrun |]. do 3 (split; [assumption |]). split.
  - vm_compute in Htop. injection Htop as <-. reflexivity.
  - destruct Hcounts as (_ & _ & Htotal & _). rewrite Htotal. reflexivity.
Defined.
(** *** What a complete page takes *)

(** X10.  An execution that was served a table and renders the page to its
    end was served a table with the ten required columns, in which every
    selected player has a row that passes the filters of the sidebar, and
    the player chosen in the second tab has a row.  So a required column
    that is missing, a selected player that the position filter leaves
    out, or a table without a row for the second tab, each keep the page
    from being rendered to its end.  On the complete page the elements
    stand in the order of the script: seven in the sidebar, the three of
    the title block, those of the first tab (two when no player is
    selected, eight otherwise), sixteen in the second tab, four in the
    third, four in the fourth, and the two of the footer. *)
Theorem complete_page_requirements c file header recs w
    (Hs : serves c file header recs) :
  (fst (rerun c file w) = Ok tt ->
   incl required_columns header /\
   (forall p, In p (selected_players w) ->
              In p (map name (records (filtered (table header recs) w)))) /\
   (exists p, selected_player w = Some p /\ In p (map name recs)) /\
   map fst (page (snd (rerun c file w)))
   = repeat Sidebar 7 ++ repeat Main 3
     ++ repeat (Tab 1) (match selected_players w with [] => 2 | _ :: _ => 8 end)
     ++ repeat (Tab 2) 16 ++ repeat (Tab 3) 4 ++ repeat (Tab 4) 4
     ++ repeat Main 2) /\
  (~ incl required_columns header -> fst (rerun c file w) <> Ok tt) /\
  (forall p, In p (selected_players w) ->
             ~ In p (map name (records (filtered (table header recs) w))) ->
             fst (rerun c file w) <> Ok tt) /\
  (recs = [] -> fst (rerun c file w) <> Ok tt).
Proof.
  assert (Hneed : fst (rerun c file w) = Ok tt ->
                  incl required_columns header /\
                  (forall p, In p (selected_players w) ->
                     In p (map name (records (filtered (table header recs) w)))) /\
                  (exists p, selected_player w = Some p /\ In p (map name recs)) /\
                  map fst (page (snd (rerun c file w)))
                  = repeat Sidebar 7 ++ repeat Main 3
                    ++ repeat (Tab 1)
                         (match selected_players w with [] => 2 | _ :: _ => 8 end)
                    ++ repeat (Tab 2) 16 ++ repeat (Tab 3) 4 ++ repeat (Tab 4) 4
                    ++ repeat Main 2).
  { intros Hok.
    destruct (rerun_complete c file header recs w Hs Hok)
      as (Hwf & [Hsel Hpl] & Hpage).
    split; [exact (proj1 (well_formed_table_header header recs) Hwf) |].
    split; [exact Hsel |]. split.
    - destruct Hpl as (p & Hp & Hin). exists p. split; [exact Hp |].
      rewrite (map_field_table name) in Hin by reflexivity. exact Hin.
    - destruct Hpage as (bars & top & n & r & sp & stm & t
                         & _ & _ & _ & _ & _ & _ & ->).
      rewrite !map_app. destruct (selected_players w); reflexivity. }
  split; [exact Hneed |]. split; [| split].
  - intros Hnot Hok. apply Hnot. apply (Hneed Hok).
  - intros p Hp Hnot Hok. apply Hnot.
    destruct (Hneed Hok) as (_ & Hsel & _). apply Hsel, Hp.
  - intros -> Hok. destruct (Hneed Hok) as (_ & _ & (p & _ & []) & _).
Qed.

Lemma complete_page_requirements_witness :
  serves None sample_file required_columns roster /\
  fst (rerun None sample_file default_widgets) = Ok tt /\
  List.length (page (snd (rerun None sample_file default_widgets))) = 44 /\
  In "Player 01" (selected_players center_widgets) /\
  fst (rerun None sample_file center_widgets) <> Ok tt.
Proof.
  assert (Hs : serves None sample_file required_columns roster)
    by (right; split; reflexivity).
  assert (Hok : fst (rerun None sample_file default_widgets) = Ok tt)
    by (vm_compute; reflexivity).
  split; [exact Hs |]. split; [exact Hok |]. split; [| split].
  - rewrite <- (length_map fst).
    destruct (complete_page_requirements None sample_file required_columns roster
                default_widgets Hs) as [Hneed _].
    destruct (Hneed Hok) as (_ & _ & _ & ->). reflexivity.
  - left. reflexivity.
  - destruct (complete_page_requirements None sample_file required_columns roster
                center_widgets Hs) as (_ & _ & Hout & _).
    apply (Hout "Player 01"); [left; reflexivity |].
    intros Hin. vm_compute in Hin.
    repeat (destruct Hin as [Hin | Hin]; [discriminate Hin |]).
    exact Hin.
Defined.

(** ** The ten most efficient players, in the fourth tab *)






(** ** Failures of the load *)

(** C6, as amended.  With an empty cache, a file that is missing, empty or
    cannot be parsed makes the load raise before anything is on the page:
    the exception is the outcome of the execution, nothing is cached, no
    object is made and no name is bound.  With a table in the cache the file
    is not read: the execution is the one it would be without any file.  A
    file that lacks a required column does not make the load fail: the table
    is loaded, cached and bound to [df], the sidebar title is on the page,
    and the execution raises before the page is complete an exception that
    is none of the load's. *)
Theorem load_failures (w : Widgets) :
  rerun None Absent w = (Raised FileNotFoundError, mkState None [] [] []) /\
  rerun None Empty w = (Raised EmptyDataError, mkState None [] [] []) /\
  rerun None Unparsable w = (Raised ParserError, mkState None [] [] []) /\
  (forall d file, rerun (Some d) file w = rerun (Some d) Absent w) /\
  (forall c file header recs,
     serves c file header recs ->
     ~ incl required_columns header ->
     df_intact (table header recs) (snd (rerun c file w)) /\
     hd_error (page (snd (rerun c file w)))
     = Some (Sidebar, Title "🏀 NBA Players Dashboard") /\
     exists e,
       fst (rerun c file w) = Raised e /\
       e <> FileNotFoundError /\ e <> EmptyDataError /\ e <> ParserError).
Proof.
  split; [reflexivity |]. split; [reflexivity |]. split; [reflexivity |].
  split; [reflexivity |].
  intros c file header recs Hs Hmiss.
  pose proof (rerun_outcome c file header recs w Hs) as Hout. cbv zeta in Hout.
  rewrite (rerun_served _ _ _ _ w Hs) in *. split; [| split].
  - apply page_body_df_intact.
  - apply page_starts_with_sidebar_title.
  - destruct (fst (page_body w 0 (loaded_state (table header recs)))) as [u | e].
    + exfalso. apply (table_not_well_formed header recs Hmiss). apply Hout.
    + exists e. split; [reflexivity |].
      destruct Hout as [[-> _] | (col & -> & _)]; repeat split; discriminate.
Qed.

(** C6 as stated fails on a file without the efficiency column: the load
    returns, the table is cached and bound to [df], the page is rendered up
    to the sixth metric of the second tab, and there the KeyError is raised.
    It fails as well on a missing file once a table is cached: the page is
    rendered to its end. *)
Lemma missing_column_counterexample :
  let out := rerun None no_efficiency_file default_widgets in
  lookup "df" (snd out) = Some (OFrame (table nine_columns roster)) /\
  cache (snd out) = Some (table nine_columns roster) /\
  fst out = Raised (KeyError "efficiency") /\
  List.length (page (snd out)) = 28 /\
  last (page (snd out)) (Main, Markdown "")
  = (Tab 2, Metric "Field Goal %" (fixed1 "" (Some (567 # 10)%Q) "%") None) /\
  fst (rerun (Some (table required_columns roster)) Absent default_widgets) = Ok tt.
Proof.
  vm_compute. repeat split; reflexivity.
Qed.

Lemma load_failures_witness :
  serves None no_efficiency_file nine_columns roster /\
  ~ incl required_columns nine_columns /\
  df_intact (table nine_columns roster)
    (snd (rerun None no_efficiency_file center_widgets)) /\
  hd_error (page (snd (rerun None no_efficiency_file center_widgets)))
  = Some (Sidebar, Title "🏀 NBA Players Dashboard") /\
  fst (rerun None no_efficiency_file center_widgets) = Raised IndexError /\
  List.length (page (snd (rerun None no_efficiency_file center_widgets))) = 17.
Proof.
  assert (Hs : serves None no_efficiency_file nine_columns roster)
    by (right; split; reflexivity).
  assert (Hmiss : ~ incl required_columns nine_columns).
  { intros H. assert (Hin : In "efficiency" nine_columns) by (apply H; simpl; tauto).
    simpl in Hin. repeat (destruct Hin as [Hin | Hin]; [discriminate |]).
    exact Hin. }
  split; [exact Hs |]. split; [exact Hmiss |].
  destruct (proj2 (proj2 (proj2 (proj2 (load_failures center_widgets))))
              None no_efficiency_file nine_columns roster Hs Hmiss)
    as (Hdf & Hhd & e & He & _).
  split; [exact Hdf |]. split; [exact Hhd |].
  split; vm_compute; reflexivity.
Defined.
